(** * Health model aggregation and dependency impact

    A shallow embedding of the in-memory core of the health model package:
    - [models/health_model_config.py]: [EntityType], [EntityDependency],
      [HealthModelEntity], [HealthModelConfig] with its queries, [to_dict]
      and [load_from_json];
    - [integration.py]: [HealthModelIntegration] with the derived views
      [get_workload_health], [get_health_tree], [get_dependency_impact],
      [get_health_summary] and [get_critical_path].

    Python values that the code passes around without looking inside them
    (JSON payloads, report dictionaries) are values of [JValue]. A Python
    [dict] is an association list in insertion order whose keys are unique;
    [Dict.set] is the assignment [d[k] = v]. *)

From Stdlib Require Import PrimFloat Ascii.
From stdpp Require Import base option list strings gmap.

Open Scope string_scope.
Open Scope list_scope.

#[local] Set Warnings "-register-all,-clear-no-such-hyp,-inexact-float".

(** ** Python / JSON values *)

Inductive JValue : Type :=
| JNull
| JBool (b : bool)
| JInt (z : Z)
| JFloat (f : float)
| JStr (s : string)
| JList (l : list JValue)
| JObj (o : list (string * JValue)).

(** [None] or a string, as a Python value. *)
Definition opt_str (o : option string) : JValue :=
  match o with
  | Some s => JStr s
  | None => JNull
  end.

(** ** Insertion-ordered dictionaries *)

Module Dict.

#[local] Abbreviation dict V := (list (string * V)).

(** [d.get(k)] *)
Fixpoint get {V : Type} (k : string) (d : dict V) : option V :=
  match d with
  | [] => None
  | (k', v) :: rest => if decide (k' = k) then Some v else get k rest
  end.

(** [d[k] = v]: an existing key keeps its position, a new key goes last. *)
Fixpoint set {V : Type} (k : string) (v : V) (d : dict V) : dict V :=
  match d with
  | [] => [(k, v)]
  | (k', v') :: rest =>
      if decide (k' = k) then (k', v) :: rest else (k', v') :: set k v rest
  end.

Definition keys {V : Type} (d : dict V) : list string := d.*1.

(** What every Python dictionary satisfies: no key occurs twice. *)
Definition wf {V : Type} (d : dict V) : Prop := NoDup (keys d).

End Dict.

Abbreviation dict V := (list (string * V)) (only parsing).

(** ** models/health_model_config.py *)

Inductive EntityType : Type :=
| WORKLOAD
| SERVICE
| DATABASE
| VM
| CONTAINER
| API
| LOAD_BALANCER
| CACHE
| MESSAGE_QUEUE
| CUSTOM.

(** [EntityType.value] *)
Definition EntityType_value (t : EntityType) : string :=
  match t with
  | WORKLOAD => "workload"
  | SERVICE => "service"
  | DATABASE => "database"
  | VM => "virtual_machine"
  | CONTAINER => "container"
  | API => "api"
  | LOAD_BALANCER => "load_balancer"
  | CACHE => "cache"
  | MESSAGE_QUEUE => "message_queue"
  | CUSTOM => "custom"
  end.

Definition EntityType_members : list EntityType :=
  [WORKLOAD; SERVICE; DATABASE; VM; CONTAINER; API; LOAD_BALANCER; CACHE;
   MESSAGE_QUEUE; CUSTOM].

(** [EntityType(s)]: the member whose value is [s], in definition order;
    [None] stands for the [ValueError] of the enumeration. *)
Definition EntityType_of_value (s : string) : option EntityType :=
  List.find (fun t => bool_decide (EntityType_value t = s)) EntityType_members.

Record EntityDependency : Type := mkEntityDependency {
  source_entity_id : string;   (* the entity being depended upon *)
  target_entity_id : string;   (* the entity that depends *)
  dependency_type : string;
  criticality : string
}.

Record HealthModelEntity : Type := mkHealthModelEntity {
  id : string;
  name : string;
  entity_type : EntityType;
  description : string;
  parent_entity_id : option string;
  azure_resource_id : option string;
  signals : dict string;
  metadata : dict JValue
}.

(** The header fields are never inspected: they hold whatever value the
    constructor was given ([load_from_json] passes [data.get(...)]). *)
Record HealthModelConfig : Type := mkHealthModelConfig {
  model_id : JValue;
  model_name : JValue;
  config_description : JValue;
  owner_team : JValue;
  entities : dict HealthModelEntity;
  dependencies : list EntityDependency;
  created_at : JValue;
  last_modified : JValue;
  version : JValue
}.

Definition with_entities (es : dict HealthModelEntity) (lm : JValue)
    (c : HealthModelConfig) : HealthModelConfig :=
  {| model_id := model_id c; model_name := model_name c;
     config_description := config_description c; owner_team := owner_team c;
     entities := es; dependencies := dependencies c;
     created_at := created_at c; last_modified := lm; version := version c |}.

Definition with_dependencies (ds : list EntityDependency) (lm : JValue)
    (c : HealthModelConfig) : HealthModelConfig :=
  {| model_id := model_id c; model_name := model_name c;
     config_description := config_description c; owner_team := owner_team c;
     entities := entities c; dependencies := ds;
     created_at := created_at c; last_modified := lm; version := version c |}.

(** [add_entity]; [now] is the reading of the clock. *)
Definition add_entity (now : string) (entity : HealthModelEntity)
    (c : HealthModelConfig) : HealthModelConfig :=
  with_entities (Dict.set (id entity) entity (entities c)) (JStr now) c.

(** [add_dependency] *)
Definition add_dependency (now : string) (dependency : EntityDependency)
    (c : HealthModelConfig) : HealthModelConfig :=
  with_dependencies (dependencies c ++ [dependency]) (JStr now) c.

(** [get_entity_dependencies]: the edges whose target is [entity_id]. *)
Definition get_entity_dependencies (c : HealthModelConfig) (entity_id : string)
    : list EntityDependency :=
  List.filter (fun d => bool_decide (target_entity_id d = entity_id))
              (dependencies c).

(** [get_entity_dependents]: the edges whose source is [entity_id]. *)
Definition get_entity_dependents (c : HealthModelConfig) (entity_id : string)
    : list EntityDependency :=
  List.filter (fun d => bool_decide (source_entity_id d = entity_id))
              (dependencies c).

(** ** api/health_state_client.py: the health records

    [get_all_entities_health] returns a dictionary from entity id to the
    record built by [_normalize_response]. The integration reads four of its
    keys; [state] and [state_color] hold strings and [details] holds the
    [properties] object of the response. A key may be missing ([None]).
    The keys the integration never reads are kept in [other_items]. *)

Record HealthRecord : Type := mkHealthRecord {
  state : option string;
  state_color : option string;
  timestamp : option JValue;
  details : option (dict JValue);
  other_items : dict JValue
}.

(** [{}], the default of [all_health.get(entity_id, {})]. *)
Definition empty_health : HealthRecord :=
  {| state := None; state_color := None; timestamp := None; details := None;
     other_items := [] |}.

(** ** Strings *)

(** [str.lower] on the letters [A]-[Z]; every other byte is kept. (No
    character outside ASCII lower-cases to a letter of "healthy", "degraded"
    or "unhealthy", so the comparisons below see what Python sees.) *)
Definition lower_ascii (a : Ascii.ascii) : Ascii.ascii :=
  let n := Ascii.nat_of_ascii a in
  if (65 <=? n)%nat && (n <=? 90)%nat then Ascii.ascii_of_nat (n + 32) else a.

Fixpoint lower (s : string) : string :=
  match s with
  | EmptyString => EmptyString
  | String a rest => String (lower_ascii a) (lower rest)
  end.

(** ** Floats *)

(** [float(n)] for a non-negative integer (exact below [2^53]). *)
Fixpoint float_of_positive (p : positive) : float :=
  match p with
  | xH => 1%float
  | xO q => (2 * float_of_positive q)%float
  | xI q => (2 * float_of_positive q + 1)%float
  end.

Definition float_of_nat (n : nat) : float :=
  match N.of_nat n with
  | N0 => 0%float
  | Npos p => float_of_positive p
  end.

(** ** integration.py: HealthModelIntegration

    [self.config] is the argument [config]; the snapshot returned by
    [self.api_client.get_all_entities_health()] is the argument
    [all_health]. *)

(** [health.get('details', {}).get('kind') == 'System_HealthModelRoot'] *)
Definition is_model_root (health : HealthRecord) : bool :=
  match Dict.get "kind" (default [] (details health)) with
  | Some (JStr kind) => bool_decide (kind = "System_HealthModelRoot")
  | _ => false
  end.

(** The [for] loop of [get_workload_health]: the first record that is the
    model root makes the function return. *)
Fixpoint find_model_root (items : dict HealthRecord) : option HealthRecord :=
  match items with
  | [] => None
  | (entity_id, health) :: rest =>
      if is_model_root health then Some health else find_model_root rest
  end.

Definition unknown_health : HealthRecord :=
  {| state := Some "Unknown"; state_color := Some "gray"; timestamp := None;
     details := None; other_items := [("state_code", JStr "UNKNOWN")] |}.

Definition get_workload_health (all_health : dict HealthRecord) : HealthRecord :=
  match find_model_root all_health with
  | Some health => health
  | None =>
      (* Fallback: return first entity if no root found *)
      match all_health with
      | (_, health) :: _ => health
      | [] => unknown_health
      end
  end.

(** [_get_entity_deps] *)
Definition _get_entity_deps (config : HealthModelConfig) (entity_id : string)
    : JValue :=
  let dependencies := get_entity_dependencies config entity_id in
  let dependents := get_entity_dependents config entity_id in
  JObj [("depends_on", JList (map (fun d => JStr (source_entity_id d)) dependencies));
        ("depended_by", JList (map (fun d => JStr (target_entity_id d)) dependents))].

(** The dictionary stored at [tree[entity_id]]. *)
Definition tree_node (config : HealthModelConfig) (entity_id : string)
    (entity : HealthModelEntity) (health : HealthRecord) : JValue :=
  JObj [("name", JStr (name entity));
        ("type", JStr (EntityType_value (entity_type entity)));
        ("state", JStr (default "Unknown" (state health)));
        ("state_color", JStr (default "gray" (state_color health)));
        ("timestamp", default JNull (timestamp health));
        ("parent", opt_str (parent_entity_id entity));
        ("signals", JObj (map (fun kv => (kv.1, JStr kv.2)) (signals entity)));
        ("dependencies", _get_entity_deps config entity_id)].

Definition get_health_tree (config : HealthModelConfig)
    (all_health : dict HealthRecord) : dict JValue :=
  fold_left
    (fun tree item =>
       let entity_id := item.1 in
       let entity := item.2 in
       let health := default empty_health (Dict.get entity_id all_health) in
       Dict.set entity_id (tree_node config entity_id entity health) tree)
    (entities config) [].

(** *** get_dependency_impact *)

Definition severity_levels : dict Z :=
  [("critical", 3%Z); ("high", 2%Z); ("medium", 1%Z); ("low", 0%Z)].

Definition severity_map (rank : Z) : option string :=
  if decide (rank = 3%Z) then Some "critical"
  else if decide (rank = 2%Z) then Some "high"
  else if decide (rank = 1%Z) then Some "medium"
  else if decide (rank = 0%Z) then Some "low"
  else None.

(** [severity_levels.get(d.criticality, 0)] *)
Definition severity_of (d : EntityDependency) : Z :=
  default 0%Z (Dict.get (criticality d) severity_levels).

(** [impact[key].append(item)] for a key that holds a list. *)
Definition list_append (key : string) (item : JValue) (d : dict JValue)
    : dict JValue :=
  match Dict.get key d with
  | Some (JList l) => Dict.set key (JList (l ++ [item])) d
  | _ => d
  end.

Definition affected_service (affected_entity : HealthModelEntity)
    (dep : EntityDependency) : JValue :=
  JObj [("entity_id", JStr (id affected_entity));
        ("entity_name", JStr (name affected_entity));
        ("criticality", JStr (criticality dep));
        ("dependency_type", JStr (dependency_type dep))].

Definition get_dependency_impact (config : HealthModelConfig)
    (entity_id : string) : dict JValue :=
  let dependents := get_entity_dependents config entity_id in
  let impact : dict JValue :=
    [("failed_entity", JStr entity_id);
     ("failed_entity_name",
        match Dict.get entity_id (entities config) with
        | Some entity => JStr (name entity)
        | None => JNull
        end);
     ("affected_services", JList []);
     ("impact_severity", JStr "low")] in
  match dependents with
  | [] => impact
  | d :: ds =>
      let max_severity := fold_left Z.max (map severity_of ds) (severity_of d) in
      let impact :=
        Dict.set "impact_severity"
                 (JStr (default "low" (severity_map max_severity))) impact in
      fold_left
        (fun impact dep =>
           match Dict.get (target_entity_id dep) (entities config) with
           | Some affected_entity =>
               list_append "affected_services"
                           (affected_service affected_entity dep) impact
           | None => impact
           end)
        dependents impact
  end.

(** *** get_health_summary *)

(** The four keys [healthy], [degraded], [unhealthy], [unknown] of
    [health_percentages] and of [entities_by_state]. *)
Record Buckets (A : Type) : Type := mkBuckets {
  healthy : A;
  degraded : A;
  unhealthy : A;
  unknown : A
}.
Arguments mkBuckets {A}.
Arguments healthy {A}.
Arguments degraded {A}.
Arguments unhealthy {A}.
Arguments unknown {A}.

Record HealthSummary : Type := mkHealthSummary {
  summary_timestamp : string;
  total_entities : nat;
  healthy_count : nat;
  degraded_count : nat;
  unhealthy_count : nat;
  unknown_count : nat;
  health_percentages : Buckets float;
  entities_by_state : Buckets (list JValue)
}.

(** [{"entity_id": entity_id, "entity_name": entity_name}] *)
Definition state_entry (entity_id : string) (health : HealthRecord) : JValue :=
  let entity_name :=
    default (JStr entity_id)
            (Dict.get "displayName" (default [] (details health))) in
  JObj [("entity_id", JStr entity_id); ("entity_name", entity_name)].

(** One iteration of the counting loop. *)
Definition count_entity (summary : HealthSummary) (item : string * HealthRecord)
    : HealthSummary :=
  let entity_id := item.1 in
  let health := item.2 in
  let state := lower (default "Unknown" (state health)) in
  let entry := state_entry entity_id health in
  let by_state := entities_by_state summary in
  if decide (state = "healthy") then
    {| summary_timestamp := summary_timestamp summary;
       total_entities := total_entities summary;
       healthy_count := healthy_count summary + 1;
       degraded_count := degraded_count summary;
       unhealthy_count := unhealthy_count summary;
       unknown_count := unknown_count summary;
       health_percentages := health_percentages summary;
       entities_by_state :=
         {| healthy := healthy by_state ++ [entry];
            degraded := degraded by_state;
            unhealthy := unhealthy by_state;
            unknown := unknown by_state |} |}
  else if decide (state = "degraded") then
    {| summary_timestamp := summary_timestamp summary;
       total_entities := total_entities summary;
       healthy_count := healthy_count summary;
       degraded_count := degraded_count summary + 1;
       unhealthy_count := unhealthy_count summary;
       unknown_count := unknown_count summary;
       health_percentages := health_percentages summary;
       entities_by_state :=
         {| healthy := healthy by_state;
            degraded := degraded by_state ++ [entry];
            unhealthy := unhealthy by_state;
            unknown := unknown by_state |} |}
  else if decide (state = "unhealthy") then
    {| summary_timestamp := summary_timestamp summary;
       total_entities := total_entities summary;
       healthy_count := healthy_count summary;
       degraded_count := degraded_count summary;
       unhealthy_count := unhealthy_count summary + 1;
       unknown_count := unknown_count summary;
       health_percentages := health_percentages summary;
       entities_by_state :=
         {| healthy := healthy by_state;
            degraded := degraded by_state;
            unhealthy := unhealthy by_state ++ [entry];
            unknown := unknown by_state |} |}
  else (* unknown or any other state *)
    {| summary_timestamp := summary_timestamp summary;
       total_entities := total_entities summary;
       healthy_count := healthy_count summary;
       degraded_count := degraded_count summary;
       unhealthy_count := unhealthy_count summary;
       unknown_count := unknown_count summary + 1;
       health_percentages := health_percentages summary;
       entities_by_state :=
         {| healthy := healthy by_state;
            degraded := degraded by_state;
            unhealthy := unhealthy by_state;
            unknown := unknown by_state ++ [entry] |} |}.

(** [(count / total) * 100] *)
Definition percentage (count total : nat) : float :=
  (float_of_nat count / float_of_nat total * 100)%float.

(** The block under [# Calculate percentages]. *)
Definition calculate_percentages (summary : HealthSummary) : HealthSummary :=
  let total := total_entities summary in
  if decide (0 < total) then
    {| summary_timestamp := summary_timestamp summary;
       total_entities := total_entities summary;
       healthy_count := healthy_count summary;
       degraded_count := degraded_count summary;
       unhealthy_count := unhealthy_count summary;
       unknown_count := unknown_count summary;
       health_percentages :=
         {| healthy := percentage (healthy_count summary) total;
            degraded := percentage (degraded_count summary) total;
            unhealthy := percentage (unhealthy_count summary) total;
            unknown := percentage (unknown_count summary) total |};
       entities_by_state := entities_by_state summary |}
  else summary.

(** [now] is [datetime.now(timezone.utc).isoformat()]. *)
Definition get_health_summary (now : string) (all_health : dict HealthRecord)
    : HealthSummary :=
  let summary :=
    {| summary_timestamp := now;
       total_entities := length all_health;
       healthy_count := 0;
       degraded_count := 0;
       unhealthy_count := 0;
       unknown_count := 0;
       health_percentages :=
         {| healthy := 0%float; degraded := 0%float;
            unhealthy := 0%float; unknown := 0%float |};
       entities_by_state :=
         {| healthy := []; degraded := []; unhealthy := []; unknown := [] |} |} in
  calculate_percentages (fold_left count_entity all_health summary).

(** *** get_critical_path *)

(** The two variables [trace_critical] closes over. *)
Record TraceState : Type := mkTraceState {
  visited : gset string;
  critical_path : list string
}.

(** [d.criticality in ["critical", "high"]] *)
Definition is_critical (d : EntityDependency) : bool :=
  bool_decide (criticality d ∈ ["critical"; "high"]).

(** The nested function [trace_critical]. A call uses one unit of [fuel];
    [None] is a call chain deeper than the fuel given. *)
Fixpoint trace_critical (fuel : nat) (config : HealthModelConfig)
    (entity_id : string) (st : TraceState) : option TraceState :=
  match fuel with
  | O => None
  | S fuel' =>
      if decide (entity_id ∈ visited st) then Some st
      else
        let st :=
          {| visited := visited st ∪ {[entity_id]};
             critical_path := critical_path st ++ [entity_id] |} in
        let dependencies := get_entity_dependencies config entity_id in
        let critical_deps := List.filter is_critical dependencies in
        fold_left
          (fun acc dep =>
             match acc with
             | Some st => trace_critical fuel' config (source_entity_id dep) st
             | None => None
             end)
          critical_deps (Some st)
  end.

(** [trace_critical("root")] on an empty path, with fuel [fuel]. *)
Definition critical_path_with (fuel : nat) (config : HealthModelConfig)
    : option (list string) :=
  critical_path <$>
    trace_critical fuel config "root"
                   {| visited := ∅; critical_path := [] |}.

(** More calls than the walk can nest: every call below the first enters a
    new id, and an id entered below the first call is the source of an edge. *)
Definition critical_fuel (config : HealthModelConfig) : nat :=
  S (S (length (dependencies config))).

Definition get_critical_path (config : HealthModelConfig)
    : option (list string) :=
  critical_path_with (critical_fuel config) config.

(** ** Serialization: to_dict and load_from_json *)

(** [HealthModelEntity.to_dict] *)
Definition HealthModelEntity_to_dict (e : HealthModelEntity) : JValue :=
  JObj [("id", JStr (id e));
        ("name", JStr (name e));
        ("type", JStr (EntityType_value (entity_type e)));
        ("description", JStr (description e));
        ("parentEntityId", opt_str (parent_entity_id e));
        ("azureResourceId", opt_str (azure_resource_id e));
        ("signals", JObj (map (fun kv => (kv.1, JStr kv.2)) (signals e)));
        ("metadata", JObj (metadata e))].

Definition EntityDependency_to_dict (d : EntityDependency) : JValue :=
  JObj [("sourceEntityId", JStr (source_entity_id d));
        ("targetEntityId", JStr (target_entity_id d));
        ("dependencyType", JStr (dependency_type d));
        ("criticality", JStr (criticality d))].

(** [HealthModelConfig.to_dict] *)
Definition to_dict (c : HealthModelConfig) : JValue :=
  JObj [("modelId", model_id c);
        ("modelName", model_name c);
        ("description", config_description c);
        ("ownerTeam", owner_team c);
        ("version", version c);
        ("createdAt", created_at c);
        ("lastModified", last_modified c);
        ("entities",
           JObj (map (fun kv => (kv.1, HealthModelEntity_to_dict kv.2))
                     (entities c)));
        ("dependencies", JList (map EntityDependency_to_dict (dependencies c)))].

(** *** Exceptions *)

Inductive PyError : Type :=
| KeyError (key : string)
| ValueError (value : JValue)     (* [EntityType(value)]: not a valid EntityType *)
| AttributeError                  (* [.get] or [.items] of a value that is no dict *)
| TypeError                       (* subscript or iteration of a wrong value *)
| IllTyped (field : string).      (* see [expect_str] *)

Definition result (A : Type) : Type := PyError + A.

Definition raise {A : Type} (e : PyError) : result A := inl e.

#[local] Instance result_ret : MRet result := fun A x => inr x.
#[local] Instance result_bind : MBind result :=
  fun A B f m => match m with inl e => inl e | inr x => f x end.
#[local] Instance result_fmap : FMap result :=
  fun A B f m => match m with inl e => inl e | inr x => inr (f x) end.

(** A [for] loop whose body may raise. *)
Fixpoint for_each {A S : Type} (body : S → A → result S) (items : list A)
    (s : S) : result S :=
  match items with
  | [] => mret s
  | x :: rest => s' ← body s x; for_each body rest s'
  end.

(** [value[key]] *)
Definition subscript (key : string) (value : JValue) : result JValue :=
  match value with
  | JObj o =>
      match Dict.get key o with
      | Some x => mret x
      | None => raise (KeyError key)
      end
  | _ => raise TypeError
  end.

(** [value.get(key, dflt)]; the receiver is known to be a dict. *)
Definition get_or (key : string) (dflt : JValue) (o : dict JValue) : JValue :=
  default dflt (Dict.get key o).

(** The dataclasses declare the types of their fields and Python does not
    check them: a document with, say, a number for [name] loads into an
    object that the declarations (and this model's records) do not
    describe. Such documents are outside the model: loading them ends in
    [IllTyped]. *)
Definition expect_str (field : string) (v : JValue) : result string :=
  match v with
  | JStr s => mret s
  | _ => raise (IllTyped field)
  end.

Definition expect_opt_str (field : string) (v : JValue) : result (option string) :=
  match v with
  | JNull => mret None
  | JStr s => mret (Some s)
  | _ => raise (IllTyped field)
  end.

Definition expect_dict (field : string) (v : JValue) : result (dict JValue) :=
  match v with
  | JObj o => mret o
  | _ => raise (IllTyped field)
  end.

Fixpoint expect_str_values (field : string) (o : dict JValue)
    : result (dict string) :=
  match o with
  | [] => mret []
  | (k, v) :: rest =>
      s ← expect_str field v;
      rest' ← expect_str_values field rest;
      mret ((k, s) :: rest')
  end.

(** [EntityType(value)] *)
Definition EntityType_call (value : JValue) : result EntityType :=
  match value with
  | JStr s =>
      match EntityType_of_value s with
      | Some t => mret t
      | None => raise (ValueError value)
      end
  | _ => raise (ValueError value)
  end.

(** The [HealthModelEntity(...)] call of the loader; the arguments are
    evaluated in the order written. *)
Definition load_entity (entity_data : JValue) : result HealthModelEntity :=
  v_id ← subscript "id" entity_data;
  e_id ← expect_str "id" v_id;
  v_name ← subscript "name" entity_data;
  e_name ← expect_str "name" v_name;
  v_type ← subscript "type" entity_data;
  e_type ← EntityType_call v_type;
  v_description ← subscript "description" entity_data;
  e_description ← expect_str "description" v_description;
  fields ← expect_dict "entity_data" entity_data;
  e_parent ← expect_opt_str "parentEntityId" (get_or "parentEntityId" JNull fields);
  e_azure ← expect_opt_str "azureResourceId" (get_or "azureResourceId" JNull fields);
  o_signals ← expect_dict "signals" (get_or "signals" (JObj []) fields);
  e_signals ← expect_str_values "signals" o_signals;
  e_metadata ← expect_dict "metadata" (get_or "metadata" (JObj []) fields);
  mret {| id := e_id; name := e_name; entity_type := e_type;
          description := e_description; parent_entity_id := e_parent;
          azure_resource_id := e_azure; signals := e_signals;
          metadata := e_metadata |}.

(** The [EntityDependency(...)] call of the loader. *)
Definition load_dependency (dep_data : JValue) : result EntityDependency :=
  v_source ← subscript "sourceEntityId" dep_data;
  d_source ← expect_str "sourceEntityId" v_source;
  v_target ← subscript "targetEntityId" dep_data;
  d_target ← expect_str "targetEntityId" v_target;
  fields ← expect_dict "dep_data" dep_data;
  d_type ← expect_str "dependencyType" (get_or "dependencyType" (JStr "direct") fields);
  d_criticality ← expect_str "criticality" (get_or "criticality" (JStr "high") fields);
  mret {| source_entity_id := d_source; target_entity_id := d_target;
          dependency_type := d_type; criticality := d_criticality |}.

(** [data.get("entities", {}).items()] *)
Definition entity_items (data : dict JValue) : result (dict JValue) :=
  match get_or "entities" (JObj []) data with
  | JObj o => mret o
  | _ => raise AttributeError
  end.

(** The values the loop [for dep_data in data.get("dependencies", [])]
    runs over. An object yields its keys and a string its characters (the
    body then raises [TypeError] at its first subscript). *)
Definition dependency_items (data : dict JValue) : result (list JValue) :=
  match get_or "dependencies" (JList []) data with
  | JList l => mret l
  | JObj o => mret (map (fun kv => JStr kv.1) o)
  | JStr s => mret (map (fun a => JStr (String a EmptyString)) (String.list_ascii_of_string s))
  | _ => raise TypeError
  end.

(** [load_from_json], from the parsed document [data = json.load(f)] on.
    [now] is the clock read by [add_entity] and [add_dependency]. *)
Definition load_from_json (now : string) (data : JValue)
    : result HealthModelConfig :=
  match data with
  | JObj data =>
      let config :=
        {| model_id := get_or "modelId" JNull data;
           model_name := get_or "modelName" JNull data;
           config_description := get_or "description" JNull data;
           owner_team := get_or "ownerTeam" JNull data;
           entities := []; dependencies := [];
           created_at := get_or "createdAt" JNull data;
           last_modified := get_or "lastModified" JNull data;
           version := get_or "version" (JStr "1.0.0") data |} in
      (* Load entities *)
      items ← entity_items data;
      config ← for_each
                 (fun config item =>
                    entity ← load_entity item.2;
                    mret (add_entity now entity config))
                 items config;
      (* Load dependencies *)
      deps ← dependency_items data;
      for_each
        (fun config dep_data =>
           dependency ← load_dependency dep_data;
           mret (add_dependency now dependency config))
        deps config
  | _ => raise AttributeError
  end.

(** ** api/health_state_client.py: HealthStateClient *)

Inductive HealthState : Type := HEALTHY | DEGRADED | UNHEALTHY | UNKNOWN.

(** [HealthState.value] *)
Definition HealthState_value (s : HealthState) : string :=
  match s with
  | HEALTHY => "Healthy"
  | DEGRADED => "Degraded"
  | UNHEALTHY => "Unhealthy"
  | UNKNOWN => "Unknown"
  end.

(** [HealthState.name] *)
Definition HealthState_name (s : HealthState) : string :=
  match s with
  | HEALTHY => "HEALTHY"
  | DEGRADED => "DEGRADED"
  | UNHEALTHY => "UNHEALTHY"
  | UNKNOWN => "UNKNOWN"
  end.

Definition HealthState_members : list HealthState :=
  [HEALTHY; DEGRADED; UNHEALTHY; UNKNOWN].

(** [HealthState[key]]: the member named [key]; [None] stands for the
    [KeyError]. *)
Definition HealthState_getitem (key : string) : option HealthState :=
  List.find (fun s => bool_decide (HealthState_name s = key)) HealthState_members.

(** The dictionary [state_colors] of [_normalize_response]. *)
Definition state_colors (s : HealthState) : string :=
  match s with
  | HEALTHY => "green"
  | DEGRADED => "amber"
  | UNHEALTHY => "red"
  | UNKNOWN => "gray"
  end.

(** [str.upper] on the letters [a]-[z]; every other byte is kept. (The
    characters outside ASCII whose upper case is made of ASCII letters give
    an [I], an [S] or an [F], which no member name contains, so
    [HealthState[state_str.upper()]] finds what Python finds.) *)
Definition upper_ascii (a : Ascii.ascii) : Ascii.ascii :=
  let n := Ascii.nat_of_ascii a in
  if (97 <=? n)%nat && (n <=? 122)%nat then Ascii.ascii_of_nat (n - 32) else a.

Fixpoint upper (s : string) : string :=
  match s with
  | EmptyString => EmptyString
  | String a rest => String (upper_ascii a) (upper rest)
  end.

(** The [try] block of [_normalize_response]: a [KeyError] (no member of
    that name) or an [AttributeError] (a value without [upper]) gives
    [UNKNOWN]. *)
Definition parse_health_state (state_str : JValue) : HealthState :=
  match state_str with
  | JStr s => default UNKNOWN (HealthState_getitem (upper s))
  | _ => UNKNOWN
  end.

(** [_normalize_response]; [now] is the clock read for the default of
    [timestamp]. The two [.get] chains outside the [try] raise
    [AttributeError] when [data] or its [properties] is no dictionary. *)
Definition _normalize_response (now : string) (data : JValue)
    : result HealthRecord :=
  match data with
  | JObj data =>
      match get_or "properties" (JObj []) data with
      | JObj properties =>
          let state_str := get_or "healthState" (JStr "Unknown") properties in
          let health_state := parse_health_state state_str in
          mret {| state := Some (HealthState_value health_state);
                  state_color := Some (state_colors health_state);
                  timestamp := Some (get_or "timestamp" (JStr now) properties);
                  details := Some properties;
                  other_items :=
                    [("entity_id", get_or "id" JNull data);
                     ("entity_name", get_or "name" JNull data);
                     ("state_code", JStr (HealthState_name health_state));
                     ("signals", get_or "signals" (JList []) properties)] |}
      | _ => raise AttributeError
      end
  | _ => raise AttributeError
  end.

(** [_error_response] *)
Definition _error_response (now : string) (entity_id error : string)
    : HealthRecord :=
  {| state := Some (HealthState_value UNKNOWN);
     state_color := Some "gray";
     timestamp := Some (JStr now);
     details := None;
     other_items :=
       [("entity_id", JStr entity_id);
        ("state_code", JStr (HealthState_name UNKNOWN));
        ("error", JStr error)] |}.

(** What the HTTP exchange of a query hands to the code after it: a
    [RequestException] with its text, or the parsed body [response.json()]. *)
Inductive HttpOutcome : Type :=
| RequestException (message : string)
| ResponseJson (data : JValue).

(** [get_entity_health_state] *)
Definition get_entity_health_state (now : string) (outcome : HttpOutcome)
    (entity_id : string) : result HealthRecord :=
  match outcome with
  | ResponseJson data => _normalize_response now data
  | RequestException e => mret (_error_response now entity_id e)
  end.

(** The values the loop [for item in data.get("value", [])] runs over. *)
Definition value_items (data : JValue) : result (list JValue) :=
  match data with
  | JObj data =>
      match get_or "value" (JList []) data with
      | JList l => mret l
      | JObj o => mret (map (fun kv => JStr kv.1) o)
      | JStr s =>
          mret (map (fun a => JStr (String a EmptyString))
                    (String.list_ascii_of_string s))
      | _ => raise TypeError
      end
  | _ => raise AttributeError
  end.

(** [get_all_entities_health]. The key [item.get("id")] is a string in the
    snapshots of this model (see [expect_str]). *)
Definition get_all_entities_health (now : string) (outcome : HttpOutcome)
    : result (dict HealthRecord) :=
  match outcome with
  | ResponseJson data =>
      items ← value_items data;
      for_each
        (fun entities item =>
           normalized ← _normalize_response now item;
           fields ← expect_dict "item" item;
           key ← expect_str "id" (get_or "id" JNull fields);
           mret (Dict.set key normalized entities))
        items []
  | RequestException _ => mret []
  end.

(** ** integration.py: the remaining queries *)

(** [get_entity_health]: the record of the client with the entity's name
    and type stored in it when the configuration knows the entity. *)
Definition get_entity_health (config : HealthModelConfig) (now : string)
    (outcome : HttpOutcome) (entity_id : string) : result HealthRecord :=
  health ← get_entity_health_state now outcome entity_id;
  match Dict.get entity_id (entities config) with
  | Some entity =>
      mret {| state := state health;
              state_color := state_color health;
              timestamp := timestamp health;
              details := details health;
              other_items :=
                Dict.set "entity_type"
                         (JStr (EntityType_value (entity_type entity)))
                         (Dict.set "entity_name" (JStr (name entity))
                                   (other_items health)) |}
  | None => mret health
  end.

(** ** signals/health_signals.py *)

Inductive SignalType : Type :=
| METRIC
| LOG_QUERY
| CUSTOM_SIGNAL          (* [SignalType.CUSTOM] *)
| AZURE_RESOURCE_HEALTH.

Definition SignalType_value (t : SignalType) : string :=
  match t with
  | METRIC => "metric"
  | LOG_QUERY => "log_query"
  | CUSTOM_SIGNAL => "custom"
  | AZURE_RESOURCE_HEALTH => "azure_resource_health"
  end.

Inductive ThresholdOperator : Type :=
| GREATER_THAN
| LESS_THAN
| GREATER_EQUAL
| LESS_EQUAL
| EQUAL
| NOT_EQUAL.

Definition ThresholdOperator_value (o : ThresholdOperator) : string :=
  match o with
  | GREATER_THAN => "gt"
  | LESS_THAN => "lt"
  | GREATER_EQUAL => "gte"
  | LESS_EQUAL => "lte"
  | EQUAL => "eq"
  | NOT_EQUAL => "neq"
  end.

(** A Python number: the thresholds are declared [float] and written both
    as [int] and as [float] literals. *)
Inductive Number : Type :=
| NInt (z : Z)
| NFloat (f : float).

Definition Number_json (n : Number) : JValue :=
  match n with
  | NInt z => JInt z
  | NFloat f => JFloat f
  end.

Definition opt_number (o : option Number) : JValue :=
  match o with
  | Some n => Number_json n
  | None => JNull
  end.

Record HealthThreshold : Type := mkHealthThreshold {
  healthy_min : option Number;
  healthy_max : option Number;
  degraded_min : option Number;
  degraded_max : option Number;
  unhealthy_min : option Number;
  unhealthy_max : option Number;
  operator : ThresholdOperator
}.

Record HealthSignal : Type := mkHealthSignal {
  signal_name : string;           (* [name] *)
  signal_type : SignalType;
  display_name : string;
  signal_description : string;    (* [description] *)
  thresholds : HealthThreshold;
  enabled : bool;
  weight : Number
}.

(** [HealthThreshold.to_dict] *)
Definition HealthThreshold_to_dict (t : HealthThreshold) : JValue :=
  JObj [("healthyMin", opt_number (healthy_min t));
        ("healthyMax", opt_number (healthy_max t));
        ("degradedMin", opt_number (degraded_min t));
        ("degradedMax", opt_number (degraded_max t));
        ("unhealthyMin", opt_number (unhealthy_min t));
        ("unhealthyMax", opt_number (unhealthy_max t));
        ("operator", JStr (ThresholdOperator_value (operator t)))].

(** [HealthSignal.to_dict] *)
Definition HealthSignal_to_dict (s : HealthSignal) : JValue :=
  JObj [("name", JStr (signal_name s));
        ("type", JStr (SignalType_value (signal_type s)));
        ("displayName", JStr (display_name s));
        ("description", JStr (signal_description s));
        ("thresholds", HealthThreshold_to_dict (thresholds s));
        ("enabled", JBool (enabled s));
        ("weight", Number_json (weight s))].

(** The document of [export_signals_to_json]. *)
Definition signals_document (signals : dict HealthSignal) : JValue :=
  JObj [("signals", JList (map (fun kv => HealthSignal_to_dict kv.2) signals))].

(** [get_signal_definitions] *)
Definition get_signal_definitions (config : HealthModelConfig)
    (signals_collection : dict HealthSignal) (entity_id : string)
    : dict HealthSignal :=
  match Dict.get entity_id (entities config) with
  | None => []
  | Some entity =>
      fold_left
        (fun signals item =>
           let signal_name := item.1 in
           let signal_id := item.2 in
           match Dict.get signal_id signals_collection with
           | Some signal => Dict.set signal_name signal signals
           | None => signals
           end)
        (signals entity) []
  end.

(** *** The signal definitions and collections *)

(** [HealthThreshold(...)] with the operator left at its default. *)
Definition threshold (h_min h_max d_min d_max u_min u_max : option Number)
    : HealthThreshold :=
  {| healthy_min := h_min; healthy_max := h_max;
     degraded_min := d_min; degraded_max := d_max;
     unhealthy_min := u_min; unhealthy_max := u_max;
     operator := GREATER_THAN |}.

Definition create_cpu_utilization_signal : HealthSignal :=
  {| signal_name := "cpu_utilization"; signal_type := METRIC;
     display_name := "CPU Utilization";
     signal_description :=
       "CPU utilization percentage. High values indicate compute pressure.";
     thresholds :=
       threshold (Some (NInt 0)) (Some (NInt 70)) (Some (NInt 70))
                 (Some (NInt 85)) (Some (NInt 85)) None;
     enabled := true; weight := NFloat 0.25 |}.

Definition create_memory_utilization_signal : HealthSignal :=
  {| signal_name := "memory_utilization"; signal_type := METRIC;
     display_name := "Memory Utilization";
     signal_description :=
       "Memory utilization percentage. High values indicate memory pressure.";
     thresholds :=
       threshold (Some (NInt 0)) (Some (NInt 80)) (Some (NInt 80))
                 (Some (NInt 90)) (Some (NInt 90)) None;
     enabled := true; weight := NFloat 0.25 |}.

Definition create_response_time_signal : HealthSignal :=
  {| signal_name := "response_time_p95"; signal_type := METRIC;
     display_name := "Response Time (p95)";
     signal_description := "95th percentile response time in milliseconds";
     thresholds :=
       threshold (Some (NInt 0)) (Some (NInt 500)) (Some (NInt 500))
                 (Some (NInt 1000)) (Some (NInt 1000)) None;
     enabled := true; weight := NFloat 0.25 |}.

Definition create_error_rate_signal : HealthSignal :=
  {| signal_name := "error_rate"; signal_type := METRIC;
     display_name := "Error Rate (%)";
     signal_description := "Percentage of requests that result in errors";
     thresholds :=
       threshold (Some (NInt 0)) (Some (NInt 1)) (Some (NInt 1))
                 (Some (NInt 5)) (Some (NInt 5)) None;
     enabled := true; weight := NFloat 0.30 |}.

Definition create_availability_signal : HealthSignal :=
  {| signal_name := "availability"; signal_type := METRIC;
     display_name := "Availability (%)";
     signal_description := "Service availability percentage (uptime)";
     thresholds :=
       threshold (Some (NFloat 99.5)) (Some (NInt 100)) (Some (NInt 99))
                 (Some (NFloat 99.5)) None (Some (NInt 99));
     enabled := true; weight := NFloat 0.30 |}.

Definition create_request_rate_signal : HealthSignal :=
  {| signal_name := "request_rate_rps"; signal_type := METRIC;
     display_name := "Request Rate (RPS)";
     signal_description := "Requests per second";
     thresholds :=
       threshold (Some (NInt 0)) (Some (NInt 1000)) (Some (NInt 1000))
                 (Some (NInt 2000)) (Some (NInt 2000)) None;
     enabled := true; weight := NFloat 0.15 |}.

Definition create_database_connection_pool_signal : HealthSignal :=
  {| signal_name := "db_connection_pool_utilization"; signal_type := METRIC;
     display_name := "DB Connection Pool Utilization (%)";
     signal_description :=
       "Percentage of available database connections in use";
     thresholds :=
       threshold (Some (NInt 0)) (Some (NInt 70)) (Some (NInt 70))
                 (Some (NInt 85)) (Some (NInt 85)) None;
     enabled := true; weight := NFloat 0.25 |}.

Definition create_database_query_latency_signal : HealthSignal :=
  {| signal_name := "db_query_latency_p95"; signal_type := METRIC;
     display_name := "DB Query Latency (p95 ms)";
     signal_description := "95th percentile database query execution time";
     thresholds :=
       threshold (Some (NInt 0)) (Some (NInt 100)) (Some (NInt 100))
                 (Some (NInt 500)) (Some (NInt 500)) None;
     enabled := true; weight := NFloat 0.25 |}.

Definition create_database_deadlock_signal : HealthSignal :=
  {| signal_name := "db_deadlocks"; signal_type := METRIC;
     display_name := "DB Deadlocks";
     signal_description := "Number of database deadlocks detected";
     thresholds :=
       threshold (Some (NInt 0)) (Some (NInt 0)) (Some (NInt 1))
                 (Some (NInt 5)) (Some (NInt 5)) None;
     enabled := true; weight := NFloat 0.20 |}.

(** [SignalCollection.web_service_signals] *)
Definition web_service_signals : dict HealthSignal :=
  [("response_time", create_response_time_signal);
   ("error_rate", create_error_rate_signal);
   ("availability", create_availability_signal);
   ("request_rate", create_request_rate_signal);
   ("cpu", create_cpu_utilization_signal);
   ("memory", create_memory_utilization_signal)].

(** [SignalCollection.database_signals] *)
Definition database_signals : dict HealthSignal :=
  [("connection_pool", create_database_connection_pool_signal);
   ("query_latency", create_database_query_latency_signal);
   ("deadlocks", create_database_deadlock_signal);
   ("cpu", create_cpu_utilization_signal);
   ("memory", create_memory_utilization_signal)].

(** [d.update(other)] *)
Definition dict_update {V : Type} (d other : dict V) : dict V :=
  fold_left (fun d item => Dict.set item.1 item.2 d) other d.

(** The signals that [HealthModelBuilder.create_from_env] and
    [create_from_ecommerce_example] give to the integration they build on
    [create_ecommerce_health_model]. *)
Definition ecommerce_example_signals : dict HealthSignal :=
  dict_update web_service_signals database_signals.

(** ** models/health_model_config.py: the example configurations *)

(** [HealthModelConfig(model_id=..., model_name=..., description=...,
    owner_team=...)]: the other fields take their defaults; [now] is the
    clock read by the two default factories. *)
Definition new_config (now : string) (m_id m_name m_description m_owner : string)
    : HealthModelConfig :=
  {| model_id := JStr m_id; model_name := JStr m_name;
     config_description := JStr m_description; owner_team := JStr m_owner;
     entities := []; dependencies := [];
     created_at := JStr now; last_modified := JStr now;
     version := JStr "1.0.0" |}.

(** [create_ecommerce_health_model] *)
Definition create_ecommerce_health_model (now : string) : HealthModelConfig :=
  let config :=
    new_config now "ecommerce-prod" "E-Commerce Production"
               "Health model for e-commerce platform" "Platform Engineering" in
  (* Root entity - overall workload *)
  let root :=
    {| id := "ecommerce-root"; name := "E-Commerce Workload";
       entity_type := WORKLOAD;
       description := "Overall e-commerce platform health";
       parent_entity_id := None; azure_resource_id := None;
       signals := []; metadata := [] |} in
  let config := add_entity now root config in
  (* API Services tier *)
  let api :=
    {| id := "api-service"; name := "API Gateway"; entity_type := API;
       description := "REST API serving all client requests";
       parent_entity_id := Some "ecommerce-root"; azure_resource_id := None;
       signals := [("response_time", "api_response_time_p95");
                   ("error_rate", "api_error_rate");
                   ("availability", "api_availability")];
       metadata := [] |} in
  let config := add_entity now api config in
  (* Product Service *)
  let product_service :=
    {| id := "product-service"; name := "Product Service";
       entity_type := SERVICE;
       description := "Manages product catalog and information";
       parent_entity_id := Some "ecommerce-root"; azure_resource_id := None;
       signals := [("response_time", "product_response_time");
                   ("error_rate", "product_error_rate")];
       metadata := [] |} in
  let config := add_entity now product_service config in
  (* Order Service *)
  let order_service :=
    {| id := "order-service"; name := "Order Service"; entity_type := SERVICE;
       description := "Handles order processing and management";
       parent_entity_id := Some "ecommerce-root"; azure_resource_id := None;
       signals := [("response_time", "order_response_time");
                   ("error_rate", "order_error_rate")];
       metadata := [] |} in
  let config := add_entity now order_service config in
  (* Payment Service *)
  let payment_service :=
    {| id := "payment-service"; name := "Payment Service";
       entity_type := SERVICE;
       description := "Processes payment transactions";
       parent_entity_id := Some "ecommerce-root"; azure_resource_id := None;
       signals := [("availability", "payment_availability");
                   ("error_rate", "payment_error_rate")];
       metadata := [] |} in
  let config := add_entity now payment_service config in
  (* Product Database *)
  let product_db :=
    {| id := "product-db"; name := "Product Database"; entity_type := DATABASE;
       description := "PostgreSQL database for product data";
       parent_entity_id := Some "product-service";
       azure_resource_id :=
         Some "/subscriptions/{sub}/resourceGroups/{rg}/providers/Microsoft.DBforPostgreSQL/servers/product-db";
       signals := [("connection_pool", "product_db_conn_pool");
                   ("query_latency", "product_db_latency")];
       metadata := [] |} in
  let config := add_entity now product_db config in
  (* Order Database *)
  let order_db :=
    {| id := "order-db"; name := "Order Database"; entity_type := DATABASE;
       description := "Database for order data";
       parent_entity_id := Some "order-service"; azure_resource_id := None;
       signals := [("connection_pool", "order_db_conn_pool");
                   ("query_latency", "order_db_latency")];
       metadata := [] |} in
  let config := add_entity now order_db config in
  (* Cache *)
  let cache :=
    {| id := "cache-layer"; name := "Redis Cache"; entity_type := CACHE;
       description := "Distributed cache for performance";
       parent_entity_id := Some "ecommerce-root"; azure_resource_id := None;
       signals := [("availability", "cache_availability");
                   ("latency", "cache_latency")];
       metadata := [] |} in
  let config := add_entity now cache config in
  (* Service Bus for async processing *)
  let service_bus :=
    {| id := "service-bus"; name := "Service Bus";
       entity_type := MESSAGE_QUEUE;
       description := "Azure Service Bus for asynchronous processing";
       parent_entity_id := Some "ecommerce-root"; azure_resource_id := None;
       signals := [("availability", "bus_availability");
                   ("queue_depth", "bus_queue_depth")];
       metadata := [] |} in
  let config := add_entity now service_bus config in
  (* Define dependencies *)
  let config :=
    add_dependency now
      {| source_entity_id := "product-service"; target_entity_id := "api-service";
         dependency_type := "direct"; criticality := "high" |} config in
  let config :=
    add_dependency now
      {| source_entity_id := "order-service"; target_entity_id := "api-service";
         dependency_type := "direct"; criticality := "high" |} config in
  let config :=
    add_dependency now
      {| source_entity_id := "payment-service";
         target_entity_id := "order-service";
         dependency_type := "direct"; criticality := "critical" |} config in
  let config :=
    add_dependency now
      {| source_entity_id := "product-db"; target_entity_id := "product-service";
         dependency_type := "direct"; criticality := "high" |} config in
  let config :=
    add_dependency now
      {| source_entity_id := "order-db"; target_entity_id := "order-service";
         dependency_type := "direct"; criticality := "high" |} config in
  let config :=
    add_dependency now
      {| source_entity_id := "cache-layer"; target_entity_id := "product-service";
         dependency_type := "optional"; criticality := "medium" |} config in
  let config :=
    add_dependency now
      {| source_entity_id := "service-bus"; target_entity_id := "order-service";
         dependency_type := "direct"; criticality := "high" |} config in
  config.

(** [create_microservices_health_model] *)
Definition create_microservices_health_model (now : string) : HealthModelConfig :=
  let config :=
    new_config now "microservices-prod" "Microservices Platform"
               "Health model for microservices architecture" "SRE Team" in
  let root :=
    {| id := "platform-root"; name := "Microservices Platform";
       entity_type := WORKLOAD; description := "Overall platform health";
       parent_entity_id := None; azure_resource_id := None;
       signals := []; metadata := [] |} in
  let config := add_entity now root config in
  let services :=
    [("user-service", "User Service", "Manages user accounts and profiles");
     ("notification-service", "Notification Service", "Sends notifications");
     ("analytics-service", "Analytics Service", "Tracks user analytics")] in
  fold_left
    (fun config svc =>
       let '(service_id, service_name, service_desc) := svc in
       let service :=
         {| id := service_id; name := service_name; entity_type := SERVICE;
            description := service_desc;
            parent_entity_id := Some "platform-root";
            azure_resource_id := None;
            signals :=
              [("response_time", (service_id ++ "_response_time")%string);
               ("error_rate", (service_id ++ "_error_rate")%string);
               ("availability", (service_id ++ "_availability")%string)];
            metadata := [] |} in
       add_entity now service config)
    services config.

(** ** config/env_loader.py: EnvLoader

    A line of the file is the UTF-8 text of the line as a string of bytes.
    [str.strip] removes the white space of Unicode, which in UTF-8 is one,
    two or three bytes long. *)

Definition byte (a : Ascii.ascii) : nat := Ascii.nat_of_ascii a.

Definition byte_in (lo hi : nat) (a : Ascii.ascii) : bool :=
  Nat.leb lo (byte a) && Nat.leb (byte a) hi.

Definition byte_is (n : nat) (a : Ascii.ascii) : bool := Nat.eqb (byte a) n.

(** U+0009..U+000D, U+001C..U+001F, U+0020 *)
Definition is_space1 (a : Ascii.ascii) : bool :=
  byte_in 9 13 a || byte_in 28 32 a.

(** U+0085, U+00A0: C2 85, C2 A0 *)
Definition is_space2 (a b : Ascii.ascii) : bool :=
  byte_is 194 a && (byte_is 133 b || byte_is 160 b).

(** U+1680: E1 9A 80; U+2000..U+200A, U+2028, U+2029, U+202F: E2 80 80..8A,
    E2 80 A8, E2 80 A9, E2 80 AF; U+205F: E2 81 9F; U+3000: E3 80 80 *)
Definition is_space3 (a b c : Ascii.ascii) : bool :=
  (byte_is 225 a && byte_is 154 b && byte_is 128 c)
  || (byte_is 226 a && byte_is 128 b
      && (byte_in 128 138 c || byte_is 168 c || byte_is 169 c
          || byte_is 175 c))
  || (byte_is 226 a && byte_is 129 b && byte_is 159 c)
  || (byte_is 227 a && byte_is 128 b && byte_is 128 c).

(** Removes the white space at the front of a text whose one-, two- and
    three-byte white space is recognised by [s1], [s2], [s3]. *)
Fixpoint strip_front (s1 : Ascii.ascii → bool)
    (s2 : Ascii.ascii → Ascii.ascii → bool)
    (s3 : Ascii.ascii → Ascii.ascii → Ascii.ascii → bool)
    (l : list Ascii.ascii) : list Ascii.ascii :=
  match l with
  | [] => []
  | a :: rest =>
      if s1 a then strip_front s1 s2 s3 rest
      else
        match rest with
        | [] => l
        | b :: rest2 =>
            if s2 a b then strip_front s1 s2 s3 rest2
            else
              match rest2 with
              | [] => l
              | c :: rest3 =>
                  if s3 a b c then strip_front s1 s2 s3 rest3 else l
              end
        end
  end.

(** [str.lstrip], and [str.rstrip] as the same on the reversed text. *)
Definition lstrip (l : list Ascii.ascii) : list Ascii.ascii :=
  strip_front is_space1 is_space2 is_space3 l.

Definition rstrip (l : list Ascii.ascii) : list Ascii.ascii :=
  rev (strip_front is_space1 (fun b a => is_space2 a b)
                   (fun c b a => is_space3 a b c) (rev l)).

Definition strip_chars (l : list Ascii.ascii) : list Ascii.ascii :=
  rstrip (lstrip l).

(** [s.strip()] *)
Definition strip (s : string) : string :=
  String.string_of_list_ascii (strip_chars (String.list_ascii_of_string s)).

(** [line.split('=', 1)] for a line that holds an ['=']: the text before
    the first ['='] and the text after it; [None] when there is none. *)
Fixpoint split_equals (l : list Ascii.ascii)
    : option (list Ascii.ascii * list Ascii.ascii) :=
  match l with
  | [] => None
  | a :: rest =>
      if decide (a = "="%char) then Some ([], rest)
      else
        match split_equals rest with
        | Some (key, value) => Some (a :: key, value)
        | None => None
        end
  end.

(** The character of code 34, the double quote. *)
Definition double_quote : Ascii.ascii :=
  Ascii.Ascii false true false false false true false false.

(** [value.startswith(q) and value.endswith(q)] for a one-character [q] *)
Definition quoted_by (q : Ascii.ascii) (value : list Ascii.ascii) : bool :=
  bool_decide (head value = Some q) && bool_decide (last value = Some q).

(** The two branches that remove the quotes; [value[1:-1]] drops the first
    and the last character. *)
Definition unquote (value : list Ascii.ascii) : list Ascii.ascii :=
  if quoted_by double_quote value then removelast (tail value)
  else if quoted_by "'"%char value then removelast (tail value)
  else value.

(** The body of the loop of [_load_env] up to the assignment: the key and
    the value that the line defines, or [None] for a line that is skipped. *)
Definition parse_line (line : string) : option (string * string) :=
  let line := strip_chars (String.list_ascii_of_string line) in
  match line with
  | [] => None
  | first :: _ =>
      if decide (first = "#"%char) then None
      else
        match split_equals line with
        | None => None
        | Some (key, value) =>
            let key := strip_chars key in
            let value := unquote (strip_chars value) in
            Some (String.string_of_list_ascii key,
                  String.string_of_list_ascii value)
        end
  end.

(** The process environment [os.environ]. *)
Abbreviation Environ := (gmap string string).

Definition has_nul (s : string) : bool :=
  existsb (byte_is 0) (String.list_ascii_of_string s).

(** [os.environ[key] = value] stores the value unless the platform refuses
    the name or the value, which raises. What is refused depends on the
    platform and on the version of Python; it is the argument [refuses]. *)
Definition environ_set (refuses : string → string → bool) (key value : string)
    (environ : Environ) : result Environ :=
  if refuses key value then raise (ValueError (JStr key))
  else mret (<[key := value]> environ).

(** What CPython 3.9 and later refuse on POSIX: the empty name and an
    embedded null byte (a name from [parse_line] holds no ['=']). *)
Definition posix_refuses (key value : string) : bool :=
  bool_decide (key = "") || has_nul key || has_nul value.

(** The state that [_load_env] works on: [self.env_vars] and the process
    environment. *)
Record EnvState : Type := mkEnvState {
  env_vars : dict string;
  environ : Environ
}.

(** One iteration of the loop of [_load_env]. *)
Definition load_line (refuses : string → string → bool) (st : EnvState)
    (line : string) : result EnvState :=
  match parse_line line with
  | None => mret st
  | Some (key, value) =>
      let vars := Dict.set key value (env_vars st) in
      (* Also set in os.environ so subprocess calls can access it *)
      if decide (value = "") then
        mret {| env_vars := vars; environ := environ st |}
      else
        environ' ← environ_set refuses key value (environ st);
        mret {| env_vars := vars; environ := environ' |}
  end.

(** [EnvLoader(env_path)]: [__init__] with [_load_env]. [file] is [None]
    when no file exists at the path (the default file is then written and
    no variable is read), and else the lines of the file. The file system
    is taken to work: the errors of opening, decoding and writing a file are
    outside the model. *)
Definition load_env (refuses : string → string → bool)
    (file : option (list string)) (environ : Environ) : result EnvState :=
  match file with
  | None => mret {| env_vars := []; environ := environ |}
  | Some lines =>
      for_each (load_line refuses) lines
               {| env_vars := []; environ := environ |}
  end.

(** The lines of [default_content], the file that [_create_default_env]
    writes. *)
Definition default_content : list string :=
  ["# Azure Health Model Configuration";
   "# These environment variables are used by health model scripts";
   "";
   "# Azure Subscription ID";
   "AZURE_SUBSCRIPTION_ID=";
   "";
   "# Azure Resource Group";
   "AZURE_RESOURCE_GROUP=";
   "";
   "# Health Model Name";
   "HEALTH_MODEL_NAME=";
   "";
   "# Azure Tenant ID (optional - will use default if not set)";
   "AZURE_TENANT_ID=";
   "";
   "# Auth Token (optional - will be fetched from Azure CLI if not set)";
   "AZURE_AUTH_TOKEN="].

(** [EnvLoader.get] *)
Definition env_get (st : EnvState) (key : string) (dflt : option string)
    : option string :=
  match Dict.get key (env_vars st) with
  | Some value => Some value
  | None =>
      match environ st !! key with
      | Some value => Some value
      | None => dflt
      end
  end.

Definition required_variables : list string :=
  ["AZURE_SUBSCRIPTION_ID"; "AZURE_RESOURCE_GROUP"; "HEALTH_MODEL_NAME"].

(** [not self.get(key)] *)
Definition is_missing (st : EnvState) (key : string) : bool :=
  match env_get st key None with
  | None => true
  | Some value => bool_decide (value = "")
  end.

(** [EnvLoader.validate] *)
Definition validate (st : EnvState) : bool :=
  let missing := List.filter (is_missing st) required_variables in
  match missing with
  | [] => true
  | _ => false
  end.

(** [EnvLoader.get_azure_config] *)
Definition get_azure_config (st : EnvState) : dict JValue :=
  [("subscriptionId", opt_str (env_get st "AZURE_SUBSCRIPTION_ID" None));
   ("resourceGroup", opt_str (env_get st "AZURE_RESOURCE_GROUP" None));
   ("healthModelName", opt_str (env_get st "HEALTH_MODEL_NAME" None));
   ("tenantId", opt_str (env_get st "AZURE_TENANT_ID" (Some "")))].

(** ** Sample inputs *)

Module Samples.

(** A document with two entries for the id [db] under different keys, an
    entity without the optional keys, and an edge that gives only its two
    ends. *)
Definition sparse_document : dict JValue :=
  [("modelId", JStr "m");
   ("entities",
      JObj [("first",
               JObj [("id", JStr "db"); ("name", JStr "Old");
                     ("type", JStr "database"); ("description", JStr "")]);
            ("second",
               JObj [("id", JStr "api"); ("name", JStr "API");
                     ("type", JStr "api"); ("description", JStr "")]);
            ("third",
               JObj [("id", JStr "db"); ("name", JStr "Database");
                     ("type", JStr "database"); ("description", JStr "")])]);
   ("dependencies",
      JList [JObj [("sourceEntityId", JStr "db");
                   ("targetEntityId", JStr "api")];
             JObj [("sourceEntityId", JStr "cache");
                   ("targetEntityId", JStr "api");
                   ("dependencyType", JStr "optional");
                   ("criticality", JStr "low")]])].

(** A document whose second entity has no name. *)
Definition nameless_document : dict JValue :=
  [("entities",
      JObj [("db",
               JObj [("id", JStr "db"); ("name", JStr "Database");
                     ("type", JStr "database"); ("description", JStr "")]);
            ("api",
               JObj [("id", JStr "api"); ("type", JStr "api");
                     ("description", JStr "")])])].

(** A document with an edge that has no target. *)
Definition dangling_document : dict JValue :=
  [("dependencies",
      JList [JObj [("sourceEntityId", JStr "db");
                   ("criticality", JStr "high")]])].

(** An entity as the service returns it. *)
Definition api_item (i n health : string) : JValue :=
  JObj [("id", JStr i); ("name", JStr n);
        ("properties",
           JObj [("healthState", JStr health);
                 ("kind", JStr "Microsoft.Compute/virtualMachines")])].

(** A response with two items for the id [api], an item whose state is no
    health state, and an item without properties. *)
Definition api_response : JValue :=
  JObj [("value",
           JList [api_item "api" "API" "Unhealthy";
                  api_item "db" "Database" "DEGRADED";
                  api_item "api" "API" "healthy";
                  api_item "bus" "Bus" "Stopped";
                  JObj [("id", JStr "cache")]])].

End Samples.

(** ** Definitions used to state the properties *)

(** The four buckets of the summary, as the specification words them: the
    state is lower-cased; "healthy", "degraded" and "unhealthy" name their
    bucket, and every other state, a missing one included, is unknown. *)
Inductive Bucket : Type := BHealthy | BDegraded | BUnhealthy | BUnknown.

#[local] Instance Bucket_eq_dec : EqDecision Bucket.
Proof. solve_decision. Defined.

Definition spec_bucket (health : HealthRecord) : Bucket :=
  match state health with
  | None => BUnknown
  | Some s =>
      if decide (lower s = "healthy") then BHealthy
      else if decide (lower s = "degraded") then BDegraded
      else if decide (lower s = "unhealthy") then BUnhealthy
      else BUnknown
  end.

(** The records of a snapshot that fall in bucket [b], in snapshot order. *)
Definition in_bucket (b : Bucket) (all_health : dict HealthRecord)
    : dict HealthRecord :=
  filter (fun item => spec_bucket item.2 = b) all_health.

(** A graph as [add_entity] builds it: no id twice, every entity stored
    under its own id. *)
Definition graph_wf (config : HealthModelConfig) : Prop :=
  Dict.wf (entities config)
  ∧ Forall (fun item => item.1 = id item.2) (entities config).

(** The count and the entity list a summary holds for a bucket. *)
Definition bucket_count (b : Bucket) (summary : HealthSummary) : nat :=
  match b with
  | BHealthy => healthy_count summary
  | BDegraded => degraded_count summary
  | BUnhealthy => unhealthy_count summary
  | BUnknown => unknown_count summary
  end.

Definition bucket_entities (b : Bucket) (summary : HealthSummary) : list JValue :=
  match b with
  | BHealthy => healthy (entities_by_state summary)
  | BDegraded => degraded (entities_by_state summary)
  | BUnhealthy => unhealthy (entities_by_state summary)
  | BUnknown => unknown (entities_by_state summary)
  end.

(** The rank of a criticality, as the specification words it: the table
    critical 3, high 2, medium 1, low 0; a label outside the table ranks 0. *)
Definition criticality_rank (label : string) : Z :=
  if decide (label = "critical") then 3%Z
  else if decide (label = "high") then 2%Z
  else if decide (label = "medium") then 1%Z
  else 0%Z.

(** The entry of [affected_services] for a dependent edge: the resolved
    target entity's fields, or nothing when the graph has no such entity. *)
Definition resolve_affected (config : HealthModelConfig) (dep : EntityDependency)
    : option JValue :=
  match Dict.get (target_entity_id dep) (entities config) with
  | Some affected_entity =>
      Some (JObj [("entity_id", JStr (id affected_entity));
                  ("entity_name", JStr (name affected_entity));
                  ("criticality", JStr (criticality dep));
                  ("dependency_type", JStr (dependency_type dep))])
  | None => None
  end.

(** The ids the walk of [get_critical_path] can enter: its start and the
    sources of the edges. *)
Definition walk_nodes (config : HealthModelConfig) : gset string :=
  {["root"]} ∪ list_to_set (source_entity_id <$> dependencies config).

(** What the walk maintains: the path has no repetition and lists exactly
    the visited ids. *)
Definition trace_inv (st : TraceState) : Prop :=
  NoDup (critical_path st) ∧ ∀ x, x ∈ critical_path st ↔ x ∈ visited st.

(** [details.kind == "System_HealthModelRoot"] *)
Definition has_root_kind (health : HealthRecord) : Prop :=
  ∃ d, details health = Some d
       ∧ Dict.get "kind" d = Some (JStr "System_HealthModelRoot").




(** The largest rank among the criticalities of a list of edges, 0 for the
    empty list. *)
Definition max_rank (edges : list EntityDependency) : Z :=
  foldr (fun d acc => Z.max (criticality_rank (criticality d)) acc) 0%Z edges.

(** A record whose state is a value of [HealthState] and whose colour is
    the colour of that state. *)
Definition consistent_record (health : HealthRecord) : Prop :=
  ∃ s, state health = Some (HealthState_value s)
       ∧ state_color health = Some (state_colors s).

(** The bucket of the summary that a health state names. *)
Definition state_bucket (s : HealthState) : Bucket :=
  match s with
  | HEALTHY => BHealthy
  | DEGRADED => BDegraded
  | UNHEALTHY => BUnhealthy
  | UNKNOWN => BUnknown
  end.

(** The value that a line of the file assigns to [key], if it assigns
    one. *)
Definition assigns (key line : string) : option string :=
  match parse_line line with
  | Some (k, value) => if decide (k = key) then Some value else None
  | None => None
  end.

(** The value of the last line that assigns [key]. *)
Fixpoint last_assignment (key : string) (lines : list string) : option string :=
  match lines with
  | [] => None
  | line :: rest =>
      match last_assignment key rest with
      | Some value => Some value
      | None => assigns key line
      end
  end.

(** The value of the last line that assigns a non-empty value to [key]. *)
Fixpoint last_export (key : string) (lines : list string) : option string :=
  match lines with
  | [] => None
  | line :: rest =>
      match last_export key rest with
      | Some value => Some value
      | None =>
          match assigns key line with
          | Some value => if decide (value = "") then None else Some value
          | None => None
          end
      end
  end.

(** ** Fixtures *)

Module Fixtures.

Definition entity (i n : string) (t : EntityType) : HealthModelEntity :=
  {| id := i; name := n; entity_type := t; description := "";
     parent_entity_id := None; azure_resource_id := None;
     signals := []; metadata := [] |}.

Definition edge (src tgt crit : string) : EntityDependency :=
  {| source_entity_id := src; target_entity_id := tgt;
     dependency_type := "direct"; criticality := crit |}.

Definition empty_config : HealthModelConfig :=
  {| model_id := JStr "m"; model_name := JStr "Model";
     config_description := JStr ""; owner_team := JStr "team";
     entities := []; dependencies := [];
     created_at := JStr "t0"; last_modified := JStr "t0";
     version := JStr "1.0.0" |}.

(** Entities [root], [api], [db]; [api] requires [db] (high) and [root]
    requires [api] (critical). *)
Definition small_config : HealthModelConfig :=
  add_dependency "t2" (edge "api" "root" "critical")
    (add_dependency "t2" (edge "db" "api" "high")
       (add_entity "t1" (entity "db" "Database" DATABASE)
          (add_entity "t1" (entity "api" "API" API)
             (add_entity "t1" (entity "root" "Root" WORKLOAD) empty_config)))).

Definition record (st color : string) : HealthRecord :=
  {| state := Some st; state_color := Some color; timestamp := None;
     details := Some []; other_items := [] |}.

Definition root_record : HealthRecord :=
  {| state := Some "Degraded"; state_color := Some "amber"; timestamp := None;
     details := Some [("kind", JStr "System_HealthModelRoot")];
     other_items := [] |}.

(** [hub] is required by [a] (medium), [b] (critical), [c] (high) and by
    [ghost], which is no entity of the graph. *)
Definition fan_config : HealthModelConfig :=
  add_dependency "t2" (edge "hub" "ghost" "low")
    (add_dependency "t2" (edge "hub" "c" "high")
       (add_dependency "t2" (edge "hub" "b" "critical")
          (add_dependency "t2" (edge "hub" "a" "medium")
             (add_entity "t1" (entity "c" "C" SERVICE)
                (add_entity "t1" (entity "b" "B" SERVICE)
                   (add_entity "t1" (entity "a" "A" SERVICE)
                      (add_entity "t1" (entity "hub" "Hub" CACHE)
                         empty_config))))))).

(** [api] requires [db] with a criticality outside the table. *)
Definition urgent_config : HealthModelConfig :=
  add_dependency "t2" (edge "db" "api" "urgent")
    (add_entity "t1" (entity "db" "Database" DATABASE)
       (add_entity "t1" (entity "api" "API" API) empty_config)).

(** A cycle of critical edges through [root] and [a], [b] reachable twice,
    and two edges that are neither critical nor high. *)
Definition cyclic_config : HealthModelConfig :=
  add_dependency "t2" (edge "x" "root" "low")
    (add_dependency "t2" (edge "b" "a" "critical")
       (add_dependency "t2" (edge "y" "a" "medium")
          (add_dependency "t2" (edge "root" "a" "high")
             (add_dependency "t2" (edge "b" "root" "high")
                (add_dependency "t2" (edge "a" "root" "critical")
                   empty_config))))).

(** [cyclic_config] with its two other edges moved to the front, in the
    opposite order. *)
Definition cyclic_reordered : HealthModelConfig :=
  add_dependency "t2" (edge "b" "a" "critical")
    (add_dependency "t2" (edge "root" "a" "high")
       (add_dependency "t2" (edge "b" "root" "high")
          (add_dependency "t2" (edge "a" "root" "critical")
             (add_dependency "t2" (edge "x" "root" "low")
                (add_dependency "t2" (edge "y" "a" "medium")
                   empty_config))))).

(** The document of [small_config] with the type of [api] replaced by a
    string that is no value of [EntityType]. *)
Definition bad_type_document : dict JValue :=
  [("modelId", JStr "m");
   ("entities",
      JObj [("root", HealthModelEntity_to_dict (entity "root" "Root" WORKLOAD));
            ("api",
               JObj [("id", JStr "api"); ("name", JStr "API");
                     ("type", JStr "gateway"); ("description", JStr "")]);
            ("db", HealthModelEntity_to_dict (entity "db" "Database" DATABASE))]);
   ("dependencies", JList [])].

Definition small_health : dict HealthRecord :=
  [("api", record "Healthy" "green"); ("db", record "Unhealthy" "red")].

End Fixtures.

(** * Properties *)

(** Membership and key uniqueness on a literal dictionary. *)
Ltac literal_elem :=
  cbv; repeat first [apply list_elem_of_here | apply list_elem_of_further].

(** Decides the comparisons of literal keys that a lookup leaves. *)
Ltac literal_keys :=
  repeat first [ rewrite decide_True by done | rewrite decide_False by done ].

(** Runs the lookups and the bindings of a loader on a literal document. *)
Ltac load_step :=
  cbn [Dict.get subscript get_or default from_option Datatypes.id
       expect_str expect_opt_str expect_dict opt_str raise
       mbind result_bind mret result_ret];
  literal_keys.

Ltac literal_wf :=
  unfold Dict.wf; apply (bool_decide_unpack _); vm_compute; exact I.

(** ** Dictionaries *)

Section DictFacts.
Context {V : Type}.
Implicit Types (d : dict V) (k : string) (v : V).

Lemma dict_get_None k d : Dict.get k d = None ↔ k ∉ Dict.keys d.
Proof.
  unfold Dict.keys. induction d as [|[k' v'] d IH]; simpl.
  - split; [intros _; apply not_elem_of_nil | done].
  - rewrite not_elem_of_cons. case_decide; subst.
    + split; [done | intros [? _]; done].
    + rewrite IH. split; [by intros ? | by intros [_ ?]].
Qed.

Lemma dict_get_elem k v d : Dict.get k d = Some v → (k, v) ∈ d.
Proof.
  induction d as [|[k' v'] d IH]; simpl; [done|].
  case_decide; subst.
  - intros Heq. injection Heq as ->. apply list_elem_of_here.
  - intros ?. apply list_elem_of_further. auto.
Qed.

Lemma dict_elem_get k v d : Dict.wf d → (k, v) ∈ d → Dict.get k d = Some v.
Proof.
  unfold Dict.wf, Dict.keys. induction d as [|[k' v'] d IH]; simpl.
  - intros _ ?%elem_of_nil. done.
  - rewrite NoDup_cons. intros [Hk Hd] [[= -> ->]|Hin]%elem_of_cons.
    + by rewrite decide_True.
    + rewrite decide_False; [auto|].
      intros ->. apply Hk. apply list_elem_of_fmap. by exists (k, v).
Qed.

Lemma dict_set_fresh k v d : k ∉ Dict.keys d → Dict.set k v d = d ++ [(k, v)].
Proof.
  unfold Dict.keys. induction d as [|[k' v'] d IH]; simpl; [done|].
  rewrite not_elem_of_cons. intros [Hne Hk].
  rewrite decide_False by done. by rewrite IH.
Qed.

End DictFacts.

(** A loop that stores one value per item of a dictionary rebuilds the
    dictionary's key sequence. *)
Lemma fold_dict_set {V W : Type} (f : string → V → W) (d : dict V)
    (acc : dict W) :
    Dict.wf d →
    (∀ k, k ∈ Dict.keys d → k ∉ Dict.keys acc) →
    fold_left (fun t item => Dict.set item.1 (f item.1 item.2) t) d acc
    = acc ++ map (fun item => (item.1, f item.1 item.2)) d.
  Proof.
    unfold Dict.wf, Dict.keys. revert acc.
    induction d as [|[k v] d IH]; intros acc Hwf Hfresh;
      cbn [fold_left map fst snd].
    - by rewrite app_nil_r.
    - rewrite fmap_cons in Hwf, Hfresh. cbn [fst] in Hwf, Hfresh.
      apply NoDup_cons in Hwf as [Hk Hd].
      rewrite dict_set_fresh by (apply Hfresh, list_elem_of_here).
      rewrite IH; [by rewrite <- app_assoc | done |].
      intros k' Hk'. unfold Dict.keys. rewrite fmap_app.
      rewrite elem_of_app. cbn [fmap list_fmap fst].
      rewrite list_elem_of_singleton.
      intros [Hacc | ->]; [|done].
      revert Hacc. apply Hfresh. by apply list_elem_of_further.
Qed.

Lemma dict_keys_map {V W : Type} (f : string → V → W) (d : dict V) :
  Dict.keys (map (fun item => (item.1, f item.1 item.2)) d) = Dict.keys d.
Proof. unfold Dict.keys. induction d as [|[k v] d IH]; simpl; by f_equal. Qed.

Lemma dict_get_map {V W : Type} (f : string → V → W) (d : dict V) (k : string) :
  Dict.get k (map (fun item => (item.1, f item.1 item.2)) d) = f k <$> Dict.get k d.
Proof.
  induction d as [|[k' v] d IH]; simpl; [done|].
  case_decide; subst; simpl; done.
Qed.

Lemma filter_bool_decide {A : Type} (P : A → Prop) `{!∀ x, Decision (P x)}
    (l : list A) :
  List.filter (fun x => bool_decide (P x)) l = filter P l.
Proof.
  induction l as [|x l IH]; simpl; [done|].
  rewrite filter_cons. destruct (decide (P x)).
  - rewrite bool_decide_eq_true_2 by done. by f_equal.
  - rewrite bool_decide_eq_false_2 by done. done.
Qed.

(** ** The health tree *)

Lemma get_health_tree_map (config : HealthModelConfig)
    (all_health : dict HealthRecord) :
  Dict.wf (entities config) →
  get_health_tree config all_health
  = map (fun item =>
           (item.1,
            tree_node config item.1 item.2
                      (default empty_health (Dict.get item.1 all_health))))
        (entities config).
Proof.
  intros Hwf. unfold get_health_tree.
  rewrite (fold_dict_set
             (fun k e => tree_node config k e
                           (default empty_health (Dict.get k all_health))));
    [done | done |].
  intros k _. apply not_elem_of_nil.
Qed.

Lemma depends_on_spec (config : HealthModelConfig) (entity_id : string) :
  map (fun d => JStr (source_entity_id d))
      (get_entity_dependencies config entity_id)
  = JStr <$> (source_entity_id <$>
                filter (fun d => target_entity_id d = entity_id)
                       (dependencies config)).
Proof.
  unfold get_entity_dependencies. rewrite filter_bool_decide.
  by rewrite <- list_fmap_compose.
Qed.

Lemma depended_by_spec (config : HealthModelConfig) (entity_id : string) :
  map (fun d => JStr (target_entity_id d))
      (get_entity_dependents config entity_id)
  = JStr <$> (target_entity_id <$>
                filter (fun d => source_entity_id d = entity_id)
                       (dependencies config)).
Proof.
  unfold get_entity_dependents. rewrite filter_bool_decide.
  by rewrite <- list_fmap_compose.
Qed.

(** C1. For every entity graph and every snapshot of records, the health
    tree has exactly one entry per entity of the graph, keyed by entity id in
    the graph's entity order. The entry of an entity whose id the snapshot
    lacks has state "Unknown" and state_color "gray". The dependency summary
    of an entry lists, in edge order, under depends_on the sources of the
    edges whose target is the entity and under depended_by the targets of the
    edges whose source is the entity. *)
Theorem C1_health_tree_entries (config : HealthModelConfig)
    (all_health : dict HealthRecord) :
  Dict.wf (entities config) →
  Dict.keys (get_health_tree config all_health) = Dict.keys (entities config)
  ∧ Dict.wf (get_health_tree config all_health)
  ∧ ∀ entity_id entity,
      (entity_id, entity) ∈ entities config →
      ∃ node,
        Dict.get entity_id (get_health_tree config all_health) = Some (JObj node)
        ∧ Dict.get "name" node = Some (JStr (name entity))
        ∧ (Dict.get entity_id all_health = None →
           Dict.get "state" node = Some (JStr "Unknown")
           ∧ Dict.get "state_color" node = Some (JStr "gray"))
        ∧ Dict.get "dependencies" node
          = Some (JObj
              [("depends_on",
                 JList (JStr <$> (source_entity_id <$>
                          filter (fun d => target_entity_id d = entity_id)
                                 (dependencies config))));
               ("depended_by",
                 JList (JStr <$> (target_entity_id <$>
                          filter (fun d => source_entity_id d = entity_id)
                                 (dependencies config))))]).
Proof.
  intros Hwf. rewrite get_health_tree_map by done.
  pose proof (dict_keys_map
                (fun k e => tree_node config k e
                              (default empty_health (Dict.get k all_health)))
                (entities config)) as Hkeys.
  split; [exact Hkeys|]. split; [unfold Dict.wf; by rewrite Hkeys|].
  intros entity_id entity Hin.
  rewrite (dict_get_map
             (fun k e => tree_node config k e
                           (default empty_health (Dict.get k all_health)))).
  rewrite (dict_elem_get _ _ _ Hwf Hin). cbn [fmap option_fmap option_map].
  unfold tree_node. eexists. split; [reflexivity|].
  split; [reflexivity|]. split.
  - intros ->. by split.
  - cbn. unfold _get_entity_deps.
    by rewrite depends_on_spec, depended_by_spec.
Qed.

Lemma C1_health_tree_entries_witness :
  Dict.wf (entities Fixtures.small_config)
  ∧ Dict.keys (get_health_tree Fixtures.small_config
                 [("api", Fixtures.record "Healthy" "green")])
    = ["root"; "api"; "db"]
  ∧ ∃ node,
      Dict.get "db" (get_health_tree Fixtures.small_config
                       [("api", Fixtures.record "Healthy" "green")])
      = Some (JObj node)
      ∧ Dict.get "state" node = Some (JStr "Unknown")
      ∧ Dict.get "state_color" node = Some (JStr "gray").
Proof.
  assert (Dict.wf (entities Fixtures.small_config)) as Hwf by literal_wf.
  split; [exact Hwf|].
  destruct (C1_health_tree_entries Fixtures.small_config
              [("api", Fixtures.record "Healthy" "green")] Hwf)
    as (Hkeys & _ & Hentries).
  split; [exact Hkeys|].
  destruct (Hentries "db" (Fixtures.entity "db" "Database" DATABASE))
    as (node & Hnode & _ & Hunknown & _); [literal_elem|].
  exists node. split; [exact Hnode|]. apply Hunknown. reflexivity.
Defined.

(** ** Workload health *)

Lemma is_model_root_spec (health : HealthRecord) :
  is_model_root health = true ↔ has_root_kind health.
Proof.
  unfold is_model_root, has_root_kind. split.
  - destruct (details health) as [d|] eqn:Hd; simpl.
    + destruct (Dict.get "kind" d) as [[| | | |kind| |]|] eqn:Hk; try done.
      intros ->%bool_decide_eq_true. by exists d.
    + done.
  - intros (d & -> & Hk). simpl. rewrite Hk.
    by apply bool_decide_eq_true.
Qed.

Lemma is_model_root_false (health : HealthRecord) :
  is_model_root health = false ↔ ¬ has_root_kind health.
Proof.
  rewrite <- is_model_root_spec. destruct (is_model_root health); naive_solver.
Qed.

Lemma find_model_root_None (items : dict HealthRecord) :
  Forall (fun item => ¬ has_root_kind item.2) items →
  find_model_root items = None.
Proof.
  induction 1 as [|[k h] items Hh _ IH]; simpl in *; [done|].
  apply is_model_root_false in Hh. by rewrite Hh.
Qed.

Lemma find_model_root_first (before after : dict HealthRecord)
    (entity_id : string) (health : HealthRecord) :
  Forall (fun item => ¬ has_root_kind item.2) before →
  has_root_kind health →
  find_model_root (before ++ (entity_id, health) :: after) = Some health.
Proof.
  intros Hbefore Hroot.
  induction Hbefore as [|[k h] before Hh _ IH]; simpl in *.
  - apply is_model_root_spec in Hroot. by rewrite Hroot.
  - apply is_model_root_false in Hh. by rewrite Hh.
Qed.

Lemma find_model_root_Some (items : dict HealthRecord) (health : HealthRecord) :
  find_model_root items = Some health →
  ∃ entity_id, (entity_id, health) ∈ items ∧ has_root_kind health.
Proof.
  induction items as [|[k h] items IH]; simpl; [done|].
  destruct (is_model_root h) eqn:Hh.
  - intros Heq. injection Heq as ->. exists k.
    split; [apply list_elem_of_here | by apply is_model_root_spec].
  - intros (k' & Hin & Hroot)%IH. exists k'.
    split; [by apply list_elem_of_further | done].
Qed.

Lemma find_model_root_is_Some (items : dict HealthRecord)
    (entity_id : string) (health : HealthRecord) :
  (entity_id, health) ∈ items → has_root_kind health →
  is_Some (find_model_root items).
Proof.
  intros Hin Hroot. induction items as [|[k h] items IH]; simpl.
  - by apply elem_of_nil in Hin.
  - destruct (is_model_root h) eqn:Hh; [done|].
    apply elem_of_cons in Hin as [Heq|Hin]; [|auto].
    injection Heq as -> ->. apply is_model_root_spec in Hroot. congruence.
Qed.

(** C3. The workload health follows the fallback chain: the first record
    (in snapshot order) whose details.kind is "System_HealthModelRoot" is
    returned, wherever it stands; in particular, when exactly one record has
    that kind, that record is returned. Without such a record the first
    record of a non-empty snapshot is returned, and for the empty snapshot a
    placeholder with state "Unknown" and state_color "gray". The function is
    total: every snapshot has an answer. *)
Theorem C3_workload_health_fallback_chain (all_health : dict HealthRecord) :
  (∀ before entity_id health after,
      all_health = before ++ (entity_id, health) :: after →
      Forall (fun item => ¬ has_root_kind item.2) before →
      has_root_kind health →
      get_workload_health all_health = health)
  ∧ (∀ entity_id health,
      (entity_id, health) ∈ all_health →
      has_root_kind health →
      (∀ item, item ∈ all_health → has_root_kind item.2 →
               item = (entity_id, health)) →
      get_workload_health all_health = health)
  ∧ ((∃ item, item ∈ all_health ∧ has_root_kind item.2) →
      ∃ item, item ∈ all_health ∧ has_root_kind item.2
              ∧ get_workload_health all_health = item.2)
  ∧ (∀ entity_id health rest,
      all_health = (entity_id, health) :: rest →
      Forall (fun item => ¬ has_root_kind item.2) all_health →
      get_workload_health all_health = health)
  ∧ (all_health = [] →
      get_workload_health all_health = unknown_health
      ∧ state (get_workload_health all_health) = Some "Unknown"
      ∧ state_color (get_workload_health all_health) = Some "gray").
Proof.
  unfold get_workload_health. split_and!.
  - intros before entity_id health after -> Hbefore Hroot.
    by rewrite find_model_root_first.
  - intros entity_id health Hin Hroot Hunique.
    destruct (find_model_root_is_Some _ _ _ Hin Hroot) as [found Hfound].
    rewrite Hfound.
    apply find_model_root_Some in Hfound as (k & Hk & Hfroot).
    by injection (Hunique (k, found) Hk Hfroot).
  - intros ([k h] & Hin & Hroot).
    destruct (find_model_root_is_Some _ _ _ Hin Hroot) as [found Hfound].
    rewrite Hfound.
    apply find_model_root_Some in Hfound as (k' & Hk & Hfroot).
    by exists (k', found).
  - intros entity_id health rest -> Hnone.
    by rewrite find_model_root_None.
  - by intros ->.
Qed.

Lemma C3_workload_health_fallback_chain_witness :
  get_workload_health (Fixtures.small_health ++ [("root", Fixtures.root_record)])
  = Fixtures.root_record
  ∧ get_workload_health Fixtures.small_health
    = Fixtures.record "Healthy" "green"
  ∧ get_workload_health [] = unknown_health.
Proof.
  assert (has_root_kind Fixtures.root_record) as Hroot
    by (eexists; split; reflexivity).
  assert (Forall (fun item : string * HealthRecord => ¬ has_root_kind item.2)
                 Fixtures.small_health) as Hnone
    by (repeat constructor; apply is_model_root_false; reflexivity).
  split_and!.
  - exact (proj1 (C3_workload_health_fallback_chain
                    (Fixtures.small_health ++ [("root", Fixtures.root_record)]))
                 Fixtures.small_health "root" Fixtures.root_record []
                 eq_refl Hnone Hroot).
  - exact (proj1 (proj2 (proj2 (proj2
             (C3_workload_health_fallback_chain Fixtures.small_health))))
             "api" (Fixtures.record "Healthy" "green")
             [("db", Fixtures.record "Unhealthy" "red")] eq_refl Hnone).
  - exact (proj1 (proj2 (proj2 (proj2 (proj2
             (C3_workload_health_fallback_chain []))))
             eq_refl)).
Defined.

(** ** The health summary *)

Lemma count_entity_bucket (summary : HealthSummary)
    (item : string * HealthRecord) (b : Bucket) :
  bucket_count b (count_entity summary item)
  = bucket_count b summary + (if decide (spec_bucket item.2 = b) then 1 else 0)
  ∧ bucket_entities b (count_entity summary item)
    = bucket_entities b summary
      ++ (if decide (spec_bucket item.2 = b)
          then [state_entry item.1 item.2] else []).
Proof.
  destruct item as [entity_id health].
  unfold count_entity, spec_bucket. cbn [fst snd].
  destruct (state health) as [st|]; cbn [default from_option Datatypes.id].
  - repeat case_decide; destruct b; cbn;
      rewrite ?Nat.add_0_r, ?app_nil_r; done.
  - repeat case_decide; destruct b; cbn;
      rewrite ?Nat.add_0_r, ?app_nil_r; done.
Qed.

Lemma count_entity_frame (summary : HealthSummary)
    (item : string * HealthRecord) :
  total_entities (count_entity summary item) = total_entities summary
  ∧ health_percentages (count_entity summary item) = health_percentages summary
  ∧ summary_timestamp (count_entity summary item) = summary_timestamp summary.
Proof. unfold count_entity. repeat case_decide; done. Qed.

Lemma count_loop_bucket (all_health : dict HealthRecord)
    (summary : HealthSummary) (b : Bucket) :
  bucket_count b (fold_left count_entity all_health summary)
  = bucket_count b summary + length (in_bucket b all_health)
  ∧ bucket_entities b (fold_left count_entity all_health summary)
    = bucket_entities b summary
      ++ map (fun item => state_entry item.1 item.2) (in_bucket b all_health).
Proof.
  unfold in_bucket. revert summary.
  induction all_health as [|item rest IH]; intros summary; cbn [fold_left].
  - cbn. by rewrite Nat.add_0_r, app_nil_r.
  - destruct (IH (count_entity summary item)) as [-> ->].
    destruct (count_entity_bucket summary item b) as [-> ->].
    rewrite filter_cons. case_decide; cbn [length map].
    + rewrite <- app_assoc. split; [lia | done].
    + rewrite Nat.add_0_r, app_nil_r. done.
Qed.

Lemma count_loop_frame (all_health : dict HealthRecord)
    (summary : HealthSummary) :
  total_entities (fold_left count_entity all_health summary)
  = total_entities summary
  ∧ health_percentages (fold_left count_entity all_health summary)
    = health_percentages summary.
Proof.
  revert summary.
  induction all_health as [|item rest IH]; intros summary; cbn [fold_left];
    [done|].
  destruct (IH (count_entity summary item)) as [-> ->].
  by destruct (count_entity_frame summary item) as (-> & -> & _).
Qed.

Lemma calculate_percentages_frame (summary : HealthSummary) (b : Bucket) :
  total_entities (calculate_percentages summary) = total_entities summary
  ∧ bucket_count b (calculate_percentages summary) = bucket_count b summary
  ∧ bucket_entities b (calculate_percentages summary)
    = bucket_entities b summary.
Proof. unfold calculate_percentages. case_decide; destruct b; done. Qed.

Lemma buckets_partition (all_health : dict HealthRecord) :
  length (in_bucket BHealthy all_health)
  + length (in_bucket BDegraded all_health)
  + length (in_bucket BUnhealthy all_health)
  + length (in_bucket BUnknown all_health)
  = length all_health.
Proof.
  unfold in_bucket. induction all_health as [|item rest IH]; [done|].
  rewrite !filter_cons.
  destruct (spec_bucket item.2); repeat case_decide; try done;
    cbn [length]; lia.
Qed.

(** C2. The summary of a snapshot reports as total_entities the number of
    records; every record is counted, and listed, in exactly the bucket of
    its lower-cased state, where every state other than "healthy",
    "degraded" and "unhealthy" (a missing state too) is unknown; the four
    counts add up to the number of records; and the summary of the empty
    snapshot has total_entities 0 and the four percentages 0.0 (the division
    is not reached). *)
Theorem C2_health_summary_buckets (now : string)
    (all_health : dict HealthRecord) :
  total_entities (get_health_summary now all_health) = length all_health
  ∧ (∀ b : Bucket,
       bucket_count b (get_health_summary now all_health)
       = length (in_bucket b all_health)
       ∧ bucket_entities b (get_health_summary now all_health)
         = map (fun item => state_entry item.1 item.2) (in_bucket b all_health))
  ∧ healthy_count (get_health_summary now all_health)
    + degraded_count (get_health_summary now all_health)
    + unhealthy_count (get_health_summary now all_health)
    + unknown_count (get_health_summary now all_health)
    = length all_health
  ∧ total_entities (get_health_summary now []) = 0
  ∧ health_percentages (get_health_summary now [])
    = {| healthy := 0%float; degraded := 0%float;
         unhealthy := 0%float; unknown := 0%float |}.
Proof.
  assert (∀ b : Bucket,
       bucket_count b (get_health_summary now all_health)
       = length (in_bucket b all_health)
       ∧ bucket_entities b (get_health_summary now all_health)
         = map (fun item => state_entry item.1 item.2) (in_bucket b all_health))
    as Hbuckets.
  { intros b. unfold get_health_summary.
    match goal with
    | |- context [fold_left count_entity all_health ?s] => set (summary := s)
    end.
    destruct (calculate_percentages_frame
                (fold_left count_entity all_health summary) b)
      as (_ & -> & ->).
    destruct (count_loop_bucket all_health summary b) as [-> ->].
    by destruct b. }
  split_and!.
  - unfold get_health_summary.
    match goal with
    | |- context [fold_left count_entity all_health ?s] => set (summary := s)
    end.
    destruct (calculate_percentages_frame
                (fold_left count_entity all_health summary) BHealthy)
      as (-> & _).
    by rewrite (proj1 (count_loop_frame all_health summary)).
  - exact Hbuckets.
  - pose proof (proj1 (Hbuckets BHealthy)) as Hh.
    pose proof (proj1 (Hbuckets BDegraded)) as Hd.
    pose proof (proj1 (Hbuckets BUnhealthy)) as Hu.
    pose proof (proj1 (Hbuckets BUnknown)) as Hk.
    cbn [bucket_count] in Hh, Hd, Hu, Hk. rewrite Hh, Hd, Hu, Hk.
    apply buckets_partition.
  - reflexivity.
  - reflexivity.
Qed.

(** ** Dependency impact *)

Lemma severity_of_rank (d : EntityDependency) :
  severity_of d = criticality_rank (criticality d).
Proof.
  unfold severity_of, criticality_rank, severity_levels. cbn [Dict.get].
  repeat case_decide; subst; try done.
Qed.

Lemma fold_max_ge (l : list Z) (a : Z) : (a ≤ fold_left Z.max l a)%Z.
Proof.
  revert a. induction l as [|x l IH]; intros a; cbn [fold_left]; [lia|].
  specialize (IH (Z.max a x)). lia.
Qed.

Lemma fold_max_upper (l : list Z) (a x : Z) :
  x ∈ l → (x ≤ fold_left Z.max l a)%Z.
Proof.
  revert a. induction l as [|y l IH]; intros a; cbn [fold_left].
  - by intros ?%elem_of_nil.
  - intros [->|Hin]%elem_of_cons; [|by apply IH].
    pose proof (fold_max_ge l (Z.max a y)). lia.
Qed.

Lemma fold_max_attained (l : list Z) (a : Z) :
  fold_left Z.max l a = a ∨ fold_left Z.max l a ∈ l.
Proof.
  revert a. induction l as [|y l IH]; intros a; cbn [fold_left]; [by left|].
  destruct (IH (Z.max a y)) as [Heq|Hin].
  - rewrite Heq. destruct (Z.max_spec a y) as [[_ ->]|[_ ->]];
      [right; apply list_elem_of_here | by left].
  - right. by apply list_elem_of_further.
Qed.

(** The loop over the dependents, run on an impact whose list of affected
    services is [acc]. *)
Lemma affected_loop (config : HealthModelConfig) (deps : list EntityDependency)
    (v_id v_name v_sev : JValue) (acc : list JValue) :
  fold_left
    (fun impact dep =>
       match Dict.get (target_entity_id dep) (entities config) with
       | Some affected_entity =>
           list_append "affected_services"
                       (affected_service affected_entity dep) impact
       | None => impact
       end)
    deps
    [("failed_entity", v_id); ("failed_entity_name", v_name);
     ("affected_services", JList acc); ("impact_severity", v_sev)]
  = [("failed_entity", v_id); ("failed_entity_name", v_name);
     ("affected_services", JList (acc ++ omap (resolve_affected config) deps));
     ("impact_severity", v_sev)].
Proof.
  revert acc. induction deps as [|dep deps IH]; intros acc;
    cbn [fold_left omap list_omap].
  - by rewrite app_nil_r.
  - unfold resolve_affected at 1.
    destruct (Dict.get (target_entity_id dep) (entities config)) as [e|].
    + change (list_append "affected_services" (affected_service e dep)
                [("failed_entity", v_id); ("failed_entity_name", v_name);
                 ("affected_services", JList acc); ("impact_severity", v_sev)])
        with [("failed_entity", v_id); ("failed_entity_name", v_name);
              ("affected_services", JList (acc ++ [affected_service e dep]));
              ("impact_severity", v_sev)].
      rewrite IH. by rewrite <- app_assoc.
    + apply IH.
Qed.

(** The report in closed form. *)
Lemma get_dependency_impact_eq (config : HealthModelConfig) (entity_id : string) :
  get_dependency_impact config entity_id
  = [("failed_entity", JStr entity_id);
     ("failed_entity_name",
        match Dict.get entity_id (entities config) with
        | Some entity => JStr (name entity)
        | None => JNull
        end);
     ("affected_services",
        JList (omap (resolve_affected config)
                    (get_entity_dependents config entity_id)));
     ("impact_severity",
        JStr match get_entity_dependents config entity_id with
             | [] => "low"
             | d :: ds =>
                 default "low"
                   (severity_map (fold_left Z.max (map severity_of ds)
                                            (severity_of d)))
             end)].
Proof.
  unfold get_dependency_impact.
  destruct (get_entity_dependents config entity_id) as [|d ds]; [done|].
  cbn [Dict.set]. rewrite !decide_False by done. rewrite decide_True by done.
  by rewrite affected_loop.
Qed.

Lemma severity_map_inverse (rank : Z) (label : string) :
  severity_map rank = Some label → Dict.get label severity_levels = Some rank.
Proof.
  unfold severity_map. repeat case_decide; intros Heq; try done;
    injection Heq as <-; subst; reflexivity.
Qed.

Lemma criticality_rank_range (label : string) :
  (0 ≤ criticality_rank label ≤ 3)%Z
  ∧ is_Some (severity_map (criticality_rank label)).
Proof. unfold criticality_rank. repeat case_decide; split; (lia || done). Qed.

(** C4. When the entity has at least one dependent edge, impact_severity is
    the label that the table critical 3, high 2, medium 1, low 0 gives, read
    backwards, to the largest rank among the criticalities of the dependent
    edges (dependents with criticalities medium, critical, high give
    "critical"); and affected_services has one entry per dependent edge
    whose target is an entity of the graph, in edge order, the edges with an
    absent target being skipped. *)
Theorem C4_impact_severity_is_max (config : HealthModelConfig)
    (entity_id : string) :
  get_entity_dependents config entity_id ≠ [] →
  (∃ label rank,
      Dict.get "impact_severity" (get_dependency_impact config entity_id)
      = Some (JStr label)
      ∧ Dict.get label severity_levels = Some rank
      ∧ (∃ d, d ∈ get_entity_dependents config entity_id
              ∧ criticality_rank (criticality d) = rank)
      ∧ (∀ d, d ∈ get_entity_dependents config entity_id →
              (criticality_rank (criticality d) ≤ rank)%Z))
  ∧ (criticality <$> get_entity_dependents config entity_id
     = ["medium"; "critical"; "high"] →
     Dict.get "impact_severity" (get_dependency_impact config entity_id)
     = Some (JStr "critical"))
  ∧ Dict.get "affected_services" (get_dependency_impact config entity_id)
    = Some (JList (omap (resolve_affected config)
                        (get_entity_dependents config entity_id))).
Proof.
  intros Hne. rewrite get_dependency_impact_eq.
  destruct (get_entity_dependents config entity_id) as [|d ds] eqn:Hdeps;
    [done|].
  split_and!.
  - set (rank := fold_left Z.max (map severity_of ds) (severity_of d)).
    assert (∃ d', d' ∈ d :: ds ∧ criticality_rank (criticality d') = rank)
      as (d' & Hd' & Hrank).
    { destruct (fold_max_attained (map severity_of ds) (severity_of d))
        as [Heq|Hin]; [fold rank in Heq | fold rank in Hin].
      - exists d. split; [apply list_elem_of_here|].
        by rewrite <- severity_of_rank.
      - apply list_elem_of_fmap in Hin as (d' & Hd' & Hin).
        exists d'. split; [by apply list_elem_of_further|].
        by rewrite <- severity_of_rank. }
    destruct (proj2 (criticality_rank_range (criticality d')))
      as [label Hlabel].
    rewrite Hrank in Hlabel. exists label, rank. split_and!.
    + cbn. by rewrite Hlabel.
    + by apply severity_map_inverse.
    + by exists d'.
    + intros d0 [->|Hin]%elem_of_cons; rewrite <- severity_of_rank.
      * apply fold_max_ge.
      * apply fold_max_upper. apply list_elem_of_fmap. by exists d0.
  - rewrite fmap_cons. intros Hcrit. injection Hcrit as Hd Hds.
    destruct ds as [|d1 [|d2 [|? ?]]]; try done.
    injection Hds as Hd1 Hd2.
    cbn [map fold_left]. rewrite !severity_of_rank, Hd, Hd1, Hd2. reflexivity.
  - reflexivity.
Qed.

Lemma C4_impact_severity_is_max_witness :
  get_entity_dependents Fixtures.fan_config "hub" ≠ []
  ∧ Dict.get "impact_severity" (get_dependency_impact Fixtures.fan_config "hub")
    = Some (JStr "critical")
  ∧ Dict.get "affected_services" (get_dependency_impact Fixtures.fan_config "hub")
    = Some (JList (omap (resolve_affected Fixtures.fan_config)
                        (get_entity_dependents Fixtures.fan_config "hub"))).
Proof.
  assert (get_entity_dependents Fixtures.fan_config "hub" ≠ []) as Hne
    by (vm_compute; discriminate).
  split; [exact Hne|].
  destruct (C4_impact_severity_is_max Fixtures.fan_config "hub" Hne)
    as (_ & _ & Haffected).
  split; [reflexivity | exact Haffected].
Defined.

(** C5 as stated does not hold: for an entity without dependents the report
    is not the three-key mapping; it has the key failed_entity_name too. *)
Lemma C5_three_keys_counterexample :
  get_entity_dependents Fixtures.small_config "root" = []
  ∧ get_dependency_impact Fixtures.small_config "root"
    ≠ [("failed_entity", JStr "root"); ("affected_services", JList []);
       ("impact_severity", JStr "low")].
Proof. split; [reflexivity|]. vm_compute. discriminate. Qed.

(** C5, amended. For an entity with no dependent edge the report is exactly
    the four-key mapping: failed_entity the given id, failed_entity_name the
    name of that entity in the graph or None when the graph has no such
    entity, affected_services the empty list and impact_severity "low". *)
Theorem C5_no_dependents_report (config : HealthModelConfig)
    (entity_id : string) :
  get_entity_dependents config entity_id = [] →
  get_dependency_impact config entity_id
  = [("failed_entity", JStr entity_id);
     ("failed_entity_name",
        match Dict.get entity_id (entities config) with
        | Some entity => JStr (name entity)
        | None => JNull
        end);
     ("affected_services", JList []);
     ("impact_severity", JStr "low")].
Proof.
  intros Hnone. rewrite get_dependency_impact_eq, Hnone. reflexivity.
Qed.

Lemma C5_no_dependents_report_witness :
  get_entity_dependents Fixtures.small_config "root" = []
  ∧ get_dependency_impact Fixtures.small_config "root"
    = [("failed_entity", JStr "root"); ("failed_entity_name", JStr "Root");
       ("affected_services", JList []); ("impact_severity", JStr "low")].
Proof.
  split; [reflexivity|].
  exact (C5_no_dependents_report Fixtures.small_config "root" eq_refl).
Defined.

(** C10. A dependent edge whose criticality is none of "critical", "high",
    "medium", "low" ranks 0, as "low" does. When every dependent edge of the
    entity has such a criticality, impact_severity is "low", and the edges
    whose target is an entity of the graph are listed in affected_services
    with their criticality string unchanged. *)
Theorem C10_unrecognized_criticality (config : HealthModelConfig)
    (entity_id : string) :
  (∀ d, d ∈ get_entity_dependents config entity_id →
        criticality d ∉ ["critical"; "high"; "medium"; "low"]) →
  (∀ d, d ∈ get_entity_dependents config entity_id →
        severity_of d = 0%Z
        ∧ severity_of d
          = default 0%Z (Dict.get "low" severity_levels))
  ∧ Dict.get "impact_severity" (get_dependency_impact config entity_id)
    = Some (JStr "low")
  ∧ Dict.get "affected_services" (get_dependency_impact config entity_id)
    = Some (JList (omap (resolve_affected config)
                        (get_entity_dependents config entity_id)))
  ∧ ∀ d affected_entity,
      d ∈ get_entity_dependents config entity_id →
      Dict.get (target_entity_id d) (entities config) = Some affected_entity →
      ∃ services,
        Dict.get "affected_services" (get_dependency_impact config entity_id)
        = Some (JList services)
        ∧ JObj [("entity_id", JStr (id affected_entity));
                ("entity_name", JStr (name affected_entity));
                ("criticality", JStr (criticality d));
                ("dependency_type", JStr (dependency_type d))] ∈ services.
Proof.
  intros Hunknown.
  assert (∀ d, d ∈ get_entity_dependents config entity_id →
               severity_of d = 0%Z) as Hzero.
  { intros d Hd. specialize (Hunknown d Hd).
    rewrite severity_of_rank. unfold criticality_rank.
    repeat case_decide; try done; exfalso; apply Hunknown;
      match goal with H : criticality d = _ |- _ => rewrite H end;
      literal_elem. }
  rewrite get_dependency_impact_eq. split_and!.
  - intros d Hd. by rewrite (Hzero d Hd).
  - destruct (get_entity_dependents config entity_id) as [|d ds]; [done|].
    assert (fold_left Z.max (map severity_of ds) (severity_of d) = 0%Z) as ->;
      [|done].
    destruct (fold_max_attained (map severity_of ds) (severity_of d))
      as [->|Hin].
    + apply Hzero, list_elem_of_here.
    + apply list_elem_of_fmap in Hin as (d' & -> & Hin).
      by apply Hzero, list_elem_of_further.
  - reflexivity.
  - intros d affected_entity Hd Htarget. eexists. split; [reflexivity|].
    apply list_elem_of_omap. exists d. split; [done|].
    unfold resolve_affected. by rewrite Htarget.
Qed.

Lemma C10_unrecognized_criticality_witness :
  (∀ d, d ∈ get_entity_dependents Fixtures.urgent_config "db" →
        criticality d ∉ ["critical"; "high"; "medium"; "low"])
  ∧ Dict.get "impact_severity"
             (get_dependency_impact Fixtures.urgent_config "db")
    = Some (JStr "low")
  ∧ Dict.get "affected_services"
             (get_dependency_impact Fixtures.urgent_config "db")
    = Some (JList [JObj [("entity_id", JStr "api"); ("entity_name", JStr "API");
                         ("criticality", JStr "urgent");
                         ("dependency_type", JStr "direct")]]).
Proof.
  assert (∀ d, d ∈ get_entity_dependents Fixtures.urgent_config "db" →
               criticality d ∉ ["critical"; "high"; "medium"; "low"]) as Hurgent.
  { intros d Hd. change (d ∈ [Fixtures.edge "db" "api" "urgent"]) in Hd.
    apply list_elem_of_singleton in Hd as ->.
    apply (bool_decide_unpack _). vm_compute. exact I. }
  split; [exact Hurgent|].
  destruct (C10_unrecognized_criticality Fixtures.urgent_config "db" Hurgent)
    as (_ & Hlow & Haffected & _).
  split; [exact Hlow | exact Haffected].
Defined.

(** ** Loops whose body may stop the computation *)

Section OptionLoop.
Context {A S : Type}.
Implicit Types (f g : S → A → option S) (l : list A) (P : S → Prop).

Lemma option_loop_None f l :
  fold_left (fun acc x => match acc with Some s => f s x | None => None end)
            l None = None.
Proof. induction l; simpl; done. Qed.

Lemma option_loop_total f P l s :
  P s →
  (∀ s x, x ∈ l → P s → ∃ s', f s x = Some s' ∧ P s') →
  ∃ s',
    fold_left (fun acc x => match acc with Some s => f s x | None => None end)
              l (Some s) = Some s'
    ∧ P s'.
Proof.
  revert s. induction l as [|x l IH]; intros s Hs Hstep; cbn [fold_left].
  - by exists s.
  - destruct (Hstep s x) as (s1 & -> & Hs1); [apply list_elem_of_here|done|].
    apply IH; [done|]. intros s2 y Hy. apply Hstep.
    by apply list_elem_of_further.
Qed.

Lemma option_loop_preserves f P l s s' :
  P s →
  (∀ s x s', x ∈ l → P s → f s x = Some s' → P s') →
  fold_left (fun acc x => match acc with Some s => f s x | None => None end)
            l (Some s) = Some s' →
  P s'.
Proof.
  revert s. induction l as [|x l IH]; intros s Hs Hstep; cbn [fold_left].
  - intros Heq. by injection Heq as <-.
  - destruct (f s x) as [s1|] eqn:Hs1.
    + apply IH.
      * apply (Hstep s x s1); [apply list_elem_of_here|done..].
      * intros s2 y s3 Hy. apply Hstep. by apply list_elem_of_further.
    + by rewrite option_loop_None.
Qed.

Lemma option_loop_mono f g l s s' :
  (∀ s x s', x ∈ l → f s x = Some s' → g s x = Some s') →
  fold_left (fun acc x => match acc with Some s => f s x | None => None end)
            l (Some s) = Some s' →
  fold_left (fun acc x => match acc with Some s => g s x | None => None end)
            l (Some s) = Some s'.
Proof.
  revert s. induction l as [|x l IH]; intros s Hfg; cbn [fold_left]; [done|].
  destruct (f s x) as [s1|] eqn:Hs1.
  - rewrite (Hfg s x s1); [|apply list_elem_of_here|done].
    apply IH. intros s2 y s3 Hy. apply Hfg. by apply list_elem_of_further.
  - by rewrite option_loop_None.
Qed.

Lemma option_loop_ext f g l (acc : option S) :
  (∀ s x, x ∈ l → f s x = g s x) →
  fold_left (fun acc x => match acc with Some s => f s x | None => None end)
            l acc
  = fold_left (fun acc x => match acc with Some s => g s x | None => None end)
              l acc.
Proof.
  revert acc. induction l as [|x l IH]; intros acc Hfg; cbn [fold_left];
    [done|].
  destruct acc as [s|].
  - rewrite (Hfg s x) by apply list_elem_of_here.
    apply IH. intros s2 y Hy. apply Hfg. by apply list_elem_of_further.
  - apply IH. intros s2 y Hy. apply Hfg. by apply list_elem_of_further.
Qed.

End OptionLoop.

(** ** The critical path *)

Lemma list_filter_elem {A : Type} (f : A → bool) (l : list A) (x : A) :
  x ∈ List.filter f l → x ∈ l.
Proof. rewrite !list_elem_of_In. intros Hin. by apply filter_In in Hin as [? _]. Qed.

Lemma critical_dep_source (config : HealthModelConfig) (entity_id : string)
    (d : EntityDependency) :
  d ∈ List.filter is_critical (get_entity_dependencies config entity_id) →
  source_entity_id d ∈ walk_nodes config.
Proof.
  intros Hd%list_filter_elem%list_filter_elem. unfold walk_nodes.
  apply elem_of_union_r, elem_of_list_to_set, list_elem_of_fmap. by exists d.
Qed.

Lemma trace_inv_enter (entity_id : string) (st : TraceState) :
  trace_inv st → entity_id ∉ visited st →
  trace_inv {| visited := visited st ∪ {[entity_id]};
               critical_path := critical_path st ++ [entity_id] |}.
Proof.
  intros [Hnodup Hsame] Hnew. split; cbn.
  - apply NoDup_app. split_and!; [done| |apply NoDup_singleton].
    intros x Hx ->%list_elem_of_singleton. by apply Hnew, Hsame.
  - intros x. rewrite elem_of_app, list_elem_of_singleton, elem_of_union,
      elem_of_singleton. by rewrite Hsame.
Qed.

(** A call of [trace_critical] that returns keeps the path free of
    repetitions. *)
Lemma trace_critical_inv (fuel : nat) (config : HealthModelConfig) :
  ∀ entity_id st st',
    trace_inv st →
    trace_critical fuel config entity_id st = Some st' →
    trace_inv st'.
Proof.
  induction fuel as [|fuel IH]; intros entity_id st st' Hinv;
    cbn [trace_critical]; [done|].
  case_decide as Hvisited.
  - intros Heq. by injection Heq as <-.
  - apply (option_loop_preserves
             (fun st dep => trace_critical fuel config (source_entity_id dep) st)
             trace_inv).
    + by apply trace_inv_enter.
    + intros s d s' _ Hs. by apply IH.
Qed.

(** A call with more fuel than there are ids left to enter returns. *)
Lemma trace_critical_total (fuel : nat) (config : HealthModelConfig) :
  ∀ entity_id st,
    entity_id ∈ walk_nodes config →
    visited st ⊆ walk_nodes config →
    size (walk_nodes config ∖ visited st) < fuel →
    ∃ st',
      trace_critical fuel config entity_id st = Some st'
      ∧ visited st ⊆ visited st' ∧ visited st' ⊆ walk_nodes config.
Proof.
  induction fuel as [|fuel IH]; intros entity_id st Hnode Hsub Hfuel;
    cbn [trace_critical]; [lia|].
  case_decide as Hvisited; [by exists st|].
  assert (size (walk_nodes config ∖ (visited st ∪ {[entity_id]})) < fuel)
    as Hless.
  { assert (walk_nodes config ∖ (visited st ∪ {[entity_id]})
            ⊂ walk_nodes config ∖ visited st) as Hstrict%subset_size
      by set_solver.
    lia. }
  destruct (option_loop_total
              (fun st dep => trace_critical fuel config (source_entity_id dep) st)
              (fun s => visited st ∪ {[entity_id]} ⊆ visited s
                        ∧ visited s ⊆ walk_nodes config)
              (List.filter is_critical
                 (get_entity_dependencies config entity_id))
              {| visited := visited st ∪ {[entity_id]};
                 critical_path := critical_path st ++ [entity_id] |})
    as (st' & Hloop & Hgrow & Hbound).
  - cbn. set_solver.
  - intros s d Hd [Hgrow Hbound].
    destruct (IH (source_entity_id d) s) as (s' & Hcall & Hgrow' & Hbound').
    + by eapply critical_dep_source.
    + done.
    + assert (size (walk_nodes config ∖ visited s)
              ≤ size (walk_nodes config ∖ (visited st ∪ {[entity_id]})))%nat
        by (apply subseteq_size; set_solver).
      lia.
    + exists s'. split; [done|]. split; [set_solver | done].
  - exists st'. split; [exact Hloop|]. split; [set_solver | done].
Qed.

(** More fuel does not change the answer of a call that returns. *)
Lemma trace_critical_fuel_mono (fuel : nat) (config : HealthModelConfig) :
  ∀ fuel' entity_id st st',
    (fuel ≤ fuel')%nat →
    trace_critical fuel config entity_id st = Some st' →
    trace_critical fuel' config entity_id st = Some st'.
Proof.
  induction fuel as [|fuel IH]; intros fuel' entity_id st st' Hle;
    cbn [trace_critical]; [done|].
  destruct fuel' as [|fuel']; [lia|]. cbn [trace_critical].
  case_decide; [done|].
  apply option_loop_mono. intros s d s' _. apply IH. lia.
Qed.

Lemma size_list_to_set_le (l : list string) :
  (size (list_to_set l : gset string) ≤ length l)%nat.
Proof.
  induction l as [|x l IH]; cbn [list_to_set foldr length].
  - by rewrite size_empty.
  - rewrite size_union_alt, size_singleton.
    assert (size ((list_to_set l : gset string) ∖ {[x]})
            ≤ size (list_to_set l : gset string))%nat
      by (apply subseteq_size; set_solver).
    lia.
Qed.

Lemma walk_nodes_size (config : HealthModelConfig) :
  size (walk_nodes config) < critical_fuel config.
Proof.
  unfold walk_nodes, critical_fuel.
  rewrite size_union_alt, size_singleton.
  pose proof (size_list_to_set_le (source_entity_id <$> dependencies config))
    as Hle.
  rewrite length_fmap in Hle.
  assert (size ((list_to_set (source_entity_id <$> dependencies config)
                 : gset string) ∖ {["root"]})
          ≤ size (list_to_set (source_entity_id <$> dependencies config)
                  : gset string))%nat
    by (apply subseteq_size; set_solver).
  lia.
Qed.

Lemma critical_path_with_total (config : HealthModelConfig) (fuel : nat) :
  (critical_fuel config ≤ fuel)%nat →
  ∃ st, trace_critical fuel config "root"
          {| visited := ∅; critical_path := [] |} = Some st
        ∧ NoDup (critical_path st).
Proof.
  intros Hfuel.
  destruct (trace_critical_total fuel config "root"
              {| visited := ∅; critical_path := [] |})
    as (st & Hst & _).
  - unfold walk_nodes. set_solver.
  - cbn. set_solver.
  - cbn. pose proof (walk_nodes_size config).
    assert (size (walk_nodes config ∖ ∅) ≤ size (walk_nodes config))%nat
      by (apply subseteq_size; set_solver).
    lia.
  - exists st. split; [done|].
    eapply (trace_critical_inv fuel config "root"); [|exact Hst].
    split; cbn; [apply NoDup_nil_2 | set_solver].
Qed.




Lemma list_filter_comm {A : Type} (f g : A → bool) (l : list A) :
  List.filter f (List.filter g l) = List.filter g (List.filter f l).
Proof.
  induction l as [|x l IH]; [done|]. cbn [List.filter].
  destruct (f x) eqn:Hf, (g x) eqn:Hg; cbn [List.filter];
    rewrite ?Hf, ?Hg, IH; done.
Qed.

(** The edges a call follows are read off the critical and high edges
    alone. *)
Lemma critical_deps_eq (config : HealthModelConfig) (entity_id : string) :
  List.filter is_critical (get_entity_dependencies config entity_id)
  = List.filter (fun d => bool_decide (target_entity_id d = entity_id))
                (List.filter is_critical (dependencies config)).
Proof. unfold get_entity_dependencies. apply list_filter_comm. Qed.

Lemma trace_critical_congr (fuel : nat) (config1 config2 : HealthModelConfig) :
  List.filter is_critical (dependencies config1)
  = List.filter is_critical (dependencies config2) →
  ∀ entity_id st,
    trace_critical fuel config1 entity_id st
    = trace_critical fuel config2 entity_id st.
Proof.
  intros Hsame. induction fuel as [|fuel IH]; intros entity_id st;
    cbn [trace_critical]; [done|].
  case_decide; [done|].
  rewrite !critical_deps_eq, Hsame.
  apply option_loop_ext. intros s d _. apply IH.
Qed.

Lemma critical_path_congr (config1 config2 : HealthModelConfig) :
  List.filter is_critical (dependencies config1)
  = List.filter is_critical (dependencies config2) →
  get_critical_path config1 = get_critical_path config2.
Proof.
  intros Hsame.
  set (fuel := critical_fuel config1 `max` critical_fuel config2).
  destruct (critical_path_with_total config1 (critical_fuel config1))
    as (st1 & Hst1 & _); [done|].
  destruct (critical_path_with_total config2 (critical_fuel config2))
    as (st2 & Hst2 & _); [done|].
  unfold get_critical_path, critical_path_with. rewrite Hst1, Hst2.
  apply (trace_critical_fuel_mono _ _ fuel) in Hst1; [|lia].
  apply (trace_critical_fuel_mono _ _ fuel) in Hst2; [|lia].
  rewrite (trace_critical_congr fuel config1 config2 Hsame) in Hst1.
  congruence.
Qed.

Lemma list_filter_idem {A : Type} (f : A → bool) (l : list A) :
  List.filter f (List.filter f l) = List.filter f l.
Proof.
  induction l as [|x l IH]; [done|]. cbn [List.filter].
  destruct (f x) eqn:Hf; cbn [List.filter]; rewrite ?Hf, IH; done.
Qed.

(** C7. The critical path depends on the dependency list only through its
    critical and high edges: two graphs whose dependency lists have the same
    critical and high edges in the same order (so, after any re-ordering or
    removal of the other edges) have the same critical path; in particular
    the path is that of the graph with all the other edges removed. *)
Theorem C7_critical_path_ignores_other_edges
    (config1 config2 : HealthModelConfig) :
  List.filter is_critical (dependencies config1)
  = List.filter is_critical (dependencies config2) →
  get_critical_path config1 = get_critical_path config2
  ∧ get_critical_path config1
    = get_critical_path
        (with_dependencies (List.filter is_critical (dependencies config1))
                           (last_modified config1) config1).
Proof.
  intros Hsame. split.
  - by apply critical_path_congr.
  - apply critical_path_congr. cbn [with_dependencies dependencies].
    symmetry. apply list_filter_idem.
Qed.

Lemma C7_critical_path_ignores_other_edges_witness :
  List.filter is_critical (dependencies Fixtures.cyclic_config)
  = List.filter is_critical (dependencies Fixtures.cyclic_reordered)
  ∧ dependencies Fixtures.cyclic_config
    ≠ dependencies Fixtures.cyclic_reordered
  ∧ get_critical_path Fixtures.cyclic_config
    = get_critical_path Fixtures.cyclic_reordered.
Proof.
  split; [reflexivity|]. split; [vm_compute; discriminate|].
  exact (proj1 (C7_critical_path_ignores_other_edges
                  Fixtures.cyclic_config Fixtures.cyclic_reordered eq_refl)).
Defined.

Example cyclic_critical_path :
  get_critical_path Fixtures.cyclic_config = Some ["root"; "a"; "b"].
Proof. vm_compute. reflexivity. Qed.

(** ** Graphs built by add_entity are well-formed *)

Lemma dict_set_keys {V : Type} (k : string) (v : V) (d : dict V) :
  Dict.keys (Dict.set k v d)
  = if decide (k ∈ Dict.keys d) then Dict.keys d else Dict.keys d ++ [k].
Proof.
  unfold Dict.keys. induction d as [|[k' v'] d IH]; cbn [Dict.set]; [done|].
  destruct (decide (k' = k)) as [->|Hne].
  - rewrite !fmap_cons. cbn [fst].
    rewrite decide_True by apply list_elem_of_here. done.
  - rewrite !fmap_cons. cbn [fst]. rewrite IH.
    destruct (decide (k ∈ d.*1)) as [Hin|Hnotin].
    + rewrite decide_True by (by apply list_elem_of_further). done.
    + rewrite decide_False; [done|].
      intros [->|?]%elem_of_cons; done.
Qed.

Lemma dict_set_elem {V : Type} (k : string) (v : V) (d : dict V)
    (item : string * V) :
  item ∈ Dict.set k v d → item = (k, v) ∨ item ∈ d.
Proof.
  induction d as [|[k' v'] d IH]; cbn [Dict.set].
  - intros ->%list_elem_of_singleton. by left.
  - case_decide; subst.
    + intros [->|?]%elem_of_cons; [by left|].
      right. by apply list_elem_of_further.
    + intros [->|Hin]%elem_of_cons; [right; apply list_elem_of_here|].
      destruct (IH Hin); [by left|]. right. by apply list_elem_of_further.
Qed.

Lemma add_entity_wf (now : string) (entity : HealthModelEntity)
    (config : HealthModelConfig) :
  graph_wf config → graph_wf (add_entity now entity config).
Proof.
  intros [Hwf Hids]. split; cbn.
  - unfold Dict.wf in *. rewrite dict_set_keys. case_decide; [done|].
    apply NoDup_app. split_and!; [done| |apply NoDup_singleton].
    by intros x Hx ->%list_elem_of_singleton.
  - apply Forall_forall. intros item [->|Hin]%dict_set_elem; [done|].
    by apply (proj1 (Forall_forall _ _) Hids).
Qed.

Lemma add_dependency_wf (now : string) (dependency : EntityDependency)
    (config : HealthModelConfig) :
  graph_wf config → graph_wf (add_dependency now dependency config).
Proof. by intros [Hwf Hids]. Qed.

(** ** Serialization *)

Lemma EntityType_of_value_value (t : EntityType) :
  EntityType_of_value (EntityType_value t) = Some t.
Proof. by destruct t. Qed.

Lemma EntityType_of_value_None (s : string) :
  s ∉ (EntityType_value <$> EntityType_members) → EntityType_of_value s = None.
Proof.
  intros Hnot. unfold EntityType_of_value.
  destruct (List.find _ EntityType_members) as [t|] eqn:Hfind; [|done].
  apply find_some in Hfind as [Hin Heq]. apply bool_decide_eq_true in Heq.
  exfalso. apply Hnot. subst s. apply list_elem_of_fmap. exists t.
  split; [done | by apply list_elem_of_In].
Qed.

Lemma expect_str_values_strings (field : string) (o : dict string) :
  expect_str_values field (map (fun kv => (kv.1, JStr kv.2)) o) = inr o.
Proof.
  induction o as [|[k v] o IH]; [done|].
  cbn [map expect_str_values fst snd expect_str]. rewrite IH. reflexivity.
Qed.

Lemma load_entity_to_dict (e : HealthModelEntity) :
  load_entity (HealthModelEntity_to_dict e) = inr e.
Proof.
  destruct e as [e_id e_name e_type e_descr e_parent e_azure e_signals e_meta].
  unfold load_entity, HealthModelEntity_to_dict.
  cbn [id name entity_type description parent_entity_id azure_resource_id
       signals metadata].
  repeat progress load_step.
  unfold EntityType_call. rewrite EntityType_of_value_value.
  destruct e_parent, e_azure; repeat progress load_step;
    rewrite expect_str_values_strings; repeat progress load_step; reflexivity.
Qed.

Lemma load_dependency_to_dict (d : EntityDependency) :
  load_dependency (EntityDependency_to_dict d) = inr d.
Proof.
  destruct d. unfold load_dependency, EntityDependency_to_dict.
  repeat progress load_step. reflexivity.
Qed.

(** The entity loop on the document of a dictionary of entities. *)
Lemma load_entities_loop (now : string) (es : dict HealthModelEntity)
    (config : HealthModelConfig) :
  for_each
    (fun config item =>
       entity ← load_entity item.2; mret (add_entity now entity config))
    (map (fun kv => (kv.1, HealthModelEntity_to_dict kv.2)) es) config
  = inr (fold_left (fun config kv => add_entity now kv.2 config) es config).
Proof.
  revert config. induction es as [|[k e] es IH]; intros config; [done|].
  cbn [map for_each fst snd fold_left]. rewrite load_entity_to_dict. apply IH.
Qed.

Lemma load_dependencies_loop (now : string) (ds : list EntityDependency)
    (config : HealthModelConfig) :
  for_each
    (fun config dep_data =>
       dependency ← load_dependency dep_data;
       mret (add_dependency now dependency config))
    (map EntityDependency_to_dict ds) config
  = inr (fold_left (fun config d => add_dependency now d config) ds config).
Proof.
  revert config. induction ds as [|d ds IH]; intros config; [done|].
  cbn [map for_each fold_left]. rewrite load_dependency_to_dict. apply IH.
Qed.

Lemma add_entities_fields (now : string) (es : dict HealthModelEntity)
    (config : HealthModelConfig) :
  let loaded := fold_left (fun config kv => add_entity now kv.2 config) es config in
  entities loaded
  = fold_left (fun d kv => Dict.set (id kv.2) kv.2 d) es (entities config)
  ∧ dependencies loaded = dependencies config
  ∧ model_id loaded = model_id config
  ∧ model_name loaded = model_name config
  ∧ config_description loaded = config_description config
  ∧ owner_team loaded = owner_team config
  ∧ created_at loaded = created_at config
  ∧ version loaded = version config.
Proof.
  revert config. induction es as [|[k e] es IH]; intros config; [done|].
  cbn [fold_left]. cbn zeta in IH.
  destruct (IH (add_entity now (k, e).2 config))
    as (-> & -> & -> & -> & -> & -> & -> & ->).
  done.
Qed.

Lemma add_dependencies_fields (now : string) (ds : list EntityDependency)
    (config : HealthModelConfig) :
  let loaded := fold_left (fun config d => add_dependency now d config) ds config in
  entities loaded = entities config
  ∧ dependencies loaded = dependencies config ++ ds
  ∧ model_id loaded = model_id config
  ∧ model_name loaded = model_name config
  ∧ config_description loaded = config_description config
  ∧ owner_team loaded = owner_team config
  ∧ created_at loaded = created_at config
  ∧ version loaded = version config.
Proof.
  revert config. induction ds as [|d ds IH]; intros config.
  - cbn. by rewrite app_nil_r.
  - cbn [fold_left]. cbn zeta in IH.
    destruct (IH (add_dependency now d config))
      as (-> & -> & -> & -> & -> & -> & -> & ->).
    cbn. by rewrite <- app_assoc.
Qed.

(** Storing every entity of a well-formed dictionary under its id rebuilds
    the dictionary. *)
Lemma rebuild_entities (es : dict HealthModelEntity) :
  Dict.wf es →
  Forall (fun item => item.1 = id item.2) es →
  fold_left (fun d kv => Dict.set (id kv.2) kv.2 d) es [] = es.
Proof.
  intros Hwf Hids.
  transitivity (fold_left (fun d kv => Dict.set kv.1 ((fun _ e => e) kv.1 kv.2) d)
                          es ([] : dict HealthModelEntity)).
  - clear Hwf. generalize ([] : dict HealthModelEntity).
    induction Hids as [|[k e] es Hk _ IH]; intros acc; [done|].
    cbn [fold_left fst snd] in *. rewrite <- Hk. apply IH.
  - rewrite (fold_dict_set (fun _ e => e)); [|done|].
    + cbn [app]. induction es as [|[k e] es IH]; [done|].
      cbn [map fst snd]. f_equal. apply IH.
      * unfold Dict.wf, Dict.keys in *. rewrite fmap_cons in Hwf.
        by apply NoDup_cons in Hwf as [_ ?].
      * by apply Forall_cons in Hids as [_ ?].
    + intros k _. apply not_elem_of_nil.
Qed.

(** C8. For every well-formed graph (no entity id twice, every entity
    stored under its own id; the entity types are values of the enumeration
    by their type), loading the document that [to_dict] produces succeeds
    and gives a graph with the same dictionary of entities (same fields,
    same order) and the same list of dependency edges (same fields, same
    order); the header fields other than last_modified are the same too. *)
Theorem C8_to_dict_load_round_trip (now : string) (config : HealthModelConfig) :
  graph_wf config →
  ∃ loaded,
    load_from_json now (to_dict config) = inr loaded
    ∧ entities loaded = entities config
    ∧ dependencies loaded = dependencies config
    ∧ model_id loaded = model_id config
    ∧ model_name loaded = model_name config
    ∧ config_description loaded = config_description config
    ∧ owner_team loaded = owner_team config
    ∧ created_at loaded = created_at config
    ∧ version loaded = version config.
Proof.
  intros [Hwf Hids]. unfold load_from_json, to_dict.
  unfold entity_items, dependency_items, get_or.
  cbn [Dict.get]. literal_keys.
  cbn [default from_option Datatypes.id mbind result_bind mret result_ret].
  rewrite load_entities_loop. cbn [mbind result_bind].
  rewrite load_dependencies_loop.
  eexists. split; [reflexivity|].
  match goal with
  | |- context [fold_left _ (dependencies config) ?c] =>
      destruct (add_dependencies_fields now (dependencies config) c)
        as (-> & -> & -> & -> & -> & -> & -> & ->)
  end.
  match goal with
  | |- context [fold_left _ (entities config) ?c] =>
      destruct (add_entities_fields now (entities config) c)
        as (-> & -> & -> & -> & -> & -> & -> & ->)
  end.
  cbn. by rewrite rebuild_entities.
Qed.

(** An entity stored under a key that is not its id comes back under its
    id: the round trip is about graphs as [add_entity] builds them. *)
Example round_trip_rekeys :
  entities <$> load_from_json "t9"
     (to_dict (with_entities [("alias", Fixtures.entity "db" "Database" DATABASE)]
                             (JStr "t0") Fixtures.empty_config))
  = inr [("db", Fixtures.entity "db" "Database" DATABASE)].
Proof. vm_compute. reflexivity. Qed.

Lemma C8_to_dict_load_round_trip_witness :
  graph_wf Fixtures.small_config
  ∧ ∃ loaded,
      load_from_json "t9" (to_dict Fixtures.small_config) = inr loaded
      ∧ entities loaded = entities Fixtures.small_config
      ∧ dependencies loaded = dependencies Fixtures.small_config.
Proof.
  assert (graph_wf Fixtures.small_config) as Hwf.
  { split; [literal_wf|]. cbv. repeat constructor. }
  split; [exact Hwf|].
  destruct (C8_to_dict_load_round_trip "t9" Fixtures.small_config Hwf)
    as (loaded & Hload & Hentities & Hdeps & _).
  exists loaded. by split_and!.
Defined.

Lemma for_each_raises {A S : Type} (body : S → A → result S) (items : list A)
    (bad : A) :
  bad ∈ items →
  (∀ s, ∃ e, body s bad = inl e) →
  ∀ s, ∃ e, for_each body items s = inl e.
Proof.
  intros Hin Hbad. induction items as [|x items IH]; intros s.
  - by apply elem_of_nil in Hin.
  - cbn [for_each]. destruct (body s x) as [e|s'] eqn:Hbody.
    + by exists e.
    + cbn [mbind result_bind].
      apply elem_of_cons in Hin as [->|Hin]; [|by apply IH].
      destruct (Hbad s) as [e He]. congruence.
Qed.

(** An entity whose declared type is not a value of the enumeration is
    never constructed. *)
Lemma load_entity_undefined_type (fields : dict JValue) (type_name : string) :
  Dict.get "type" fields = Some (JStr type_name) →
  EntityType_of_value type_name = None →
  ∃ e, load_entity (JObj fields) = inl e.
Proof.
  intros Htype Hundefined. unfold load_entity, subscript.
  destruct (Dict.get "id" fields) as [v_id|]; [|by eexists].
  cbn [mbind result_bind mret result_ret].
  destruct (expect_str "id" v_id) as [?|e_id]; [by eexists|].
  cbn [mbind result_bind].
  destruct (Dict.get "name" fields) as [v_name|]; [|by eexists].
  cbn [mbind result_bind mret result_ret].
  destruct (expect_str "name" v_name) as [?|e_name]; [by eexists|].
  cbn [mbind result_bind mret result_ret].
  rewrite Htype. cbn [mbind result_bind mret result_ret EntityType_call].
  rewrite Hundefined. by eexists.
Qed.

(** With an id and a name that are strings, the failure is the
    [ValueError] of the enumeration. *)
Lemma load_entity_ValueError (fields : dict JValue)
    (e_id e_name type_name : string) :
  Dict.get "id" fields = Some (JStr e_id) →
  Dict.get "name" fields = Some (JStr e_name) →
  Dict.get "type" fields = Some (JStr type_name) →
  EntityType_of_value type_name = None →
  load_entity (JObj fields) = inl (ValueError (JStr type_name)).
Proof.
  intros Hid Hname Htype Hundefined. unfold load_entity, subscript.
  rewrite Hid, Hname, Htype.
  cbn [mbind result_bind mret result_ret expect_str EntityType_call].
  by rewrite Hundefined.
Qed.

(** C9. A configuration document that has, among its entities, one whose
    declared type is a string outside the values of the EntityType
    enumeration does not load: [load_from_json] raises, whatever else the
    document holds, so no graph (and no partial graph) is returned and the
    type is not replaced by a default. *)
Theorem C9_undefined_entity_type_fails (now : string) (data : dict JValue)
    (entities_data : dict JValue) (key : string) (fields : dict JValue)
    (type_name : string) :
  Dict.get "entities" data = Some (JObj entities_data) →
  (key, JObj fields) ∈ entities_data →
  Dict.get "type" fields = Some (JStr type_name) →
  type_name ∉ (EntityType_value <$> EntityType_members) →
  (∃ e, load_from_json now (JObj data) = inl e)
  ∧ ∀ config, load_from_json now (JObj data) ≠ inr config.
Proof.
  intros Hentities Hin Htype Hundefined%EntityType_of_value_None.
  assert (∃ e, load_from_json now (JObj data) = inl e) as [e He].
  { unfold load_from_json, entity_items, get_or. rewrite Hentities.
    cbn [default from_option Datatypes.id mbind result_bind mret result_ret].
    match goal with
    | |- context [for_each ?body entities_data ?c] =>
        destruct (for_each_raises body entities_data (key, JObj fields) Hin)
          with (s := c) as [e He]
    end.
    - intros s. cbn [snd].
      destruct (load_entity_undefined_type fields type_name Htype Hundefined)
        as [e ->].
      by exists e.
    - rewrite He. by exists e. }
  split; [by exists e|]. intros config. by rewrite He.
Qed.

Lemma C9_undefined_entity_type_fails_witness :
  Dict.get "entities" Fixtures.bad_type_document
  = Some (JObj [("root", HealthModelEntity_to_dict
                           (Fixtures.entity "root" "Root" WORKLOAD));
                ("api", JObj [("id", JStr "api"); ("name", JStr "API");
                              ("type", JStr "gateway");
                              ("description", JStr "")]);
                ("db", HealthModelEntity_to_dict
                         (Fixtures.entity "db" "Database" DATABASE))])
  ∧ ("gateway" ∉ (EntityType_value <$> EntityType_members))
  ∧ load_from_json "t9" (JObj Fixtures.bad_type_document)
    = inl (ValueError (JStr "gateway"))
  ∧ ∀ config, load_from_json "t9" (JObj Fixtures.bad_type_document)
              ≠ inr config.
Proof.
  assert ("gateway" ∉ (EntityType_value <$> EntityType_members)) as Hundefined
    by (apply (bool_decide_unpack _); vm_compute; exact I).
  split; [reflexivity|]. split; [exact Hundefined|].
  split; [vm_compute; reflexivity|].
  refine (proj2 (C9_undefined_entity_type_fails "t9"
                   Fixtures.bad_type_document _ "api"
                   [("id", JStr "api"); ("name", JStr "API");
                    ("type", JStr "gateway"); ("description", JStr "")]
                   "gateway" eq_refl _ eq_refl Hundefined)).
  literal_elem.
Defined.

(** * Further properties *)

(** ** Building a graph *)

Lemma dict_get_set_eq {V : Type} (k : string) (v : V) (d : dict V) :
  Dict.get k (Dict.set k v d) = Some v.
Proof.
  induction d as [|[k' v'] d IH]; cbn [Dict.set Dict.get].
  - by rewrite decide_True.
  - destruct (decide (k' = k)) as [->|Hne]; cbn [Dict.get].
    + by rewrite decide_True.
    + by rewrite decide_False.
Qed.

Lemma dict_get_set_ne {V : Type} (k k' : string) (v : V) (d : dict V) :
  k ≠ k' → Dict.get k' (Dict.set k v d) = Dict.get k' d.
Proof.
  intros Hne. induction d as [|[k0 v0] d IH]; cbn [Dict.set Dict.get].
  - by rewrite decide_False.
  - destruct (decide (k0 = k)) as [->|Hne0]; cbn [Dict.get].
    + by rewrite !decide_False.
    + by rewrite IH.
Qed.

(** X1. [add_entity] stores the entity under its id: a lookup of that id
    gives the entity just added (the last write wins), every other id reads
    as before, an id already present keeps its place in the order while a
    new id goes last, and the dependency list is not touched. *)
Theorem X1_add_entity_lookup (now : string) (entity : HealthModelEntity)
    (config : HealthModelConfig) :
  Dict.get (id entity) (entities (add_entity now entity config)) = Some entity
  ∧ (∀ other, other ≠ id entity →
       Dict.get other (entities (add_entity now entity config))
       = Dict.get other (entities config))
  ∧ Dict.keys (entities (add_entity now entity config))
    = (if decide (id entity ∈ Dict.keys (entities config))
       then Dict.keys (entities config)
       else Dict.keys (entities config) ++ [id entity])
  ∧ dependencies (add_entity now entity config) = dependencies config.
Proof.
  cbn [add_entity with_entities entities dependencies]. split_and!.
  - apply dict_get_set_eq.
  - intros other Hne. by apply dict_get_set_ne.
  - apply dict_set_keys.
  - reflexivity.
Qed.

(** X2. [add_dependency] appends without checking or de-duplicating: the
    dependencies of an entity gain the new edge, last, exactly when the
    entity is the edge's target, its dependents exactly when it is the
    edge's source, whether or not the two ends are entities of the graph;
    the entities are not touched. *)
Theorem X2_add_dependency_queries (now : string) (dependency : EntityDependency)
    (config : HealthModelConfig) (entity_id : string) :
  get_entity_dependencies (add_dependency now dependency config) entity_id
  = get_entity_dependencies config entity_id
    ++ (if decide (target_entity_id dependency = entity_id)
        then [dependency] else [])
  ∧ get_entity_dependents (add_dependency now dependency config) entity_id
    = get_entity_dependents config entity_id
      ++ (if decide (source_entity_id dependency = entity_id)
          then [dependency] else [])
  ∧ entities (add_dependency now dependency config) = entities config.
Proof.
  unfold get_entity_dependencies, get_entity_dependents.
  cbn [add_dependency with_dependencies entities dependencies].
  rewrite !List.filter_app. cbn [List.filter].
  split_and!; [| |done].
  - destruct (decide (target_entity_id dependency = entity_id)) as [Heq|Hne].
    + by rewrite bool_decide_eq_true_2.
    + by rewrite bool_decide_eq_false_2.
  - destruct (decide (source_entity_id dependency = entity_id)) as [Heq|Hne].
    + by rewrite bool_decide_eq_true_2.
    + by rewrite bool_decide_eq_false_2.
Qed.

(** X3. A graph in which no id occurs twice and every entity is stored
    under its own id stays so under [add_entity] and [add_dependency]; the
    graph of a fresh configuration is such a graph. *)
Theorem X3_graph_wf_preserved (now : string) (config : HealthModelConfig)
    (entity : HealthModelEntity) (dependency : EntityDependency) :
  graph_wf config →
  graph_wf (add_entity now entity config)
  ∧ graph_wf (add_dependency now dependency config)
  ∧ ∀ m_id m_name m_description m_owner,
      graph_wf (new_config now m_id m_name m_description m_owner).
Proof.
  intros Hwf. split_and!.
  - by apply add_entity_wf.
  - by apply add_dependency_wf.
  - intros. split; [apply NoDup_nil_2 | apply Forall_nil_2].
Qed.

Lemma X3_graph_wf_preserved_witness :
  graph_wf (new_config "t0" "m" "M" "" "team")
  ∧ graph_wf (add_entity "t1" (Fixtures.entity "db" "Database" DATABASE)
                (new_config "t0" "m" "M" "" "team"))
  ∧ graph_wf (add_dependency "t1" (Fixtures.edge "db" "api" "high")
                (new_config "t0" "m" "M" "" "team")).
Proof.
  assert (graph_wf (new_config "t0" "m" "M" "" "team")) as Hwf
    by (split; [apply NoDup_nil_2 | apply Forall_nil_2]).
  split; [exact Hwf|].
  destruct (X3_graph_wf_preserved "t1" (new_config "t0" "m" "M" "" "team")
              (Fixtures.entity "db" "Database" DATABASE)
              (Fixtures.edge "db" "api" "high") Hwf)
    as (Hentity & Hdependency & _).
  by split.
Defined.

(** ** Loading a configuration *)

Lemma load_entities_spec (now : string) (items : dict JValue) :
  ∀ config loaded,
    for_each
      (fun config item =>
         entity ← load_entity item.2; mret (add_entity now entity config))
      items config = inr loaded →
    (graph_wf config → graph_wf loaded)
    ∧ (length (entities loaded) ≤ length (entities config) + length items)%nat
    ∧ dependencies loaded = dependencies config.
Proof.
  induction items as [|item items IH]; intros config loaded; cbn [for_each].
  - intros Heq. injection Heq as <-. split_and!; [done|cbn; lia|done].
  - destruct (load_entity item.2) as [e|entity]; [done|].
    cbn [mbind result_bind mret result_ret].
    intros (Hwf & Hlen & Hdeps)%IH. split_and!.
    + intros Hconfig. by apply Hwf, add_entity_wf.
    + assert (length (entities (add_entity now entity config))
              ≤ S (length (entities config)))%nat as Hstep.
      { cbn [add_entity with_entities entities].
        pose proof (dict_set_keys (id entity) entity (entities config)) as Hkeys.
        apply (f_equal length) in Hkeys. unfold Dict.keys in Hkeys.
        rewrite !length_fmap in Hkeys. rewrite Hkeys.
        case_decide; rewrite ?length_app, ?length_fmap; cbn [length]; lia. }
      cbn [length]. lia.
    + by rewrite Hdeps.
Qed.

Lemma load_dependencies_spec (now : string) (items : list JValue) :
  ∀ config loaded,
    for_each
      (fun config dep_data =>
         dependency ← load_dependency dep_data;
         mret (add_dependency now dependency config))
      items config = inr loaded →
    entities loaded = entities config
    ∧ ∃ edges,
        dependencies loaded = dependencies config ++ edges
        ∧ Forall2 (fun item d => load_dependency item = inr d) items edges.
Proof.
  induction items as [|item items IH]; intros config loaded; cbn [for_each].
  - intros Heq. injection Heq as <-. split; [done|].
    exists []. by rewrite app_nil_r.
  - destruct (load_dependency item) as [e|d] eqn:Hitem; [done|].
    cbn [mbind result_bind mret result_ret].
    intros (Hentities & edges & Hdeps & Hedges)%IH. split; [done|].
    exists (d :: edges). split; [|by constructor].
    rewrite Hdeps. cbn [add_dependency with_dependencies dependencies].
    by rewrite <- app_assoc.
Qed.

(** The two loops of a load that succeeds. *)
Lemma load_from_json_inv (now : string) (data : dict JValue)
    (loaded : HealthModelConfig) :
  load_from_json now (JObj data) = inr loaded →
  ∃ items deps middle,
    entity_items data = inr items
    ∧ dependency_items data = inr deps
    ∧ for_each
        (fun config item =>
           entity ← load_entity item.2; mret (add_entity now entity config))
        items
        {| model_id := get_or "modelId" JNull data;
           model_name := get_or "modelName" JNull data;
           config_description := get_or "description" JNull data;
           owner_team := get_or "ownerTeam" JNull data;
           entities := []; dependencies := [];
           created_at := get_or "createdAt" JNull data;
           last_modified := get_or "lastModified" JNull data;
           version := get_or "version" (JStr "1.0.0") data |} = inr middle
    ∧ for_each
        (fun config dep_data =>
           dependency ← load_dependency dep_data;
           mret (add_dependency now dependency config))
        deps middle = inr loaded.
Proof.
  unfold load_from_json.
  destruct (entity_items data) as [e|items]; [done|].
  cbn [mbind result_bind].
  match goal with
  | |- context [for_each ?body items ?c] =>
      destruct (for_each body items c) as [e|middle] eqn:Hmiddle; [done|]
  end.
  cbn [mbind result_bind].
  destruct (dependency_items data) as [e|deps]; [done|].
  cbn [mbind result_bind]. intros Hloaded.
  by exists items, deps, middle.
Qed.

(** X4. Whatever keys a document gives to its entities, a configuration
    that [load_from_json] returns stores every entity under the entity's own
    id, with no id twice (two entries with the same id leave one entity);
    it has at most as many entities as the document has entries. *)
Theorem X4_loaded_graph_wf (now : string) (data : dict JValue)
    (entities_data : dict JValue) (loaded : HealthModelConfig) :
  load_from_json now (JObj data) = inr loaded →
  Dict.get "entities" data = Some (JObj entities_data) →
  graph_wf loaded
  ∧ (length (entities loaded) ≤ length entities_data)%nat.
Proof.
  intros (items & deps & middle & Hitems & _ & Hmiddle & Hloaded)%load_from_json_inv
         Hentities.
  unfold entity_items, get_or in Hitems. rewrite Hentities in Hitems.
  cbn in Hitems. injection Hitems as <-.
  apply load_entities_spec in Hmiddle as (Hwf & Hlen & _).
  apply load_dependencies_spec in Hloaded as (Hsame & _).
  split.
  - destruct Hwf as [Hnodup Hids];
      [split; [apply NoDup_nil_2 | apply Forall_nil_2]|].
    unfold graph_wf. by rewrite Hsame.
  - rewrite Hsame. cbn in Hlen. lia.
Qed.

Lemma X4_loaded_graph_wf_witness :
  ∃ loaded,
    load_from_json "t9" (JObj Samples.sparse_document) = inr loaded
    ∧ graph_wf loaded
    ∧ Dict.keys (entities loaded) = ["db"; "api"]
    ∧ name <$> Dict.get "db" (entities loaded) = Some "Database".
Proof.
  destruct (load_from_json "t9" (JObj Samples.sparse_document))
    as [e|loaded] eqn:Hload; [by vm_compute in Hload|].
  exists loaded. split; [reflexivity|].
  destruct (X4_loaded_graph_wf "t9" Samples.sparse_document _ loaded Hload
              eq_refl) as [Hwf _].
  split; [exact Hwf|].
  vm_compute in Hload. injection Hload as <-. by split.
Defined.

Lemma load_entity_missing_key (fields : dict JValue) (required : string) :
  required ∈ ["id"; "name"; "type"; "description"] →
  Dict.get required fields = None →
  ∃ e, load_entity (JObj fields) = inl e.
Proof.
  intros Hrequired Hmissing. unfold load_entity, subscript.
  destruct (Dict.get "id" fields) as [v_id|] eqn:Hid; [|by eexists].
  cbn [mbind result_bind mret result_ret].
  destruct (expect_str "id" v_id) as [?|e_id]; [by eexists|].
  cbn [mbind result_bind].
  destruct (Dict.get "name" fields) as [v_name|] eqn:Hname; [|by eexists].
  cbn [mbind result_bind mret result_ret].
  destruct (expect_str "name" v_name) as [?|e_name]; [by eexists|].
  cbn [mbind result_bind].
  destruct (Dict.get "type" fields) as [v_type|] eqn:Htype; [|by eexists].
  cbn [mbind result_bind mret result_ret].
  destruct (EntityType_call v_type) as [?|e_type]; [by eexists|].
  cbn [mbind result_bind].
  destruct (Dict.get "description" fields) as [v_descr|] eqn:Hdescr;
    [|by eexists].
  exfalso. set_unfold in Hrequired.
  destruct Hrequired as [->|[->|[->|[->|[]]]]]; congruence.
Qed.

Lemma load_dependency_missing_end (fields : dict JValue) :
  Dict.get "sourceEntityId" fields = None
  ∨ Dict.get "targetEntityId" fields = None →
  ∃ e, load_dependency (JObj fields) = inl e.
Proof.
  intros Hmissing. unfold load_dependency, subscript.
  destruct (Dict.get "sourceEntityId" fields) as [v_source|] eqn:Hsource;
    [|by eexists].
  cbn [mbind result_bind mret result_ret].
  destruct (expect_str "sourceEntityId" v_source) as [?|d_source];
    [by eexists|].
  cbn [mbind result_bind].
  destruct (Dict.get "targetEntityId" fields) as [v_target|] eqn:Htarget;
    [|by eexists].
  by destruct Hmissing.
Qed.

(** X5. The four keys id, name, type and description of an entity entry are
    required: a document with an entity entry that lacks one of them does
    not load ([load_from_json] raises and returns no configuration); when
    the entry is the first one and the key it lacks is id, the exception is
    the [KeyError] of that key. The optional keys have defaults. *)
Theorem X5_missing_entity_key_fails (now : string) (data : dict JValue)
    (entities_data : dict JValue) (key : string) (fields : dict JValue)
    (required : string) :
  Dict.get "entities" data = Some (JObj entities_data) →
  (key, JObj fields) ∈ entities_data →
  required ∈ ["id"; "name"; "type"; "description"] →
  Dict.get required fields = None →
  (∃ e, load_from_json now (JObj data) = inl e)
  ∧ (∀ config, load_from_json now (JObj data) ≠ inr config)
  ∧ (∀ rest, entities_data = (key, JObj fields) :: rest → required = "id" →
             load_from_json now (JObj data) = inl (KeyError "id")).
Proof.
  intros Hentities Hin Hrequired Hmissing.
  assert (∃ e, load_from_json now (JObj data) = inl e) as [e He].
  { unfold load_from_json, entity_items, get_or. rewrite Hentities.
    cbn [default from_option Datatypes.id mbind result_bind mret result_ret].
    match goal with
    | |- context [for_each ?body entities_data ?c] =>
        destruct (for_each_raises body entities_data (key, JObj fields) Hin)
          with (s := c) as [e He]
    end.
    - intros s. cbn [snd].
      destruct (load_entity_missing_key fields required Hrequired Hmissing)
        as [e ->].
      by exists e.
    - rewrite He. by exists e. }
  split_and!.
  - by exists e.
  - intros config. by rewrite He.
  - intros rest -> ->. unfold load_from_json, entity_items, get_or.
    rewrite Hentities.
    cbn [default from_option Datatypes.id mbind result_bind mret result_ret
         for_each snd].
    unfold load_entity, subscript. by rewrite Hmissing.
Qed.

Lemma X5_missing_entity_key_fails_witness :
  Dict.get "name" [("id", JStr "api"); ("type", JStr "api");
                   ("description", JStr "")] = None
  ∧ (∃ e, load_from_json "t9" (JObj Samples.nameless_document) = inl e)
  ∧ load_from_json "t9" (JObj Samples.nameless_document)
    = inl (KeyError "name").
Proof.
  split; [reflexivity|]. split; [|vm_compute; reflexivity].
  refine (proj1 (X5_missing_entity_key_fails "t9" Samples.nameless_document
                   _ "api"
                   [("id", JStr "api"); ("type", JStr "api");
                    ("description", JStr "")]
                   "name" eq_refl _ _ eq_refl)); literal_elem.
Defined.

(** X6. The edges of a loaded configuration are the document's dependency
    entries, one for one and in the document's order. The two ends are
    required: an entry without sourceEntityId or targetEntityId makes the
    load raise. A missing dependencyType reads "direct" and a missing
    criticality reads "high". *)
Theorem X6_loaded_dependencies (now : string) (data : dict JValue)
    (items : list JValue) :
  Dict.get "dependencies" data = Some (JList items) →
  (∀ loaded,
     load_from_json now (JObj data) = inr loaded →
     Forall2
       (fun item d =>
          ∃ fields,
            item = JObj fields
            ∧ Dict.get "sourceEntityId" fields = Some (JStr (source_entity_id d))
            ∧ Dict.get "targetEntityId" fields = Some (JStr (target_entity_id d))
            ∧ default (JStr "direct") (Dict.get "dependencyType" fields)
              = JStr (dependency_type d)
            ∧ default (JStr "high") (Dict.get "criticality" fields)
              = JStr (criticality d))
       items (dependencies loaded))
  ∧ (∀ fields,
       JObj fields ∈ items →
       Dict.get "sourceEntityId" fields = None
       ∨ Dict.get "targetEntityId" fields = None →
       ∀ config, load_from_json now (JObj data) ≠ inr config).
Proof.
  intros Hdeps.
  assert (∀ loaded,
            load_from_json now (JObj data) = inr loaded →
            Forall2 (fun item d => load_dependency item = inr d)
                    items (dependencies loaded)) as Hloaded.
  { intros loaded
      (ents & deps & middle & _ & Hitems & Hmiddle & Hloaded)%load_from_json_inv.
    unfold dependency_items, get_or in Hitems. rewrite Hdeps in Hitems.
    cbn in Hitems. injection Hitems as <-.
    apply load_entities_spec in Hmiddle as (_ & _ & Hnone).
    apply load_dependencies_spec in Hloaded as (_ & edges & -> & Hedges).
    by rewrite Hnone. }
  split.
  - intros loaded Hload. eapply Forall2_impl; [by apply Hloaded|].
    intros item d. cbn beta. unfold load_dependency, subscript, get_or.
    destruct item as [| | | | | |fields]; try done.
    destruct (Dict.get "sourceEntityId" fields) as [[| | | |src| |]|] eqn:Hsrc;
      try done.
    destruct (Dict.get "targetEntityId" fields) as [[| | | |tgt| |]|] eqn:Htgt;
      try done.
    cbn [mbind result_bind mret result_ret expect_str expect_dict].
    destruct (default (JStr "direct") (Dict.get "dependencyType" fields))
      as [| | | |dtype| |] eqn:Htype; try done.
    destruct (default (JStr "high") (Dict.get "criticality" fields))
      as [| | | |crit| |] eqn:Hcrit; try done.
    cbn [mbind result_bind mret result_ret expect_str].
    intros Heq. injection Heq as <-. by exists fields.
  - intros fields Hin Hmissing config Hload.
    pose proof (Hloaded config Hload) as Hall.
    apply list_elem_of_lookup in Hin as [i Hi].
    destruct (Forall2_lookup_l _ _ _ i _ Hall Hi) as (d & _ & Hd).
    destruct (load_dependency_missing_end fields Hmissing) as [e He].
    congruence.
Qed.

Lemma X6_loaded_dependencies_witness :
  (∃ loaded,
     load_from_json "t9" (JObj Samples.sparse_document) = inr loaded
     ∧ dependencies loaded
       = [Fixtures.edge "db" "api" "high";
          {| source_entity_id := "cache"; target_entity_id := "api";
             dependency_type := "optional"; criticality := "low" |}])
  ∧ ∀ config,
      load_from_json "t9" (JObj Samples.dangling_document) ≠ inr config.
Proof.
  split.
  - eexists. split; vm_compute; reflexivity.
  - refine (proj2 (X6_loaded_dependencies "t9" Samples.dangling_document
                     _ eq_refl)
                  [("sourceEntityId", JStr "db"); ("criticality", JStr "high")]
                  _ (or_intror eq_refl)).
    literal_elem.
Defined.

(** ** The dependency summary *)

(** X7. The two lists of the dependency summary are two readings of the one
    edge list: [b] is listed under depends_on of [a] exactly when [a] is
    listed under depended_by of [b], and exactly when some edge has source
    [b] and target [a] (whether or not [a] and [b] are entities of the
    graph). *)
Theorem X7_dependency_summary_duality (config : HealthModelConfig)
    (a b : string) :
  ∃ on_a by_a on_b by_b,
    _get_entity_deps config a
    = JObj [("depends_on", JList on_a); ("depended_by", JList by_a)]
    ∧ _get_entity_deps config b
      = JObj [("depends_on", JList on_b); ("depended_by", JList by_b)]
    ∧ (JStr b ∈ on_a ↔ JStr a ∈ by_b)
    ∧ (JStr b ∈ on_a ↔
       ∃ d, d ∈ dependencies config
            ∧ source_entity_id d = b ∧ target_entity_id d = a).
Proof.
  unfold _get_entity_deps. do 4 eexists.
  split; [reflexivity|]. split; [reflexivity|].
  assert (JStr b ∈ map (fun d => JStr (source_entity_id d))
                       (get_entity_dependencies config a)
          ↔ ∃ d, d ∈ dependencies config
                 ∧ source_entity_id d = b ∧ target_entity_id d = a) as Hon.
  { unfold get_entity_dependencies. rewrite filter_bool_decide.
    rewrite list_elem_of_fmap. split.
    - intros (d & Heq & [Htarget Hd]%list_elem_of_filter).
      injection Heq as ->. by exists d.
    - intros (d & Hd & <- & Htarget). exists d.
      split; [done|]. by apply list_elem_of_filter. }
  assert (JStr a ∈ map (fun d => JStr (target_entity_id d))
                       (get_entity_dependents config b)
          ↔ ∃ d, d ∈ dependencies config
                 ∧ source_entity_id d = b ∧ target_entity_id d = a) as Hby.
  { unfold get_entity_dependents. rewrite filter_bool_decide.
    rewrite list_elem_of_fmap. split.
    - intros (d & Heq & [Hsource Hd]%list_elem_of_filter).
      injection Heq as ->. by exists d.
    - intros (d & Hd & Hsource & <-). exists d.
      split; [done|]. by apply list_elem_of_filter. }
  split; [by rewrite Hon, Hby | exact Hon].
Qed.

(** ** What the critical path lists *)

Lemma critical_deps_elem (config : HealthModelConfig) (entity_id : string)
    (d : EntityDependency) :
  d ∈ List.filter is_critical (get_entity_dependencies config entity_id)
  ↔ d ∈ dependencies config ∧ is_critical d = true
    ∧ target_entity_id d = entity_id.
Proof.
  unfold get_entity_dependencies.
  rewrite !list_elem_of_In, !filter_In, bool_decide_eq_true. tauto.
Qed.







(** X9. The walk starts at the literal id "root": when no critical or high
    edge has "root" as its target (as in a graph whose root entity has
    another id) the critical path is the single id "root". *)
Theorem X9_critical_path_without_root_edges (config : HealthModelConfig) :
  (∀ d, d ∈ dependencies config → is_critical d = true →
        target_entity_id d ≠ "root") →
  get_critical_path config = Some ["root"].
Proof.
  intros Hnone.
  assert (List.filter is_critical (get_entity_dependencies config "root") = [])
    as Hempty.
  { destruct (List.filter is_critical (get_entity_dependencies config "root"))
      as [|d rest] eqn:Hdeps; [done|].
    assert (d ∈ List.filter is_critical (get_entity_dependencies config "root"))
      as (Hd & Hcrit & Htarget)%critical_deps_elem
      by (rewrite Hdeps; apply list_elem_of_here).
    by destruct (Hnone d Hd Hcrit). }
  unfold get_critical_path, critical_path_with, critical_fuel.
  cbn [trace_critical visited]. rewrite decide_False by set_solver.
  rewrite Hempty. reflexivity.
Qed.

Lemma X9_critical_path_without_root_edges_witness :
  (∀ d, d ∈ dependencies (create_ecommerce_health_model "t0") →
        is_critical d = true → target_entity_id d ≠ "root")
  ∧ Dict.keys (entities (create_ecommerce_health_model "t0"))
    = ["ecommerce-root"; "api-service"; "product-service"; "order-service";
       "payment-service"; "product-db"; "order-db"; "cache-layer";
       "service-bus"]
  ∧ get_critical_path (create_ecommerce_health_model "t0") = Some ["root"].
Proof.
  assert (∀ d, d ∈ dependencies (create_ecommerce_health_model "t0") →
               is_critical d = true → target_entity_id d ≠ "root") as Hnone.
  { apply (proj1 (Forall_forall
                    (fun d => is_critical d = true → target_entity_id d ≠ "root")
                    _)).
    apply (bool_decide_unpack _). vm_compute. exact I. }
  split; [exact Hnone|]. split; [reflexivity|].
  exact (X9_critical_path_without_root_edges
           (create_ecommerce_health_model "t0") Hnone).
Defined.

(** ** More on the dependency impact *)

Lemma criticality_rank_label (rank : Z) :
  (0 ≤ rank ≤ 3)%Z →
  criticality_rank (default "low" (severity_map rank)) = rank.
Proof.
  intros Hrange. unfold severity_map.
  repeat case_decide; subst; try reflexivity. lia.
Qed.

Lemma max_rank_range (edges : list EntityDependency) :
  (0 ≤ max_rank edges ≤ 3)%Z.
Proof.
  induction edges as [|d edges IH]; cbn [max_rank foldr]; [lia|].
  fold (max_rank edges).
  pose proof (proj1 (criticality_rank_range (criticality d))). lia.
Qed.

Lemma fold_max_rank (edges : list EntityDependency) (a : Z) :
  (0 ≤ a)%Z →
  fold_left Z.max (map severity_of edges) a = Z.max a (max_rank edges).
Proof.
  revert a. induction edges as [|d edges IH]; intros a Ha;
    cbn [map fold_left max_rank foldr]; [lia|].
  fold (max_rank edges). rewrite IH by lia.
  rewrite severity_of_rank. lia.
Qed.

Lemma max_rank_app (l k : list EntityDependency) :
  max_rank (l ++ k) = Z.max (max_rank l) (max_rank k).
Proof.
  induction l as [|d l IH]; cbn [app max_rank foldr].
  - pose proof (max_rank_range k). fold (max_rank k). lia.
  - fold (max_rank (l ++ k)) (max_rank l). rewrite IH. lia.
Qed.

(** The rank of the severity that a report shows. *)
Lemma impact_severity_rank (config : HealthModelConfig) (entity_id : string) :
  ∃ label,
    Dict.get "impact_severity" (get_dependency_impact config entity_id)
    = Some (JStr label)
    ∧ criticality_rank label
      = max_rank (get_entity_dependents config entity_id).
Proof.
  rewrite get_dependency_impact_eq. eexists. split; [reflexivity|].
  destruct (get_entity_dependents config entity_id) as [|d ds]; [done|].
  rewrite fold_max_rank
    by (rewrite severity_of_rank; apply criticality_rank_range).
  rewrite severity_of_rank.
  change (Z.max (criticality_rank (criticality d)) (max_rank ds))
    with (max_rank (d :: ds)).
  apply criticality_rank_label, max_rank_range.
Qed.

(** X10. Adding an edge never lowers the impact of a failure and never
    removes an affected service: after [add_dependency] the severity of
    every entity's report ranks at least as high as before (the rank of a
    report's severity is the largest rank among its dependent edges), and
    the former list of affected services is a prefix of the new one. *)
Theorem X10_add_dependency_raises_impact (now : string)
    (dependency : EntityDependency) (config : HealthModelConfig)
    (entity_id : string) :
  ∃ label label' services more,
    Dict.get "impact_severity" (get_dependency_impact config entity_id)
    = Some (JStr label)
    ∧ Dict.get "impact_severity"
               (get_dependency_impact
                  (add_dependency now dependency config) entity_id)
      = Some (JStr label')
    ∧ criticality_rank label = max_rank (get_entity_dependents config entity_id)
    ∧ (criticality_rank label ≤ criticality_rank label')%Z
    ∧ Dict.get "affected_services" (get_dependency_impact config entity_id)
      = Some (JList services)
    ∧ Dict.get "affected_services"
               (get_dependency_impact
                  (add_dependency now dependency config) entity_id)
      = Some (JList (services ++ more)).
Proof.
  destruct (impact_severity_rank config entity_id) as (label & Hlabel & Hrank).
  destruct (impact_severity_rank (add_dependency now dependency config)
              entity_id) as (label' & Hlabel' & Hrank').
  assert (get_entity_dependents (add_dependency now dependency config) entity_id
          = get_entity_dependents config entity_id
            ++ (if decide (source_entity_id dependency = entity_id)
                then [dependency] else [])) as Hdeps.
  { unfold get_entity_dependents.
    cbn [add_dependency with_dependencies dependencies].
    rewrite List.filter_app. cbn [List.filter].
    destruct (decide (source_entity_id dependency = entity_id)).
    - by rewrite bool_decide_eq_true_2.
    - by rewrite bool_decide_eq_false_2. }
  exists label, label'. do 2 eexists. split_and!; [done|done|done| | |].
  - rewrite Hrank, Hrank', Hdeps, max_rank_app. lia.
  - rewrite get_dependency_impact_eq. reflexivity.
  - rewrite get_dependency_impact_eq, Hdeps. cbn [Dict.get].
    literal_keys. rewrite omap_app. reflexivity.
Qed.

Lemma graph_wf_lookup_id (config : HealthModelConfig) (key : string)
    (entity : HealthModelEntity) :
  graph_wf config → Dict.get key (entities config) = Some entity →
  id entity = key.
Proof.
  intros [_ Hids] Hin%dict_get_elem.
  symmetry. exact (proj1 (Forall_forall _ _) Hids _ Hin).
Qed.

(** X11. In a well-formed graph the entity_id that an affected service
    shows is the target id of its dependent edge; and the report never lists
    more services than the entity has dependent edges. *)
Theorem X11_affected_services_targets (config : HealthModelConfig)
    (entity_id : string) :
  graph_wf config →
  ∃ services,
    Dict.get "affected_services" (get_dependency_impact config entity_id)
    = Some (JList services)
    ∧ services
      = omap (fun d =>
                affected_entity ←
                  Dict.get (target_entity_id d) (entities config);
                Some (JObj [("entity_id", JStr (target_entity_id d));
                            ("entity_name", JStr (name affected_entity));
                            ("criticality", JStr (criticality d));
                            ("dependency_type", JStr (dependency_type d))]))
             (get_entity_dependents config entity_id)
    ∧ (length services ≤ length (get_entity_dependents config entity_id))%nat.
Proof.
  intros Hwf. rewrite get_dependency_impact_eq. eexists.
  split; [reflexivity|].
  assert (∀ l : list EntityDependency,
            omap (resolve_affected config) l
            = omap (fun d =>
                affected_entity ←
                  Dict.get (target_entity_id d) (entities config);
                Some (JObj [("entity_id", JStr (target_entity_id d));
                            ("entity_name", JStr (name affected_entity));
                            ("criticality", JStr (criticality d));
                            ("dependency_type", JStr (dependency_type d))]))
                   l) as Hsame.
  { intros l. apply list_omap_ext, Forall2_same_length_lookup.
    split; [done|]. intros i d d' Hd Hd'. simplify_eq.
    unfold resolve_affected.
    destruct (Dict.get (target_entity_id d) (entities config)) as [e|] eqn:He;
      [|done].
    cbn. by rewrite (graph_wf_lookup_id config _ e Hwf He). }
  split; [apply Hsame|].
  generalize (get_entity_dependents config entity_id). intros l.
  induction l as [|d l IH]; cbn [omap list_omap length]; [lia|].
  destruct (resolve_affected config d); cbn [length]; lia.
Qed.

Lemma X11_affected_services_targets_witness :
  graph_wf (create_ecommerce_health_model "t0")
  ∧ Dict.get "affected_services"
             (get_dependency_impact (create_ecommerce_health_model "t0")
                                    "product-service")
    = Some (JList [JObj [("entity_id", JStr "api-service");
                         ("entity_name", JStr "API Gateway");
                         ("criticality", JStr "high");
                         ("dependency_type", JStr "direct")]]).
Proof.
  assert (graph_wf (create_ecommerce_health_model "t0")) as Hwf.
  { split; [literal_wf|]. cbv. repeat constructor. }
  split; [exact Hwf|].
  destruct (X11_affected_services_targets (create_ecommerce_health_model "t0")
              "product-service" Hwf) as (services & -> & -> & _).
  reflexivity.
Defined.

(** ** Signal definitions of an entity *)

Lemma fold_dict_set_opt {V W : Type} (f : string → V → option W)
    (d : dict V) (acc : dict W) :
  Dict.wf d →
  (∀ k, k ∈ Dict.keys d → k ∉ Dict.keys acc) →
  fold_left
    (fun t item =>
       match f item.1 item.2 with
       | Some w => Dict.set item.1 w t
       | None => t
       end)
    d acc
  = acc ++ omap (fun item => w ← f item.1 item.2; Some (item.1, w)) d.
Proof.
  unfold Dict.wf, Dict.keys. revert acc.
  induction d as [|[k v] d IH]; intros acc Hwf Hfresh;
    cbn [fold_left omap list_omap fst snd].
  - by rewrite app_nil_r.
  - rewrite fmap_cons in Hwf, Hfresh. cbn [fst] in Hwf, Hfresh.
    apply NoDup_cons in Hwf as [Hk Hd].
    destruct (f k v) as [w|]; cbn [mbind option_bind].
    + rewrite dict_set_fresh by (apply Hfresh, list_elem_of_here).
      rewrite IH; [by rewrite <- app_assoc | done |].
      intros k' Hk'. unfold Dict.keys. rewrite fmap_app.
      rewrite elem_of_app. cbn [fmap list_fmap fst].
      rewrite list_elem_of_singleton.
      intros [Hacc | ->]; [|done].
      revert Hacc. apply Hfresh. by apply list_elem_of_further.
    + apply IH; [done|]. intros k' Hk'. apply Hfresh.
      by apply list_elem_of_further.
Qed.

Lemma dict_get_omap {V W : Type} (f : string → V → option W) (d : dict V)
    (k : string) :
  Dict.wf d →
  Dict.get k (omap (fun item => w ← f item.1 item.2; Some (item.1, w)) d)
  = Dict.get k d ≫= f k.
Proof.
  unfold Dict.wf, Dict.keys.
  induction d as [|[k' v] d IH]; intros Hwf; cbn [omap list_omap fst snd];
    [done|].
  rewrite fmap_cons in Hwf. cbn [fst] in Hwf.
  apply NoDup_cons in Hwf as [Hk Hd]. cbn [Dict.get].
  destruct (decide (k' = k)) as [->|Hne].
  - destruct (f k v) as [w|] eqn:Hf; cbn [mbind option_bind Dict.get].
    + by rewrite decide_True.
    + rewrite IH by done.
      apply dict_get_None in Hk. unfold Dict.keys in Hk. by rewrite Hk.
  - destruct (f k' v) as [w|]; cbn [mbind option_bind Dict.get].
    + rewrite decide_False by done. by apply IH.
    + by apply IH.
Qed.

(** X12. [get_signal_definitions] resolves the signals of an entity through
    the collection: for an id that is no entity of the graph the result is
    empty; otherwise it holds, in the order of the entity's signals, each
    signal name whose signal id is a key of the collection, with the
    collection's definition for that id. A name whose id the collection
    lacks is left out without an error. *)
Theorem X12_signal_definitions_resolved (config : HealthModelConfig)
    (signals_collection : dict HealthSignal) (entity_id : string) :
  (Dict.get entity_id (entities config) = None →
   get_signal_definitions config signals_collection entity_id = [])
  ∧ ∀ entity,
      Dict.get entity_id (entities config) = Some entity →
      Dict.wf (signals entity) →
      get_signal_definitions config signals_collection entity_id
      = omap (fun item =>
                signal ← Dict.get item.2 signals_collection;
                Some (item.1, signal))
             (signals entity)
      ∧ ∀ signal_name,
          Dict.get signal_name
                   (get_signal_definitions config signals_collection entity_id)
          = Dict.get signal_name (signals entity)
              ≫= fun signal_id => Dict.get signal_id signals_collection.
Proof.
  unfold get_signal_definitions. split.
  - by intros ->.
  - intros entity -> Hwf.
    rewrite (fold_dict_set_opt (fun _ sid => Dict.get sid signals_collection));
      [|done|intros k _; apply not_elem_of_nil].
    cbn [app]. split; [done|]. intros signal_name.
    by rewrite (dict_get_omap (fun _ sid => Dict.get sid signals_collection)).
Qed.

Lemma X12_signal_definitions_resolved_witness :
  (∀ entity_id,
     entity_id ∈ Dict.keys (entities (create_ecommerce_health_model "t0")) →
     get_signal_definitions (create_ecommerce_health_model "t0")
                            ecommerce_example_signals entity_id = [])
  ∧ get_signal_definitions Fixtures.small_config ecommerce_example_signals
                           "missing" = []
  ∧ Dict.keys ecommerce_example_signals
    = ["response_time"; "error_rate"; "availability"; "request_rate"; "cpu";
       "memory"; "connection_pool"; "query_latency"; "deadlocks"].
Proof.
  split_and!.
  - apply (proj1 (Forall_forall
                    (fun entity_id =>
                       get_signal_definitions
                         (create_ecommerce_health_model "t0")
                         ecommerce_example_signals entity_id = [])
                    _)).
    repeat constructor.
  - exact (proj1 (X12_signal_definitions_resolved Fixtures.small_config
                    ecommerce_example_signals "missing") eq_refl).
  - reflexivity.
Defined.

(** ** The records of the client *)


Lemma HealthState_getitem_name (s : HealthState) :
  HealthState_getitem (HealthState_name s) = Some s.
Proof. by destruct s. Qed.

Lemma HealthState_getitem_None (key : string) :
  key ∉ (HealthState_name <$> HealthState_members) →
  HealthState_getitem key = None.
Proof.
  intros Hnot. unfold HealthState_getitem.
  destruct (List.find _ HealthState_members) as [s|] eqn:Hfind; [|done].
  apply find_some in Hfind as [Hin Heq]. apply bool_decide_eq_true in Heq.
  exfalso. apply Hnot. subst key. apply list_elem_of_fmap. exists s.
  split; [done | by apply list_elem_of_In].
Qed.

Lemma normalize_consistent (now : string) (data : JValue)
    (record : HealthRecord) :
  _normalize_response now data = inr record →
  consistent_record record ∧ is_Some (details record).
Proof.
  unfold _normalize_response.
  destruct data as [| | | | | |fields]; try done.
  destruct (get_or "properties" (JObj []) fields) as [| | | | | |props];
    try done.
  cbn [mret result_ret]. intros Heq. injection Heq as <-.
  split; [|by eexists]. by eexists.
Qed.

(** X13. A record that [_normalize_response] returns has one of the four
    states Healthy, Degraded, Unhealthy, Unknown, the colour of that state
    (green, amber, red, gray) and a dictionary under details. The
    healthState of the response is recognised whatever its letter case; a
    healthState that is missing, is no string or names no state gives
    Unknown. A response whose properties is present and no dictionary makes
    the function raise. *)
Theorem X13_normalize_response_states (now : string) (fields : dict JValue) :
  (∀ record,
     _normalize_response now (JObj fields) = inr record →
     consistent_record record ∧ is_Some (details record))
  ∧ (∀ props,
       get_or "properties" (JObj []) fields = JObj props →
       ∃ record,
         _normalize_response now (JObj fields) = inr record
         ∧ details record = Some props
         ∧ (∀ text s,
              Dict.get "healthState" props = Some (JStr text) →
              upper text = HealthState_name s →
              state record = Some (HealthState_value s)
              ∧ state_color record = Some (state_colors s))
         ∧ ((Dict.get "healthState" props = None
             ∨ (∃ v, Dict.get "healthState" props = Some v
                     ∧ ∀ text, v ≠ JStr text)
             ∨ (∃ text, Dict.get "healthState" props = Some (JStr text)
                        ∧ upper text ∉ (HealthState_name <$> HealthState_members))) →
            state record = Some "Unknown"
            ∧ state_color record = Some "gray"))
  ∧ (∀ v,
       Dict.get "properties" fields = Some v →
       (∀ props, v ≠ JObj props) →
       _normalize_response now (JObj fields) = inl AttributeError).
Proof.
  split_and!.
  - intros record. apply normalize_consistent.
  - intros props Hprops. unfold _normalize_response. rewrite Hprops.
    eexists. split; [reflexivity|]. cbn [details state state_color].
    split; [done|]. unfold get_or. split.
    + intros text s -> Hupper. cbn [default from_option Datatypes.id].
      unfold parse_health_state.
      by rewrite Hupper, HealthState_getitem_name.
    + intros [->|[(v & -> & Hv)|(text & -> & Hnone)]];
        cbn [default from_option Datatypes.id].
      * done.
      * destruct v; try done. by destruct (Hv s).
      * unfold parse_health_state.
        by rewrite (HealthState_getitem_None _ Hnone).
  - intros v Hv Hnot. unfold _normalize_response, get_or. rewrite Hv.
    cbn [default from_option Datatypes.id].
    destruct v; try done. by destruct (Hnot o).
Qed.

Lemma X13_normalize_response_states_witness :
  ∃ record,
    _normalize_response
      "t0" (JObj [("id", JStr "db");
                  ("properties", JObj [("healthState", JStr "dEgrAded")])])
    = inr record
    ∧ state record = Some "Degraded" ∧ state_color record = Some "amber".
Proof.
  destruct (proj1 (proj2 (X13_normalize_response_states
                            "t0"
                            [("id", JStr "db");
                             ("properties",
                                JObj [("healthState", JStr "dEgrAded")])]))
                  [("healthState", JStr "dEgrAded")] eq_refl)
    as (record & Hrecord & _ & Hstate & _).
  exists record. split; [exact Hrecord|].
  exact (Hstate "dEgrAded" DEGRADED eq_refl eq_refl).
Defined.




(** ** The views on a snapshot of the client *)

Lemma workload_health_origin (all_health : dict HealthRecord) :
  get_workload_health all_health = unknown_health
  ∨ ∃ entity_id, (entity_id, get_workload_health all_health) ∈ all_health.
Proof.
  unfold get_workload_health.
  destruct (find_model_root all_health) as [health|] eqn:Hfind.
  - right. apply find_model_root_Some in Hfind as (k & Hk & _). by exists k.
  - destruct all_health as [|[k health] rest]; [by left|].
    right. exists k. apply list_elem_of_here.
Qed.

Lemma consistent_bucket (health : HealthRecord) (s : HealthState) :
  state health = Some (HealthState_value s) →
  spec_bucket health = state_bucket s.
Proof. unfold spec_bucket. intros ->. by destruct s. Qed.

Lemma filter_ext_in {A : Type} (P Q : A → Prop)
    `{!∀ x, Decision (P x)} `{!∀ x, Decision (Q x)} (l : list A) :
  Forall (fun x => P x ↔ Q x) l → filter P l = filter Q l.
Proof.
  induction 1 as [|x l Hx _ IH]; [done|]. rewrite !filter_cons.
  destruct (decide (P x)) as [HP|HP], (decide (Q x)) as [HQ|HQ];
    rewrite ?IH; tauto.
Qed.

(** X15. On a snapshot in which every record has one of the four states
    with its colour (as the snapshots of the client have), the workload
    health is such a record too, also when it is the placeholder of an empty
    snapshot; and the summary counts each record in the bucket of its state,
    so that unknown_count is the number of records whose state is
    Unknown. *)
Theorem X15_views_on_client_snapshot (now : string)
    (all_health : dict HealthRecord) :
  (∀ entity_id record,
     (entity_id, record) ∈ all_health → consistent_record record) →
  consistent_record (get_workload_health all_health)
  ∧ ∀ s : HealthState,
      bucket_count (state_bucket s) (get_health_summary now all_health)
      = length (filter (fun item => state item.2 = Some (HealthState_value s))
                       all_health).
Proof.
  intros Hall. split.
  - destruct (workload_health_origin all_health) as [->|[k Hk]].
    + by exists UNKNOWN.
    + by apply (Hall k).
  - intros s. unfold get_health_summary.
    match goal with
    | |- context [fold_left count_entity all_health ?s0] => set (summary := s0)
    end.
    destruct (calculate_percentages_frame
                (fold_left count_entity all_health summary) (state_bucket s))
      as (_ & -> & _).
    destruct (count_loop_bucket all_health summary (state_bucket s))
      as [-> _].
    assert (bucket_count (state_bucket s) summary = 0) as -> by by destruct s.
    cbn [Nat.add]. f_equal. unfold in_bucket.
    apply filter_ext_in. apply Forall_forall. intros [k record] Hin.
    cbn [snd]. destruct (Hall k record Hin) as (s' & Hstate & _).
    rewrite (consistent_bucket record s' Hstate), Hstate. split.
    + intros Heq. by destruct s, s'.
    + intros Heq. injection Heq as Heq. by destruct s, s'.
Qed.

Lemma X15_views_on_client_snapshot_witness :
  ∃ snapshot,
    get_all_entities_health "t0" (ResponseJson Samples.api_response)
    = inr snapshot
    ∧ consistent_record (get_workload_health snapshot)
    ∧ unknown_count (get_health_summary "t1" snapshot) = 2
    ∧ healthy_count (get_health_summary "t1" snapshot) = 1.
Proof.
  destruct (get_all_entities_health "t0" (ResponseJson Samples.api_response))
    as [e|snapshot] eqn:Hsnapshot; [by vm_compute in Hsnapshot|].
  exists snapshot. split; [reflexivity|].
  assert (∀ entity_id record,
            (entity_id, record) ∈ snapshot → consistent_record record) as Hall.
  { vm_compute in Hsnapshot. injection Hsnapshot as <-.
    intros entity_id record Hin.
    repeat (apply elem_of_cons in Hin as [Heq|Hin];
            [injection Heq as -> ->|]).
    - by exists HEALTHY.
    - by exists DEGRADED.
    - by exists UNKNOWN.
    - by exists UNKNOWN.
    - by apply elem_of_nil in Hin. }
  destruct (X15_views_on_client_snapshot "t1" snapshot Hall) as [Hworkload _].
  split; [exact Hworkload|].
  vm_compute in Hsnapshot. injection Hsnapshot as <-. by split.
Defined.

(** X16. [get_entity_health] never fails on a failed request: it returns a
    record with state Unknown and colour gray. Every record it returns has
    one of the four states with that state's colour; and for an id that is
    an entity of the configuration the record carries the configuration's
    name and type of the entity under entity_name and entity_type,
    whatever name the service gave. *)
Theorem X16_entity_health_annotated (config : HealthModelConfig) (now : string)
    (entity_id : string) :
  (∀ message,
     ∃ record,
       get_entity_health config now (RequestException message) entity_id
       = inr record
       ∧ state record = Some "Unknown" ∧ state_color record = Some "gray")
  ∧ ∀ outcome record,
      get_entity_health config now outcome entity_id = inr record →
      consistent_record record
      ∧ ∀ entity,
          Dict.get entity_id (entities config) = Some entity →
          Dict.get "entity_name" (other_items record)
          = Some (JStr (name entity))
          ∧ Dict.get "entity_type" (other_items record)
            = Some (JStr (EntityType_value (entity_type entity))).
Proof.
  split.
  - intros message. unfold get_entity_health.
    cbn [get_entity_health_state mbind result_bind mret result_ret].
    destruct (Dict.get entity_id (entities config)); by eexists.
  - intros outcome record. unfold get_entity_health.
    destruct (get_entity_health_state now outcome entity_id)
      as [e|health] eqn:Hhealth; [done|].
    cbn [mbind result_bind].
    assert (consistent_record health) as Hconsistent.
    { destruct outcome as [message|data]; cbn in Hhealth.
      - injection Hhealth as <-. by exists UNKNOWN.
      - by apply (normalize_consistent now data). }
    destruct (Dict.get entity_id (entities config)) as [entity|];
      cbn [mret result_ret]; intros Heq; injection Heq as <-.
    + split; [exact Hconsistent|]. intros ? Heq. injection Heq as <-.
      cbn [other_items]. split.
      * rewrite dict_get_set_ne by done. apply dict_get_set_eq.
      * apply dict_get_set_eq.
    + by split.
Qed.

Lemma X16_entity_health_annotated_witness :
  ∃ record,
    get_entity_health Fixtures.small_config "t0"
                      (ResponseJson (Samples.api_item "api" "Gateway" "healthy"))
                      "api"
    = inr record
    ∧ consistent_record record
    ∧ Dict.get "entity_name" (other_items record) = Some (JStr "API")
    ∧ Dict.get "entity_type" (other_items record) = Some (JStr "api").
Proof.
  destruct (get_entity_health
              Fixtures.small_config "t0"
              (ResponseJson (Samples.api_item "api" "Gateway" "healthy")) "api")
    as [e|record] eqn:Hrecord; [by vm_compute in Hrecord|].
  exists record. split; [reflexivity|].
  destruct (proj2 (X16_entity_health_annotated Fixtures.small_config "t0" "api")
                  _ record Hrecord) as [Hconsistent Hnamed].
  split; [exact Hconsistent|].
  exact (Hnamed (Fixtures.entity "api" "API" API) eq_refl).
Defined.

(** ** The health tree and the records it reads *)

(** X17. The health tree reads the snapshot only at the ids of the graph's
    entities: two snapshots that agree on those ids give the same tree, so
    records of ids that are no entity of the graph never show in it. *)
Theorem X17_health_tree_reads_graph_ids (config : HealthModelConfig)
    (all_health all_health' : dict HealthRecord) :
  (∀ entity_id, entity_id ∈ Dict.keys (entities config) →
                Dict.get entity_id all_health = Dict.get entity_id all_health') →
  get_health_tree config all_health = get_health_tree config all_health'.
Proof.
  unfold get_health_tree, Dict.keys.
  generalize ([] : dict JValue).
  induction (entities config) as [|[k e] es IH]; intros acc Hagree;
    cbn [fold_left fst snd]; [done|].
  rewrite (Hagree k) by (rewrite fmap_cons; apply list_elem_of_here).
  apply IH. intros k' Hk'. apply Hagree. rewrite fmap_cons.
  by apply list_elem_of_further.
Qed.

Lemma X17_health_tree_reads_graph_ids_witness :
  (∀ entity_id,
     entity_id ∈ Dict.keys (entities Fixtures.small_config) →
     Dict.get entity_id Fixtures.small_health
     = Dict.get entity_id
         (("stranger", Fixtures.record "Unhealthy" "red")
            :: Fixtures.small_health))
  ∧ get_health_tree Fixtures.small_config Fixtures.small_health
    = get_health_tree Fixtures.small_config
        (("stranger", Fixtures.record "Unhealthy" "red")
           :: Fixtures.small_health).
Proof.
  assert (∀ entity_id,
            entity_id ∈ Dict.keys (entities Fixtures.small_config) →
            Dict.get entity_id Fixtures.small_health
            = Dict.get entity_id
                (("stranger", Fixtures.record "Unhealthy" "red")
                   :: Fixtures.small_health)) as Hagree.
  { apply (proj1 (Forall_forall
                    (fun entity_id =>
                       Dict.get entity_id Fixtures.small_health
                       = Dict.get entity_id
                           (("stranger", Fixtures.record "Unhealthy" "red")
                              :: Fixtures.small_health))
                    _)).
    repeat constructor. }
  split; [exact Hagree|].
  exact (X17_health_tree_reads_graph_ids Fixtures.small_config _ _ Hagree).
Defined.

(** ** The header of a loaded configuration *)

Lemma load_entities_header (now : string) (items : dict JValue) :
  ∀ config loaded,
    for_each
      (fun config item =>
         entity ← load_entity item.2; mret (add_entity now entity config))
      items config = inr loaded →
    model_id loaded = model_id config
    ∧ model_name loaded = model_name config
    ∧ config_description loaded = config_description config
    ∧ owner_team loaded = owner_team config
    ∧ created_at loaded = created_at config
    ∧ version loaded = version config
    ∧ last_modified loaded
      = match items with [] => last_modified config | _ => JStr now end.
Proof.
  induction items as [|item items IH]; intros config loaded; cbn [for_each].
  - intros Heq. by injection Heq as <-.
  - destruct (load_entity item.2) as [e|entity]; [done|].
    cbn [mbind result_bind mret result_ret].
    intros (-> & -> & -> & -> & -> & -> & ->)%IH.
    split_and!; try done. by destruct items.
Qed.

Lemma load_dependencies_header (now : string) (items : list JValue) :
  ∀ config loaded,
    for_each
      (fun config dep_data =>
         dependency ← load_dependency dep_data;
         mret (add_dependency now dependency config))
      items config = inr loaded →
    model_id loaded = model_id config
    ∧ model_name loaded = model_name config
    ∧ config_description loaded = config_description config
    ∧ owner_team loaded = owner_team config
    ∧ created_at loaded = created_at config
    ∧ version loaded = version config
    ∧ last_modified loaded
      = match items with [] => last_modified config | _ => JStr now end.
Proof.
  induction items as [|item items IH]; intros config loaded; cbn [for_each].
  - intros Heq. by injection Heq as <-.
  - destruct (load_dependency item) as [e|d]; [done|].
    cbn [mbind result_bind mret result_ret].
    intros (-> & -> & -> & -> & -> & -> & ->)%IH.
    split_and!; try done. by destruct items.
Qed.

Lemma load_entities_nonempty (now : string) (items : dict JValue) :
  ∀ config loaded,
    for_each
      (fun config item =>
         entity ← load_entity item.2; mret (add_entity now entity config))
      items config = inr loaded →
    entities config ≠ [] → entities loaded ≠ [].
Proof.
  induction items as [|item items IH]; intros config loaded; cbn [for_each].
  - intros Heq. by injection Heq as <-.
  - destruct (load_entity item.2) as [e|entity]; [done|].
    cbn [mbind result_bind mret result_ret]. intros Hloaded Hconfig.
    apply (IH _ _ Hloaded). cbn [add_entity with_entities entities].
    destruct (entities config) as [|[k v] es]; [done|].
    cbn [Dict.set]. by case_decide.
Qed.

(** X18. A loaded configuration takes its header from the document, a
    missing key reading as None and a missing version as "1.0.0"; but its
    last_modified is the document's lastModified only when the document has
    no entity and no dependency: every [add_entity] and [add_dependency] of
    the load stamps the clock, so a document with an entity or an edge loads
    with the time of the load as last_modified. *)
Theorem X18_loaded_header (now : string) (data : dict JValue)
    (loaded : HealthModelConfig) :
  load_from_json now (JObj data) = inr loaded →
  model_id loaded = default JNull (Dict.get "modelId" data)
  ∧ model_name loaded = default JNull (Dict.get "modelName" data)
  ∧ config_description loaded = default JNull (Dict.get "description" data)
  ∧ owner_team loaded = default JNull (Dict.get "ownerTeam" data)
  ∧ created_at loaded = default JNull (Dict.get "createdAt" data)
  ∧ version loaded = default (JStr "1.0.0") (Dict.get "version" data)
  ∧ (entities loaded = [] → dependencies loaded = [] →
     last_modified loaded = default JNull (Dict.get "lastModified" data))
  ∧ (entities loaded ≠ [] ∨ dependencies loaded ≠ [] →
     last_modified loaded = JStr now).
Proof.
  intros (items & deps & middle & _ & _ & Hmiddle & Hloaded)%load_from_json_inv.
  pose proof (load_entities_header _ _ _ _ Hmiddle)
    as (Hid & Hname & Hdescr & Howner & Hcreated & Hversion & Hmod).
  pose proof (load_dependencies_header _ _ _ _ Hloaded)
    as (Hid' & Hname' & Hdescr' & Howner' & Hcreated' & Hversion' & Hmod').
  pose proof (load_entities_spec _ _ _ _ Hmiddle) as (_ & _ & Hnodeps).
  pose proof (load_dependencies_spec _ _ _ _ Hloaded)
    as (Hsame & edges & Hedges & Hall).
  cbn in Hid, Hname, Hdescr, Howner, Hcreated, Hversion, Hmod, Hnodeps.
  rewrite Hnodeps in Hedges. cbn [app] in Hedges.
  assert (items = [] ↔ entities middle = []) as Hitems.
  { clear -Hmiddle. split.
    - intros ->. cbn in Hmiddle. by injection Hmiddle as <-.
    - destruct items as [|item items]; [done|]. intros Hempty. exfalso.
      revert Hmiddle Hempty. cbn [for_each].
      destruct (load_entity item.2) as [e|entity]; [done|].
      cbn [mbind result_bind mret result_ret].
      intros Hrest Hempty.
      apply (load_entities_nonempty _ _ _ _ Hrest); [|done].
      cbn [add_entity with_entities entities]. done. }
  assert (deps = [] ↔ dependencies loaded = []) as Hdeps.
  { rewrite Hedges. split.
    - intros ->. by apply Forall2_nil_inv_l in Hall.
    - intros ->. by apply Forall2_nil_inv_r in Hall. }
  rewrite Hid', Hname', Hdescr', Howner', Hcreated', Hversion', Hmod'.
  rewrite Hid, Hname, Hdescr, Howner, Hcreated, Hversion, Hmod.
  unfold get_or. split_and!; try done.
  - rewrite Hsame. intros ->%Hitems ->%Hdeps. done.
  - rewrite Hsame. intros [Hne|Hne].
    + destruct deps; [|done]. destruct items; [|done].
      by destruct Hne; apply Hitems.
    + destruct deps; [|done]. by destruct Hne; apply Hdeps.
Qed.

Lemma X18_loaded_header_witness :
  ∃ loaded,
    load_from_json "t9" (to_dict Fixtures.small_config) = inr loaded
    ∧ last_modified Fixtures.small_config = JStr "t2"
    ∧ last_modified loaded = JStr "t9"
    ∧ created_at loaded = JStr "t0".
Proof.
  destruct (load_from_json "t9" (to_dict Fixtures.small_config))
    as [e|loaded] eqn:Hload; [by vm_compute in Hload|].
  exists loaded. split; [reflexivity|]. split; [reflexivity|].
  destruct (X18_loaded_header "t9" _ loaded Hload)
    as (_ & _ & _ & _ & Hcreated & _ & _ & Hmod).
  split; [|exact Hcreated].
  apply Hmod. left. vm_compute in Hload. by injection Hload as <-.
Defined.

(** ** The environment file *)

Lemma chars_app (s1 s2 : string) :
  String.list_ascii_of_string (s1 ++ s2)%string
  = String.list_ascii_of_string s1 ++ String.list_ascii_of_string s2.
Proof. induction s1 as [|a s1 IH]; simpl; [done | by f_equal]. Qed.

Lemma strip_chars_fixed (s : string) :
  strip s = s →
  strip_chars (String.list_ascii_of_string s) = String.list_ascii_of_string s.
Proof.
  unfold strip. intros Hs.
  apply (f_equal String.list_ascii_of_string) in Hs.
  by rewrite String.list_ascii_of_string_of_list_ascii in Hs.
Qed.

Lemma split_equals_first (key value : list ascii) :
  "="%char ∉ key →
  split_equals (key ++ "="%char :: value) = Some (key, value).
Proof.
  induction key as [|a key IH]; cbn [app split_equals].
  - intros _. by rewrite decide_True.
  - rewrite not_elem_of_cons. intros [Hne Hkey].
    rewrite decide_False by done. by rewrite IH.
Qed.

Lemma unquote_quoted (q : ascii) (inner : list ascii) :
  q = double_quote ∨ q = "'"%char →
  unquote (q :: inner ++ [q]) = inner.
Proof.
  assert (quoted_by q (q :: inner ++ [q]) = true) as Hq.
  { unfold quoted_by. cbn [head].
    rewrite bool_decide_eq_true_2 by done.
    rewrite bool_decide_eq_true_2; [done|].
    change (q :: inner ++ [q]) with ((q :: inner) ++ [q]).
    by rewrite last_snoc. }
  assert (removelast (tail (q :: inner ++ [q])) = inner) as Hmiddle.
  { cbn [tail]. by rewrite removelast_last. }
  intros [->| ->]; unfold unquote; rewrite ?Hq, ?Hmiddle; [done|].
  by destruct (quoted_by double_quote _).
Qed.

(** X19. A line [key=value] of the file, free of white space at its two
    ends, at the ends of its key and at the ends of its value, not a
    comment, and whose key holds no ['='], defines the key: [parse_line]
    gives the key and the value, where the value may itself hold ['='], and
    where a value written between two double quotes or two single quotes is
    given without them. *)
Theorem X19_parse_line_key_value (key value : string) :
  strip (key ++ "=" ++ value) = (key ++ "=" ++ value)%string →
  head (String.list_ascii_of_string key) ≠ Some "#"%char →
  "="%char ∉ String.list_ascii_of_string key →
  strip key = key →
  strip value = value →
  parse_line (key ++ "=" ++ value)
  = Some (key,
          String.string_of_list_ascii
            (unquote (String.list_ascii_of_string value)))
  ∧ (∀ q inner,
       q = double_quote ∨ q = "'"%char →
       value = String q (inner ++ String q "") →
       parse_line (key ++ "=" ++ value) = Some (key, inner))
  ∧ (head (String.list_ascii_of_string value) ≠ Some double_quote →
     head (String.list_ascii_of_string value) ≠ Some "'"%char →
     parse_line (key ++ "=" ++ value) = Some (key, value)).
Proof.
  intros Hline Hcomment Hkey Hskey Hsvalue.
  assert (parse_line (key ++ "=" ++ value)
          = Some (key,
                  String.string_of_list_ascii
                    (unquote (String.list_ascii_of_string value)))) as Hparse.
  { unfold parse_line. rewrite (strip_chars_fixed _ Hline).
    rewrite !chars_app. cbn [String.list_ascii_of_string app].
    destruct (String.list_ascii_of_string key ++ "="%char
                :: String.list_ascii_of_string value)
      as [|first rest] eqn:Hchars.
    { by destruct (String.list_ascii_of_string key). }
    rewrite decide_False.
    - rewrite <- Hchars, split_equals_first by done.
      rewrite (strip_chars_fixed _ Hskey), (strip_chars_fixed _ Hsvalue).
      by rewrite String.string_of_list_ascii_of_string.
    - intros ->. destruct (String.list_ascii_of_string key) as [|a k];
        cbn in Hchars; [done|].
      injection Hchars as -> _. by apply Hcomment. }
  split_and!; [exact Hparse| |].
  - intros q inner Hq ->. rewrite Hparse. f_equal. f_equal.
    cbn [String.list_ascii_of_string]. rewrite chars_app.
    cbn [String.list_ascii_of_string].
    rewrite (unquote_quoted q _ Hq).
    apply String.string_of_list_ascii_of_string.
  - intros Hdouble Hsingle. rewrite Hparse. f_equal. f_equal.
    unfold unquote, quoted_by.
    rewrite (bool_decide_eq_false_2 _ Hdouble).
    rewrite (bool_decide_eq_false_2 _ Hsingle).
    apply String.string_of_list_ascii_of_string.
Qed.

Lemma X19_parse_line_key_value_witness :
  strip "AZURE_AUTH_TOKEN='a=b c'" = "AZURE_AUTH_TOKEN='a=b c'"
  ∧ parse_line "AZURE_AUTH_TOKEN='a=b c'"
    = Some ("AZURE_AUTH_TOKEN", "a=b c").
Proof.
  split; [reflexivity|].
  refine (proj1 (proj2 (X19_parse_line_key_value "AZURE_AUTH_TOKEN" "'a=b c'"
                          eq_refl _ _ eq_refl eq_refl))
                "'"%char "a=b c" (or_intror eq_refl) eq_refl).
  - discriminate.
  - apply (bool_decide_unpack _). vm_compute. exact I.
Defined.

Lemma environ_set_inv (refuses : string → string → bool) (key value : string)
    (env env' : Environ) :
  environ_set refuses key value env = inr env' → env' = <[key := value]> env.
Proof.
  unfold environ_set. destruct (refuses key value); [done|].
  intros Heq. by injection Heq as <-.
Qed.

Lemma load_line_spec (refuses : string → string → bool) (st st' : EnvState)
    (line key : string) :
  load_line refuses st line = inr st' →
  Dict.get key (env_vars st')
  = match assigns key line with
    | Some value => Some value
    | None => Dict.get key (env_vars st)
    end
  ∧ environ st' !! key
    = match assigns key line with
      | Some value =>
          if decide (value = "") then environ st !! key else Some value
      | None => environ st !! key
      end.
Proof.
  unfold load_line, assigns.
  destruct (parse_line line) as [[k value]|].
  - destruct (decide (value = "")) as [->|Hvalue].
    + cbn [mret result_ret]. intros Heq. injection Heq as <-.
      cbn [env_vars environ].
      destruct (decide (k = key)) as [->|Hne].
      * by rewrite dict_get_set_eq.
      * by rewrite dict_get_set_ne.
    + destruct (environ_set refuses k value (environ st)) as [e|env'] eqn:Hset;
        [done|].
      cbn [mbind result_bind mret result_ret].
      intros Heq. injection Heq as <-. cbn [env_vars environ].
      apply environ_set_inv in Hset as ->.
      destruct (decide (k = key)) as [->|Hne].
      * rewrite dict_get_set_eq, lookup_insert_eq.
        by rewrite decide_False.
      * by rewrite dict_get_set_ne, lookup_insert_ne.
  - cbn [mret result_ret]. intros Heq. by injection Heq as <-.
Qed.

Lemma load_lines_spec (refuses : string → string → bool) (lines : list string)
    (key : string) :
  ∀ st st',
    for_each (load_line refuses) lines st = inr st' →
    Dict.get key (env_vars st')
    = match last_assignment key lines with
      | Some value => Some value
      | None => Dict.get key (env_vars st)
      end
    ∧ environ st' !! key
      = match last_export key lines with
        | Some value => Some value
        | None => environ st !! key
        end.
Proof.
  induction lines as [|line lines IH]; intros st st'; cbn [for_each].
  - intros Heq. by injection Heq as <-.
  - destruct (load_line refuses st line) as [e|st1] eqn:Hline; [done|].
    cbn [mbind result_bind]. intros [Hvars Henv]%IH.
    destruct (load_line_spec refuses st st1 line key Hline) as [Hvars1 Henv1].
    cbn [last_assignment last_export]. rewrite Hvars, Henv, Hvars1, Henv1.
    split.
    + by destruct (last_assignment key lines), (assigns key line).
    + destruct (last_export key lines); [done|].
      destruct (assigns key line) as [value|]; [|done]. by case_decide.
Qed.

(** X20. After the file is read, [get] answers from the file first: a key
    that the file assigns reads as the value of the last line that assigns
    it, also when that value is empty and whatever the process environment
    holds for the key; a key that the file does not assign reads from the
    process environment as it was before the load, and as the default when
    the environment lacks it too. *)
Theorem X20_file_shadows_environment (refuses : string → string → bool)
    (lines : list string) (env : Environ) (st : EnvState) (key : string)
    (dflt : option string) :
  load_env refuses (Some lines) env = inr st →
  Dict.get key (env_vars st) = last_assignment key lines
  ∧ (∀ value, last_assignment key lines = Some value →
              env_get st key dflt = Some value)
  ∧ (last_assignment key lines = None →
     env_get st key dflt
     = match env !! key with Some value => Some value | None => dflt end).
Proof.
  cbn [load_env]. intros [Hvars Henv]%(load_lines_spec refuses lines key).
  cbn [env_vars environ Dict.get] in Hvars, Henv.
  assert (Dict.get key (env_vars st) = last_assignment key lines) as Hget
    by (rewrite Hvars; by destruct (last_assignment key lines)).
  split_and!; [done| |].
  - intros value Hlast. unfold env_get. by rewrite Hget, Hlast.
  - intros Hlast. unfold env_get. rewrite Hget, Hlast, Henv.
    assert (last_export key lines = None) as ->; [|done].
    clear -Hlast. induction lines as [|line lines IH]; [done|].
    cbn [last_assignment last_export] in *.
    destruct (last_assignment key lines); [done|].
    rewrite IH by done. by rewrite Hlast.
Qed.

Lemma X20_file_shadows_environment_witness :
  ∃ st,
    load_env posix_refuses
             (Some ["HEALTH_MODEL_NAME=one"; "HEALTH_MODEL_NAME="])
             {["HEALTH_MODEL_NAME" := "from-shell"]} = inr st
    ∧ env_get st "HEALTH_MODEL_NAME" None = Some ""
    ∧ environ st !! "HEALTH_MODEL_NAME" = Some "one".
Proof.
  destruct (load_env posix_refuses
                     (Some ["HEALTH_MODEL_NAME=one"; "HEALTH_MODEL_NAME="])
                     {["HEALTH_MODEL_NAME" := "from-shell"]})
    as [e|st] eqn:Hload; [by vm_compute in Hload|].
  exists st. split; [reflexivity|]. split.
  - exact (proj1 (proj2 (X20_file_shadows_environment _ _ _ st
                           "HEALTH_MODEL_NAME" None Hload)) "" eq_refl).
  - vm_compute in Hload. injection Hload as <-. reflexivity.
Defined.

(** X21. Reading the file changes the process environment only through
    the lines that assign a non-empty value: after the load a key holds the
    value of the last such line for it, overwriting what the environment
    held, and a key without such a line holds what it held before (an
    assignment of the empty value exports nothing). *)
Theorem X21_environment_after_load (refuses : string → string → bool)
    (lines : list string) (env : Environ) (st : EnvState) (key : string) :
  load_env refuses (Some lines) env = inr st →
  environ st !! key
  = match last_export key lines with
    | Some value => Some value
    | None => env !! key
    end.
Proof.
  cbn [load_env]. by intros [_ Henv]%(load_lines_spec refuses lines key).
Qed.

Lemma X21_environment_after_load_witness :
  ∃ st,
    load_env posix_refuses (Some ["A=1"; "B="; "# A=2"; "A = '3'"])
             {["A" := "0"; "B" := "0"; "C" := "0"]} = inr st
    ∧ environ st !! "A" = Some "3"
    ∧ environ st !! "B" = Some "0"
    ∧ environ st !! "C" = Some "0".
Proof.
  destruct (load_env posix_refuses (Some ["A=1"; "B="; "# A=2"; "A = '3'"])
                     {["A" := "0"; "B" := "0"; "C" := "0"]})
    as [e|st] eqn:Hload; [by vm_compute in Hload|].
  exists st. split; [reflexivity|].
  rewrite !(X21_environment_after_load _ _ _ st _ Hload). by split_and!.
Defined.

Lemma list_filter_nil {A : Type} (f : A → bool) (l : list A) :
  List.filter f l = [] ↔ ∀ x, x ∈ l → f x = false.
Proof.
  induction l as [|x l IH]; cbn [List.filter].
  - split; [by intros _ ? ?%elem_of_nil | done].
  - destruct (f x) eqn:Hx.
    + split; [done|]. intros Hall.
      specialize (Hall x (list_elem_of_here _ _)). congruence.
    + rewrite IH. split.
      * intros Hall y [->|Hy]%elem_of_cons; auto.
      * intros Hall y Hy. apply Hall. by apply list_elem_of_further.
Qed.

Lemma env_get_after_load (refuses : string → string → bool)
    (file : option (list string)) (env : Environ) (st : EnvState)
    (key : string) (dflt : option string) :
  load_env refuses file env = inr st →
  env_get st key dflt
  = match last_assignment key (default [] file) with
    | Some value => Some value
    | None => match env !! key with Some value => Some value | None => dflt end
    end.
Proof.
  destruct file as [lines|]; cbn [load_env default from_option Datatypes.id].
  - intros [Hvars Henv]%(load_lines_spec refuses lines key).
    cbn [env_vars environ Dict.get] in Hvars, Henv.
    unfold env_get. rewrite Hvars, Henv.
    destruct (last_assignment key lines) eqn:Hlast; [done|].
    assert (last_export key lines = None) as ->; [|done].
    clear -Hlast. induction lines as [|line lines IH]; [done|].
    cbn [last_assignment last_export] in *.
    destruct (last_assignment key lines); [done|].
    rewrite IH by done. by rewrite Hlast.
  - cbn [mret result_ret]. intros Heq. by injection Heq as <-.
Qed.

(** X22. [validate] accepts exactly when each of the three required
    variables has a non-empty value, where the value is the one of the last
    line of the file that assigns the variable and, only when no line
    assigns it (or no file exists), the one of the process environment. So
    a file that assigns the empty value to a required variable fails the
    validation whatever the environment holds; the file that
    [_create_default_env] writes is such a file. *)
Theorem X22_validate_required_variables (refuses : string → string → bool)
    (file : option (list string)) (env : Environ) (st : EnvState) :
  load_env refuses file env = inr st →
  (validate st = true ↔
   ∀ key, key ∈ required_variables →
          match last_assignment key (default [] file) with
          | Some value => value ≠ ""
          | None => ∃ value, env !! key = Some value ∧ value ≠ ""
          end)
  ∧ (∀ key, key ∈ required_variables →
            last_assignment key (default [] file) = Some "" →
            validate st = false)
  ∧ ∀ key, key ∈ required_variables →
           last_assignment key default_content = Some "".
Proof.
  intros Hload.
  assert (validate st = true ↔
          ∀ key, key ∈ required_variables →
                 match last_assignment key (default [] file) with
                 | Some value => value ≠ ""
                 | None => ∃ value, env !! key = Some value ∧ value ≠ ""
                 end) as Hiff.
  { unfold validate.
    transitivity (List.filter (is_missing st) required_variables = []).
    { by destruct (List.filter (is_missing st) required_variables). }
    rewrite list_filter_nil. apply forall_proper. intros key.
    apply forall_proper. intros Hkey. unfold is_missing.
    rewrite (env_get_after_load refuses file env st key None Hload).
    destruct (last_assignment key (default [] file)) as [value|].
    - by rewrite bool_decide_eq_false.
    - destruct (env !! key) as [value|].
      + rewrite bool_decide_eq_false. split; [by exists value|].
        intros (v & Heq & Hv). by injection Heq as ->.
      + split; [done|]. by intros (v & ? & _). }
  split_and!; [exact Hiff| |].
  - intros key Hkey Hlast. apply not_true_is_false. intros Hvalid.
    pose proof (proj1 Hiff Hvalid key Hkey) as Hvalue.
    by rewrite Hlast in Hvalue.
  - apply (proj1 (Forall_forall
                    (fun key => last_assignment key default_content = Some "")
                    _)).
    repeat constructor.
Qed.

Lemma X22_validate_required_variables_witness :
  ∃ st,
    load_env posix_refuses (Some default_content)
             {["AZURE_SUBSCRIPTION_ID" := "sub";
               "AZURE_RESOURCE_GROUP" := "rg";
               "HEALTH_MODEL_NAME" := "model"]} = inr st
    ∧ validate st = false
    ∧ ∃ st',
        load_env posix_refuses None
                 {["AZURE_SUBSCRIPTION_ID" := "sub";
                   "AZURE_RESOURCE_GROUP" := "rg";
                   "HEALTH_MODEL_NAME" := "model"]} = inr st'
        ∧ validate st' = true.
Proof.
  destruct (load_env posix_refuses (Some default_content)
              {["AZURE_SUBSCRIPTION_ID" := "sub";
                "AZURE_RESOURCE_GROUP" := "rg";
                "HEALTH_MODEL_NAME" := "model"]})
    as [e|st] eqn:Hload; [by vm_compute in Hload|].
  exists st. split; [reflexivity|]. split.
  - refine (proj1 (proj2 (X22_validate_required_variables _ _ _ st Hload))
                  "HEALTH_MODEL_NAME" _ eq_refl).
    literal_elem.
  - eexists. split; reflexivity.
Defined.

(** X23. Reading the file fails exactly when a line assigns a non-empty
    value under a name, or with a value, that the process environment
    refuses (on POSIX with CPython 3.9 or later: the empty name of a line
    such as [=value], or a null byte); an assignment of the empty value is
    never handed to the environment. A missing file defines nothing and,
    the errors of the file system apart, does not fail. *)
Theorem X23_load_env_failure (refuses : string → string → bool)
    (lines : list string) (env : Environ) :
  ((∃ e, load_env refuses (Some lines) env = inl e) ↔
   ∃ line key value,
     line ∈ lines ∧ parse_line line = Some (key, value) ∧ value ≠ ""
     ∧ refuses key value = true)
  ∧ ∃ st, load_env refuses None env = inr st ∧ env_vars st = [].
Proof.
  split; [|by eexists]. cbn [load_env].
  generalize {| env_vars := []; environ := env |}.
  induction lines as [|line lines IH]; intros st; cbn [for_each].
  - split; [by intros [e ?]|]. by intros (? & ? & ? & ?%elem_of_nil & _).
  - destruct (load_line refuses st line) as [e|st1] eqn:Hline.
    + split; [|by exists e]. intros _.
      unfold load_line in Hline.
      destruct (parse_line line) as [[key value]|] eqn:Hparse; [|done].
      destruct (decide (value = "")) as [->|Hvalue]; [done|].
      exists line, key, value.
      split_and!; [apply list_elem_of_here|done|done|].
      unfold environ_set in Hline. by destruct (refuses key value).
    + cbn [mbind result_bind]. rewrite IH. split.
      * intros (line' & key & value & Hin & Hrest).
        exists line', key, value. split; [by apply list_elem_of_further|done].
      * intros (line' & key & value & [->|Hin]%elem_of_cons & Hparse
                & Hvalue & Hbad).
        -- exfalso. unfold load_line in Hline. rewrite Hparse in Hline.
           rewrite decide_False in Hline by done.
           unfold environ_set in Hline. by rewrite Hbad in Hline.
        -- by exists line', key, value.
Qed.

Lemma X23_load_env_failure_witness :
  parse_line "=secret" = Some ("", "secret")
  ∧ (∃ e, load_env posix_refuses (Some ["A=1"; "=secret"; "B=2"]) ∅ = inl e)
  ∧ ∃ st, load_env posix_refuses (Some ["A=1"; "="; "B=2"]) ∅ = inr st.
Proof.
  split; [reflexivity|]. split.
  - apply (proj2 (proj1 (X23_load_env_failure posix_refuses
                           ["A=1"; "=secret"; "B=2"] ∅))).
    exists "=secret", "", "secret". split_and!; [literal_elem|done..].
  - eexists. vm_compute. reflexivity.
Defined.

(** ** The end-to-end example *)

Example small_tree_keys :
  Dict.keys (get_health_tree Fixtures.small_config Fixtures.small_health)
  = ["root"; "api"; "db"].
Proof. reflexivity. Qed.

Example small_impact_db :
  get_dependency_impact Fixtures.small_config "db"
  = [("failed_entity", JStr "db"); ("failed_entity_name", JStr "Database");
     ("affected_services",
        JList [JObj [("entity_id", JStr "api"); ("entity_name", JStr "API");
                     ("criticality", JStr "high");
                     ("dependency_type", JStr "direct")]]);
     ("impact_severity", JStr "high")].
Proof. reflexivity. Qed.

Example small_critical_path :
  get_critical_path Fixtures.small_config = Some ["root"; "api"; "db"].
Proof. vm_compute. reflexivity. Qed.

Example small_summary_counts :
  let s := get_health_summary "now" (("root", empty_health) :: Fixtures.small_health) in
  (total_entities s, healthy_count s, unhealthy_count s, unknown_count s)
  = (3, 1, 1, 1).
Proof. reflexivity. Qed.

Example small_round_trip :
  entities <$> load_from_json "t9" (to_dict Fixtures.small_config)
  = inr (entities Fixtures.small_config).
Proof. vm_compute. reflexivity. Qed.

